(** * The device I/O multiplexer of the MINIX file server (servers/fs/device.c)

    A shallow embedding of the routines of [device.c] and the properties of
    its specification.  The file server is single threaded: every routine is
    a function from the server state to an outcome, in a small state and
    abort monad.  Everything the server asks of the outside world (the
    kernel's IPC, the grant table, other files of the server) is answered by
    an environment; every such exchange is logged in the state's trace, in
    the order in which it happened. *)

From Stdlib Require Import ZArith Lia Bool String List.
From stdpp Require Import base list.
Import ListNotations.

Local Open Scope Z_scope.

(** ** Constants and macros of the headers

    [device.c] takes its constants from headers that are not part of the
    sources at hand ([minix/com.h], [minix/const.h], [errno.h], [fcntl.h],
    [minix/safecopies.h], [minix/ioctl.h], ...).  They are parameters of the
    development. *)

Class Consts := {
  (* table sizes *)
  NR_DEVICES : Z;  NR_IOREQS : Z;
  (* endpoints *)
  NONE : Z;  FS_PROC_NR : Z;  RS_PROC_NR : Z;
  (* status codes *)
  OK : Z;  ENXIO : Z;  EIO : Z;  ENODEV : Z;  EINTR : Z;  EAGAIN : Z;
  ENFILE : Z;  SUSPEND : Z;
  EDEADSRCDST : Z;  EDSTDIED : Z;  ESRCDIED : Z;  ELOCKED : Z;
  (* message types *)
  DEV_OPEN : Z;  DEV_CLOSE : Z;  CANCEL : Z;
  DEV_READ : Z;  DEV_WRITE : Z;  DEV_GATHER : Z;  DEV_SCATTER : Z;
  DEV_IOCTL : Z;
  DEV_READ_S : Z;  DEV_WRITE_S : Z;  DEV_GATHER_S : Z;  DEV_SCATTER_S : Z;
  DEV_IOCTL_S : Z;
  DEV_STATUS : Z;  DEV_REVIVE : Z;  DEV_IO_READY : Z;  DEV_NO_STATUS : Z;
  DEVCTL : Z;
  (* flags, access bits, call numbers *)
  O_NONBLOCK : Z;  O_NOCTTY : Z;
  CPF_READ : Z;  CPF_WRITE : Z;
  R_BIT : Z;  W_BIT : Z;
  READ : Z;  WRITE : Z;
  (* grants *)
  GRANT_INVALID : Z;
  GRANT_VALID : Z -> bool;
  (* process table *)
  PID_FREE : Z;  SUSPENDED : Z;  TRUE : Z;
  (* inodes *)
  ALL_MODES : Z;  I_CHAR_SPECIAL : Z;
  (* sizeof(iovec_t), and the reduction of an integer to the range of the
     unsigned type vir_bytes *)
  SIZEOF_IOVEC : Z;
  to_vir_bytes : Z -> Z;
  (* the address of new_iovec, the static vector of safe_io_conversion, in
     the address space of the file server *)
  IOVEC_ADDR : Z;
  (* the _MINIX_IOCTL_* macros on a request code *)
  IOCTL_IOR : Z -> bool;  IOCTL_IOW : Z -> bool;  IOCTL_BIG : Z -> bool;
  IOCTL_SIZE : Z -> Z;  IOCTL_SIZE_BIG : Z -> Z
}.

(** What the proofs need of the constants: the labels of one [switch] and
    the codes that the properties tell apart are different numbers, and a grant
    id that passes the code's [< 0] test is one that [GRANT_VALID] accepts,
    which the initial [GRANT_INVALID] is not. *)
Class ConstsOk (K : Consts) : Prop := {
  read_s_write_s : DEV_READ_S <> DEV_WRITE_S;
  read_gather : DEV_READ <> DEV_GATHER;
  read_scatter : DEV_READ <> DEV_SCATTER;
  write_gather : DEV_WRITE <> DEV_GATHER;
  write_scatter : DEV_WRITE <> DEV_SCATTER;
  open_close : DEV_OPEN <> DEV_CLOSE;
  enxio_suspend : ENXIO <> SUSPEND;
  enodev_suspend : ENODEV <> SUSPEND;
  eagain_suspend : EAGAIN <> SUSPEND;
  grant_valid_nonneg : forall g, 0 <= g -> GRANT_VALID g = true;
  grant_invalid_invalid : GRANT_VALID GRANT_INVALID = false
}.

(** Modelled from the spec: the MAJOR, MINOR and BYTE macros, which are not
    under src/.  The major is the top and the minor the bottom byte of a
    16-bit device number. *)
Definition MAJOR : Z := 8.
Definition MINOR : Z := 0.
Definition BYTE : Z := 255.

(** [(dev >> MAJOR) & BYTE] and [(dev >> MINOR) & BYTE]. *)
Definition major_of (dev : Z) : Z := Z.land (Z.shiftr dev MAJOR) BYTE.
Definition minor_of (dev : Z) : Z := Z.land (Z.shiftr dev MINOR) BYTE.

(** Modelled from the spec: dev_t, whose typedef is not under src/, is 16
    bits wide; a value assigned to a dev_t keeps its low 16 bits. *)
Definition to_dev_t (z : Z) : Z := Z.land z 65535.

(** ** Data *)

(** Modelled from the spec: the layout of a message, which is declared in
    headers that are not under src/.  The names [device.c] uses are macros
    for the fields of one struct, and a request and its reply lie in the
    same storage: [DEVICE], [DEV_MINOR] and [REP_ENDPT] name the field
    [m2_i1]; [IO_ENDPT], [DEV_SEL_OPS] and [REP_STATUS] the field [m2_i2];
    [COUNT] and [REP_IO_GRANT] the field [m2_i3]; [POSITION] is [m2_l1],
    [HIGHPOS] is [m2_l2]; [ADDRESS] and [IO_GRANT] name the field [m2_p1].
    So a write to [IO_ENDPT] is read back as [REP_STATUS] until a reply
    overwrites it.  The fields of a DEVCTL message belong to another
    member of the union and are kept apart: [device.c] reads them only in
    a message it has just received, and writes every field above before
    it reads one of them again. *)
Record message := {
  m_source : Z;  m_type : Z;
  m2_i1 : Z;  m2_i2 : Z;  m2_i3 : Z;  m2_l1 : Z;  m2_l2 : Z;  m2_p1 : Z;
  ctl_req : Z;  dev_nr : Z;  driver_nr : Z;  dev_style : Z;  m_force : Z
}.

Definition DEVICE (m : message) : Z := m2_i1 m.
Definition IO_ENDPT (m : message) : Z := m2_i2 m.
Definition COUNT (m : message) : Z := m2_i3 m.
Definition POSITION (m : message) : Z := m2_l1 m.
Definition HIGHPOS (m : message) : Z := m2_l2 m.
Definition ADDRESS (m : message) : Z := m2_p1 m.
Definition IO_GRANT (m : message) : Z := m2_p1 m.
Definition REP_ENDPT (m : message) : Z := m2_i1 m.
Definition REP_STATUS (m : message) : Z := m2_i2 m.
Definition REP_IO_GRANT (m : message) : Z := m2_i3 m.
Definition DEV_MINOR (m : message) : Z := m2_i1 m.
Definition DEV_SEL_OPS (m : message) : Z := m2_i2 m.

Definition set_m_type (v : Z) (m : message) : message :=
  {| m_source := m_source m; m_type := v; m2_i1 := m2_i1 m; m2_i2 := m2_i2 m;
     m2_i3 := m2_i3 m; m2_l1 := m2_l1 m; m2_l2 := m2_l2 m; m2_p1 := m2_p1 m;
     ctl_req := ctl_req m; dev_nr := dev_nr m; driver_nr := driver_nr m;
     dev_style := dev_style m; m_force := m_force m |}.
Definition set_DEVICE (v : Z) (m : message) : message :=
  {| m_source := m_source m; m_type := m_type m; m2_i1 := v;
     m2_i2 := m2_i2 m; m2_i3 := m2_i3 m; m2_l1 := m2_l1 m; m2_l2 := m2_l2 m;
     m2_p1 := m2_p1 m; ctl_req := ctl_req m; dev_nr := dev_nr m;
     driver_nr := driver_nr m; dev_style := dev_style m;
     m_force := m_force m |}.
Definition set_IO_ENDPT (v : Z) (m : message) : message :=
  {| m_source := m_source m; m_type := m_type m; m2_i1 := m2_i1 m;
     m2_i2 := v; m2_i3 := m2_i3 m; m2_l1 := m2_l1 m; m2_l2 := m2_l2 m;
     m2_p1 := m2_p1 m; ctl_req := ctl_req m; dev_nr := dev_nr m;
     driver_nr := driver_nr m; dev_style := dev_style m;
     m_force := m_force m |}.
Definition set_COUNT (v : Z) (m : message) : message :=
  {| m_source := m_source m; m_type := m_type m; m2_i1 := m2_i1 m;
     m2_i2 := m2_i2 m; m2_i3 := v; m2_l1 := m2_l1 m; m2_l2 := m2_l2 m;
     m2_p1 := m2_p1 m; ctl_req := ctl_req m; dev_nr := dev_nr m;
     driver_nr := driver_nr m; dev_style := dev_style m;
     m_force := m_force m |}.
Definition set_POSITION (v : Z) (m : message) : message :=
  {| m_source := m_source m; m_type := m_type m; m2_i1 := m2_i1 m;
     m2_i2 := m2_i2 m; m2_i3 := m2_i3 m; m2_l1 := v; m2_l2 := m2_l2 m;
     m2_p1 := m2_p1 m; ctl_req := ctl_req m; dev_nr := dev_nr m;
     driver_nr := driver_nr m; dev_style := dev_style m;
     m_force := m_force m |}.
Definition set_HIGHPOS (v : Z) (m : message) : message :=
  {| m_source := m_source m; m_type := m_type m; m2_i1 := m2_i1 m;
     m2_i2 := m2_i2 m; m2_i3 := m2_i3 m; m2_l1 := m2_l1 m; m2_l2 := v;
     m2_p1 := m2_p1 m; ctl_req := ctl_req m; dev_nr := dev_nr m;
     driver_nr := driver_nr m; dev_style := dev_style m;
     m_force := m_force m |}.
Definition set_ADDRESS (v : Z) (m : message) : message :=
  {| m_source := m_source m; m_type := m_type m; m2_i1 := m2_i1 m;
     m2_i2 := m2_i2 m; m2_i3 := m2_i3 m; m2_l1 := m2_l1 m; m2_l2 := m2_l2 m;
     m2_p1 := v; ctl_req := ctl_req m; dev_nr := dev_nr m;
     driver_nr := driver_nr m; dev_style := dev_style m;
     m_force := m_force m |}.
Definition set_IO_GRANT (v : Z) (m : message) : message :=
  {| m_source := m_source m; m_type := m_type m; m2_i1 := m2_i1 m;
     m2_i2 := m2_i2 m; m2_i3 := m2_i3 m; m2_l1 := m2_l1 m; m2_l2 := m2_l2 m;
     m2_p1 := v; ctl_req := ctl_req m; dev_nr := dev_nr m;
     driver_nr := driver_nr m; dev_style := dev_style m;
     m_force := m_force m |}.
Definition set_REP_STATUS (v : Z) (m : message) : message :=
  {| m_source := m_source m; m_type := m_type m; m2_i1 := m2_i1 m;
     m2_i2 := v; m2_i3 := m2_i3 m; m2_l1 := m2_l1 m; m2_l2 := m2_l2 m;
     m2_p1 := m2_p1 m; ctl_req := ctl_req m; dev_nr := dev_nr m;
     driver_nr := driver_nr m; dev_style := dev_style m;
     m_force := m_force m |}.

(** The functions a dmap entry can point to: the open/close and the I/O
    routines of [device.c]. *)
Inductive opcl_fn := gen_opcl_fn | tty_opcl_fn | ctty_opcl_fn | clone_opcl_fn | no_dev_fn.
Inductive io_fn := gen_io_fn | ctty_io_fn | no_dev_io_fn.

(** struct dmap *)
Record dmap_t := {
  dmap_opcl : opcl_fn;
  dmap_io : io_fn;
  dmap_driver : Z
}.

(** struct fproc, the fields [device.c] uses.  [fp_filp] holds pointers
    into the filp table ([None] for a null pointer). *)
Record fproc_t := {
  fp_pid : Z;  fp_endpoint : Z;
  fp_suspended : Z;  fp_task : Z;  fp_grant : Z;  fp_ioproc : Z;
  fp_sesldr : Z;  fp_tty : Z;
  fp_filp : list (option nat)
}.

Definition set_fp_tty (v : Z) (p : fproc_t) : fproc_t :=
  {| fp_pid := fp_pid p; fp_endpoint := fp_endpoint p;
     fp_suspended := fp_suspended p; fp_task := fp_task p;
     fp_grant := fp_grant p; fp_ioproc := fp_ioproc p;
     fp_sesldr := fp_sesldr p; fp_tty := v; fp_filp := fp_filp p |}.
Definition set_fp_sesldr (v : Z) (p : fproc_t) : fproc_t :=
  {| fp_pid := fp_pid p; fp_endpoint := fp_endpoint p;
     fp_suspended := fp_suspended p; fp_task := fp_task p;
     fp_grant := fp_grant p; fp_ioproc := fp_ioproc p;
     fp_sesldr := v; fp_tty := fp_tty p; fp_filp := fp_filp p |}.
Definition set_fp_grant (v : Z) (p : fproc_t) : fproc_t :=
  {| fp_pid := fp_pid p; fp_endpoint := fp_endpoint p;
     fp_suspended := fp_suspended p; fp_task := fp_task p;
     fp_grant := v; fp_ioproc := fp_ioproc p;
     fp_sesldr := fp_sesldr p; fp_tty := fp_tty p; fp_filp := fp_filp p |}.
Definition set_fp_ioproc (v : Z) (p : fproc_t) : fproc_t :=
  {| fp_pid := fp_pid p; fp_endpoint := fp_endpoint p;
     fp_suspended := fp_suspended p; fp_task := fp_task p;
     fp_grant := fp_grant p; fp_ioproc := v;
     fp_sesldr := fp_sesldr p; fp_tty := fp_tty p; fp_filp := fp_filp p |}.
Definition set_fp_suspended (susp task : Z) (p : fproc_t) : fproc_t :=
  {| fp_pid := fp_pid p; fp_endpoint := fp_endpoint p;
     fp_suspended := susp; fp_task := task;
     fp_grant := fp_grant p; fp_ioproc := fp_ioproc p;
     fp_sesldr := fp_sesldr p; fp_tty := fp_tty p; fp_filp := fp_filp p |}.

(** struct filp and struct inode, the fields [device.c] uses;
    [i_zone0] is [i_zone[0]], where a special file keeps its device. *)
Record filp_t := { filp_count : Z;  filp_flags : Z;  filp_ino : option nat }.
Record inode_t := { i_mode : Z;  i_dev : Z;  i_count : Z;  i_zone0 : Z }.

(** A buffer pointer ([void *buf]): [Caller a] is the address [a] that the
    caller gave, [NewIovec] points to [new_iovec], the static array of
    [safe_io_conversion].

    The code compares such pointers in two places.  In [dev_bio] the buffer
    is an object of the file server itself (the routine panics for any other
    process), so it and [new_iovec] are two objects of one address space,
    and their pointers differ: [bufptr_eqb].  In [dev_io] the buffer is a
    virtual address of the process [proc_e], a number that may well be the
    one at which [new_iovec] lies in the file server; there the test
    [buf != buf_used] compares the values: [vir_addr]. *)
Inductive bufptr := Caller (a : Z) | NewIovec.

Definition bufptr_eqb (p q : bufptr) : bool :=
  match p, q with
  | Caller a, Caller b => a =? b
  | NewIovec, NewIovec => true
  | _, _ => false
  end.

(** The value of a pointer. *)
Definition vir_addr {K : Consts} (p : bufptr) : Z :=
  match p with
  | Caller a => a
  | NewIovec => IOVEC_ADDR
  end.

(** What the server exchanged with the outside, oldest first. *)
Inductive event :=
| EvSendrec (dst : Z) (req : message) (r : Z) (rep : message)
| EvReceive (src : Z) (r : Z) (rep : message)
| EvSend (dst : Z) (m : message) (r : Z)
| EvGrantMagic (driver owner : Z) (buf : bufptr) (bytes access : Z) (gid : Z)
| EvGrantDirect (driver : Z) (buf : bufptr) (bytes access : Z) (gid : Z)
| EvRevoke (gid : Z)
| EvSuspend (task : Z)
| EvRevive (endpt status : Z)
| EvSelectNotified (d minor ops : Z)
| EvDevctl (req dev driver style force : Z)
| EvPutInode (ino : nat)
| EvMemcpy (dst src : bufptr) (bytes : Z).

(** The state of the file server that [device.c] reads and writes. *)
Record state := {
  dmap : list dmap_t;          (* dmap[NR_DEVICES] *)
  fproc : list fproc_t;        (* fproc[NR_PROCS] *)
  fp : option nat;             (* the current process, null at init time *)
  filp : list filp_t;
  inode : list inode_t;
  new_iovec : list (Z * Z);    (* the static vector of safe_io_conversion *)
  call_nr : Z;
  in_REQUEST : Z;              (* m_in.REQUEST *)
  in_fd : Z;                   (* m_in.fd *)
  root_dev : Z;
  err_code : Z;
  trace : list event
}.

Definition set_dmap (v : list dmap_t) (s : state) : state :=
  {| dmap := v; fproc := fproc s; fp := fp s; filp := filp s;
     inode := inode s; new_iovec := new_iovec s; call_nr := call_nr s;
     in_REQUEST := in_REQUEST s; in_fd := in_fd s; root_dev := root_dev s;
     err_code := err_code s; trace := trace s |}.
Definition set_fproc (v : list fproc_t) (s : state) : state :=
  {| dmap := dmap s; fproc := v; fp := fp s; filp := filp s;
     inode := inode s; new_iovec := new_iovec s; call_nr := call_nr s;
     in_REQUEST := in_REQUEST s; in_fd := in_fd s; root_dev := root_dev s;
     err_code := err_code s; trace := trace s |}.
Definition set_filp (v : list filp_t) (s : state) : state :=
  {| dmap := dmap s; fproc := fproc s; fp := fp s; filp := v;
     inode := inode s; new_iovec := new_iovec s; call_nr := call_nr s;
     in_REQUEST := in_REQUEST s; in_fd := in_fd s; root_dev := root_dev s;
     err_code := err_code s; trace := trace s |}.
Definition set_inode (v : list inode_t) (s : state) : state :=
  {| dmap := dmap s; fproc := fproc s; fp := fp s; filp := filp s;
     inode := v; new_iovec := new_iovec s; call_nr := call_nr s;
     in_REQUEST := in_REQUEST s; in_fd := in_fd s; root_dev := root_dev s;
     err_code := err_code s; trace := trace s |}.
Definition set_new_iovec (v : list (Z * Z)) (s : state) : state :=
  {| dmap := dmap s; fproc := fproc s; fp := fp s; filp := filp s;
     inode := inode s; new_iovec := v; call_nr := call_nr s;
     in_REQUEST := in_REQUEST s; in_fd := in_fd s; root_dev := root_dev s;
     err_code := err_code s; trace := trace s |}.
Definition set_err_code (v : Z) (s : state) : state :=
  {| dmap := dmap s; fproc := fproc s; fp := fp s; filp := filp s;
     inode := inode s; new_iovec := new_iovec s; call_nr := call_nr s;
     in_REQUEST := in_REQUEST s; in_fd := in_fd s; root_dev := root_dev s;
     err_code := v; trace := trace s |}.
Definition log (e : event) (s : state) : state :=
  {| dmap := dmap s; fproc := fproc s; fp := fp s; filp := filp s;
     inode := inode s; new_iovec := new_iovec s; call_nr := call_nr s;
     in_REQUEST := in_REQUEST s; in_fd := in_fd s; root_dev := root_dev s;
     err_code := err_code s; trace := trace s ++ [e] |}.

(** ** The environment

    Each answer may depend on everything that happened before (the trace),
    so an environment is any behaviour of the kernel, the drivers and the
    reincarnation server.  The routines of the file server that are not in
    [device.c] and whose work is not modelled ([fs_devctl], [revive],
    [select_notified]) act on the state as the environment says. *)
Class Env := {
  k_sendrec : list event -> Z -> message -> Z * message;
  k_receive : list event -> Z -> Z * message;
  k_send : list event -> Z -> message -> Z;
  k_grant_magic : list event -> Z -> Z -> bufptr -> Z -> Z -> Z;
  k_grant_direct : list event -> Z -> bufptr -> Z -> Z -> Z;
  (* the contents of an automatic message before it is written *)
  k_uninit : list event -> message;
  (* v[j] of the iovec_t array that the file server finds at a buffer
     address in its own memory: the address and the size of element j.
     For a vector that overlaps new_iovec this is what the server has
     stored there by then, which the history determines. *)
  k_iovec : list event -> bufptr -> Z -> Z * Z;
  (* isokendpt and okendpt of the file server, which read the process table *)
  k_isokendpt : list fproc_t -> Z -> Z;
  k_okendpt : list fproc_t -> Z -> option nat;
  (* alloc_inode fails with this error, when it says so *)
  k_alloc_fail : list event -> option Z;
  x_fs_devctl : Z -> Z -> Z -> Z -> Z -> state -> Z * state;
  x_revive : Z -> Z -> state -> state;
  x_select_notified : Z -> Z -> Z -> state -> state
}.

(** ** The monad *)

Inductive abort :=
| Panic (msg : string)        (* panic(): the server stops *)
| AssertFail (msg : string)   (* a failed assert() *)
| NullDeref                   (* a null pointer is dereferenced *)
| OutOfBounds                 (* an array is read outside its bounds *)
| Unbounded                   (* a recursion that never ends *)
| OutOfFuel.                  (* the model ran out of fuel *)

Inductive outcome (A : Type) :=
| Done (a : A) (s : state)
| Abort (why : abort) (s : state).
Arguments Done {A} a s.
Arguments Abort {A} why s.

Definition M (A : Type) : Type := state -> outcome A.

Definition ret {A} (a : A) : M A := fun s => Done a s.
Definition bind {A B} (m : M A) (k : A -> M B) : M B :=
  fun s => match m s with
           | Done a s' => k a s'
           | Abort w s' => Abort w s'
           end.
Definition stop {A} (w : abort) : M A := fun s => Abort w s.
Definition panic {A} (msg : string) : M A := stop (Panic msg).
Definition gets {A} (f : state -> A) : M A := fun s => Done (f s) s.
Definition modify (f : state -> state) : M unit := fun s => Done tt (f s).

Notation "'let*' x ':=' m 'in' k" := (bind m (fun x => k))
  (at level 10, x pattern, m at level 100, k at level 200).
Notation "m ';;' k" := (bind m (fun _ => k))
  (at level 100, k at level 200, right associativity).

(** Array access at a C index: outside the array the read is undefined. *)
Definition zlookup {A} (l : list A) (i : Z) : option A :=
  if 0 <=? i then l !! Z.to_nat i else None.

Definition index {A} (l : list A) (i : Z) : M A :=
  match zlookup l i with
  | Some x => ret x
  | None => stop OutOfBounds
  end.

(** What [safe_io_conversion] leaves in its out-parameters, with its result
    [c_safe].  [c_gids] holds the entries of [gids] that the call wrote:
    [gids[0]] to [gids[c_vec_grants - 1]], the only ones read afterwards. *)
Record conv := {
  c_safe : bool;
  c_gid : Z;
  c_op : Z;
  c_gids : list Z;
  c_io_ept : Z;
  c_buf : bufptr;
  c_vec_grants : Z;
  c_pos : Z
}.

(** ** The routines *)

Section Routines.
Context {K : Consts} {E : Env}.

(** *** The outside world

    [sendrec] leaves in the message what the environment says, also when
    it fails (the kernel then leaves the message as it was, which the
    environment is free to do).  The [printf]s of the file are left out. *)

Definition sendrec (dst : Z) (m : message) : M (Z * message) := fun s =>
  let '(r, rep) := k_sendrec (trace s) dst m in
  Done (r, rep) (log (EvSendrec dst m r rep) s).

Definition receive (src : Z) : M (Z * message) := fun s =>
  let '(r, rep) := k_receive (trace s) src in
  Done (r, rep) (log (EvReceive src r rep) s).

Definition send (dst : Z) (m : message) : M Z := fun s =>
  let r := k_send (trace s) dst m in
  Done r (log (EvSend dst m r) s).

Definition cpf_grant_magic (driver owner : Z) (buf : bufptr) (bytes access : Z) : M Z :=
  fun s =>
  let g := k_grant_magic (trace s) driver owner buf bytes access in
  Done g (log (EvGrantMagic driver owner buf bytes access g) s).

Definition cpf_grant_direct (driver : Z) (buf : bufptr) (bytes access : Z) : M Z :=
  fun s =>
  let g := k_grant_direct (trace s) driver buf bytes access in
  Done g (log (EvGrantDirect driver buf bytes access g) s).

Definition cpf_revoke (g : Z) : M unit := modify (log (EvRevoke g)).

Definition uninit : M message := gets (fun s => k_uninit (trace s)).

Definition isokendpt (e : Z) : M Z := gets (fun s => k_isokendpt (fproc s) e).

Definition memcpy (dst src : bufptr) (n : Z) : M unit :=
  modify (log (EvMemcpy dst src n)).

Definition fs_devctl (req dev driver style force : Z) : M Z := fun s =>
  let '(r, s') := x_fs_devctl req dev driver style force
                    (log (EvDevctl req dev driver style force) s) in
  Done r s'.

Definition revive (endpt status : Z) : M unit :=
  modify (fun s => x_revive endpt status (log (EvRevive endpt status) s)).

Definition select_notified (d minor ops : Z) : M unit :=
  modify (fun s => x_select_notified d minor ops (log (EvSelectNotified d minor ops) s)).

(** *** The tables *)

(** [dmap[i]], read through a pointer into the table. *)
Definition dmap_at (i : Z) : M dmap_t :=
  let* t := gets dmap in index t i.

(** [*fp], the record of the current process. *)
Definition cur_fproc : M fproc_t :=
  let* f := gets fp in
  match f with
  | None => stop NullDeref
  | Some i => let* t := gets fproc in index t (Z.of_nat i)
  end.

(** An assignment to fields of [*fp]. *)
Definition update_cur_fproc (f : fproc_t -> fproc_t) : M unit :=
  let* cur := gets fp in
  match cur with
  | None => stop NullDeref
  | Some i =>
      let* t := gets fproc in
      let* p := index t (Z.of_nat i) in
      modify (set_fproc (<[i := f p]> t))
  end.

(** Modelled from the spec: dmap_unmap_by_endpt (dmap.c, not under src/)
    clears every binding that references the endpoint; a cleared binding
    has endpoint NONE and the absent handlers. *)
Definition dmap_unmap_by_endpt (e : Z) : M unit :=
  modify (fun s =>
    set_dmap (map (fun d => if dmap_driver d =? e
                            then {| dmap_opcl := no_dev_fn; dmap_io := no_dev_io_fn;
                                    dmap_driver := NONE |}
                            else d) (dmap s)) s).

(** Modelled from the spec: suspend (pipe.c, not under src/) records on the
    caller's process record that it is suspended on the driver;
    [suspended_ep] below finds it again as [fp_task == -driver]. *)
Definition suspend (task : Z) : M unit :=
  modify (log (EvSuspend task)) ;;
  update_cur_fproc (set_fp_suspended SUSPENDED (- task)).

(** Modelled from the spec: alloc_inode (inode.c, not under src/) yields a
    fresh inode of the given mode, with one reference, or fails and leaves
    the error in err_code. *)
Fixpoint free_slot (l : list inode_t) (i : nat) : option nat :=
  match l with
  | [] => None
  | x :: l' => if i_count x =? 0 then Some i else free_slot l' (S i)
  end.

Definition alloc_inode (dev bits : Z) : M (option nat) := fun s =>
  match k_alloc_fail (trace s) with
  | Some e => Done None (set_err_code e s)
  | None =>
      match free_slot (inode s) 0 with
      | None => Done None (set_err_code ENFILE s)
      | Some i =>
          Done (Some i)
            (set_inode (<[i := {| i_mode := bits; i_dev := dev; i_count := 1;
                                 i_zone0 := 0 |}]> (inode s)) s)
      end
  end.

(** Modelled from the spec: put_inode (inode.c, not under src/) drops one
    reference to the inode; a null pointer is ignored. *)
Definition put_inode (rip : option nat) : M unit :=
  match rip with
  | None => ret tt
  | Some i =>
      let* t := gets inode in
      let* x := index t (Z.of_nat i) in
      modify (fun s =>
        log (EvPutInode i)
          (set_inode (<[i := {| i_mode := i_mode x; i_dev := i_dev x;
                               i_count := i_count x - 1;
                               i_zone0 := i_zone0 x |}]> t) s))
  end.

(** *** gen_io, no_dev_io, ctty_io (lines 653-752) *)

(** The handlers get the message by pointer: they return their result and
    the message as they leave it. *)
Definition gen_io (task_nr : Z) (mess : message) : M (Z * message) :=
  let proc_e := IO_ENDPT mess in
  let* (r, mess) := sendrec task_nr mess in
  if negb (r =? OK) then
    if (r =? EDEADSRCDST) || (r =? EDSTDIED) || (r =? ESRCDIED) then
      dmap_unmap_by_endpt task_nr ;;
      ret (r, mess)
    else if r =? ELOCKED then
      ret (r, mess)
    else panic "call_task: can't send/receive"
  else if negb (REP_ENDPT mess =? proc_e) then
    ret (EIO, mess)
  else ret (OK, mess).

Definition no_dev_io (proc : Z) (mess : message) : M (Z * message) :=
  ret (EIO, mess).

(** [ctty_io] calls the I/O routine of the controlling terminal's entry.
    If that routine is [ctty_io] again, it finds the same process, the same
    terminal and the same entry, and the recursion never ends. *)
Definition ctty_io (task_nr : Z) (mess : message) : M (Z * message) :=
  let* p := cur_fproc in
  if fp_tty p =? 0 then
    ret (OK, set_REP_STATUS EIO mess)
  else
    let mess := set_DEVICE (minor_of (fp_tty p)) mess in
    let* dp := dmap_at (major_of (fp_tty p)) in
    if dmap_driver dp =? NONE then ret (EIO, mess)
    else
      let* ok := isokendpt (dmap_driver dp) in
      if negb (ok =? OK) then ret (EIO, mess)
      else
        let* (_, mess) :=
          match dmap_io dp with
          | gen_io_fn => gen_io (dmap_driver dp) mess
          | no_dev_io_fn => no_dev_io (dmap_driver dp) mess
          | ctty_io_fn => stop Unbounded
          end in
        ret (OK, mess).

(** The call through [dp->dmap_io] with [(task, &mess)]. *)
Definition call_io (h : io_fn) (task : Z) (mess : message) : M (Z * message) :=
  match h with
  | gen_io_fn => gen_io task mess
  | ctty_io_fn => ctty_io task mess
  | no_dev_io_fn => no_dev_io task mess
  end.


(** *** safe_io_conversion and safe_io_cleanup (lines 168-291) *)

(** The loop of lines 221-234, with [n] rounds to go.  The code reads
    [v[j]] twice: its address and size for the grant, and its size once
    more after the grant id has been stored in [new_iovec[j].iov_addr]. *)
Fixpoint grant_iovec (n : nat) (j : Z) (driver op : Z) (v : bufptr)
    (gids : list Z) : M (list Z) :=
  match n with
  | O => ret gids
  | S n' =>
      if NR_IOREQS <=? j then panic "vec too big"
      else
        let* t := gets trace in
        let e := k_iovec t v j in
        let* g := cpf_grant_direct driver (Caller (fst e)) (snd e)
                    (if op =? DEV_GATHER_S then CPF_WRITE else CPF_READ) in
        modify (fun s => set_new_iovec
                  (alter (fun x => (g, snd x)) (Z.to_nat j) (new_iovec s)) s) ;;
        if negb (GRANT_VALID g) then panic "grant to iovec buf failed"
        else
          let* t := gets trace in
          let size := snd (k_iovec t v j) in
          modify (fun s => set_new_iovec
                    (alter (fun x => (fst x, size)) (Z.to_nat j) (new_iovec s)) s) ;;
          grant_iovec n' (j + 1) driver op v (gids ++ [g])
  end.

(** The end of the routine, lines 260-271. *)
Definition conv_result (gid op : Z) (gids : list Z) (io_ept : Z) (buf : bufptr)
    (pos : Z) : conv :=
  if GRANT_VALID gid then
    {| c_safe := true; c_gid := gid; c_op := op; c_gids := gids;
       c_io_ept := FS_PROC_NR; c_buf := buf;
       c_vec_grants := Z.of_nat (length gids); c_pos := pos |}
  else
    {| c_safe := false; c_gid := gid; c_op := op; c_gids := gids;
       c_io_ept := io_ept; c_buf := buf;
       c_vec_grants := Z.of_nat (length gids); c_pos := pos |}.

(** [bytes] is a vir_bytes here.  [gids_size] is not used by the code. *)
Definition safe_io_conversion (driver op io_ept : Z) (buf : bufptr)
    (bytes pos : Z) : M conv :=
  if (op =? DEV_READ) || (op =? DEV_WRITE) then
    let op := if op =? DEV_READ then DEV_READ_S else DEV_WRITE_S in
    let* gid := cpf_grant_magic driver io_ept buf bytes
                  (if op =? DEV_READ_S then CPF_WRITE else CPF_READ) in
    if gid <? 0 then panic "cpf_grant_magic of buffer failed"
    else ret (conv_result gid op [] io_ept buf pos)
  else if (op =? DEV_GATHER) || (op =? DEV_SCATTER) then
    let op := if op =? DEV_GATHER then DEV_GATHER_S else DEV_SCATTER_S in
    let* gid := cpf_grant_direct driver NewIovec
                  (to_vir_bytes (bytes * SIZEOF_IOVEC))
                  (Z.lor CPF_READ CPF_WRITE) in
    if gid <? 0 then panic "cpf_grant_direct of vector failed"
    else
      let* gids := grant_iovec (Z.to_nat bytes) 0 driver op buf [] in
      ret (conv_result gid op gids io_ept NewIovec pos)
  else if op =? DEV_IOCTL then
    let pos := io_ept in
    let op := DEV_IOCTL_S in
    let* req := gets in_REQUEST in
    let access := 0 in
    let access := if IOCTL_IOR req then Z.lor access CPF_WRITE else access in
    let access := if IOCTL_IOW req then Z.lor access CPF_READ else access in
    let size := if IOCTL_BIG req then IOCTL_SIZE_BIG req else IOCTL_SIZE req in
    let* gid := cpf_grant_magic driver io_ept buf size access in
    if gid <? 0 then panic "cpf_grant_magic failed (ioctl)"
    else ret (conv_result gid op [] io_ept buf pos)
  else ret (conv_result GRANT_INVALID op [] io_ept buf pos).

Fixpoint revoke_loop (n : nat) (j : Z) (gids : list Z) : M unit :=
  match n with
  | O => ret tt
  | S n' =>
      let* g := index gids j in
      cpf_revoke g ;;
      revoke_loop n' (j + 1) gids
  end.

Definition safe_io_cleanup (gid : Z) (gids : list Z) (gids_size : Z) : M unit :=
  cpf_revoke gid ;;
  revoke_loop (Z.to_nat gids_size) 0 gids.

(** *** dev_io (lines 414-523) *)

(** Lines 448-477: the conversion, the message and the call of the task.
    Yields the conversion, [ioproc] and the message as the task left it. *)
Definition dev_io_call (dp : dmap_t) (op dev proc_e : Z) (buf : Z)
    (pos bytes : Z) : M (conv * Z * message) :=
  let* dev_mess := uninit in
  let dev_mess := set_IO_ENDPT proc_e dev_mess in
  let dev_mess := set_ADDRESS buf dev_mess in
  let buf_used := Caller buf in
  let* c := safe_io_conversion (dmap_driver dp) op (IO_ENDPT dev_mess)
              buf_used (to_vir_bytes bytes) pos in
  let dev_mess := set_IO_ENDPT (c_io_ept c) dev_mess in
  if negb (buf =? vir_addr (c_buf c)) then
    panic "dev_io: safe_io_conversion changed buffer"
  else
    let dev_mess := if c_safe c then set_IO_GRANT (c_gid c) dev_mess else dev_mess in
    let dev_mess := set_m_type (c_op c) dev_mess in
    let dev_mess := set_DEVICE (minor_of dev) dev_mess in
    let dev_mess := set_POSITION (c_pos c) dev_mess in
    let dev_mess := set_COUNT bytes dev_mess in
    let dev_mess := set_HIGHPOS 0 dev_mess in
    let ioproc := IO_ENDPT dev_mess in
    let* (_, dev_mess) := call_io (dmap_io dp) (dmap_driver dp) dev_mess in
    ret (c, ioproc, dev_mess).

(** The message of line 496-506, sent when the caller must not block. *)
Definition cancel_mess (call dev ioproc gid : Z) (dev_mess : message) : message :=
  let dev_mess := set_m_type CANCEL dev_mess in
  let dev_mess := set_IO_ENDPT ioproc dev_mess in
  let dev_mess := set_IO_GRANT gid dev_mess in
  let dev_mess := set_COUNT 0 dev_mess in
  let dev_mess :=
    if call =? READ then set_COUNT R_BIT dev_mess
    else if call =? WRITE then set_COUNT W_BIT dev_mess
    else dev_mess in
  set_DEVICE (minor_of dev) dev_mess.

(** Lines 479-522: what [dev_io] does once the task has been called. *)
Definition dev_io_reply (dev flags : Z) (c : conv) (ioproc : Z)
    (dev_mess : message) : M Z :=
  let* dp := dmap_at (major_of dev) in
  if dmap_driver dp =? NONE then
    (if c_safe c then safe_io_cleanup (c_gid c) (c_gids c) (c_vec_grants c)
     else ret tt) ;;
    ret EIO
  else
    let* dev_mess :=
      if REP_STATUS dev_mess =? SUSPEND then
        if 0 <? c_vec_grants c then panic "SUSPEND on vectored i/o"
        else
          let* cur := gets fp in
          match cur with
          | None => panic "SUSPEND on NULL fp"
          | Some _ =>
              if negb (Z.land flags O_NONBLOCK =? 0) then
                let* call := gets call_nr in
                let dev_mess := cancel_mess call dev ioproc (c_gid c) dev_mess in
                let* (_, dev_mess) := call_io (dmap_io dp) (dmap_driver dp) dev_mess in
                let dev_mess :=
                  if REP_STATUS dev_mess =? EINTR then set_REP_STATUS EAGAIN dev_mess
                  else dev_mess in
                ret (Some dev_mess)
              else
                suspend (dmap_driver dp) ;;
                let* p := cur_fproc in
                if GRANT_VALID (fp_grant p) then
                  stop (AssertFail "!GRANT_VALID(fp->fp_grant)")
                else
                  update_cur_fproc (set_fp_grant (c_gid c)) ;;
                  update_cur_fproc (set_fp_ioproc ioproc) ;;
                  ret None
          end
      else ret (Some dev_mess) in
    match dev_mess with
    | None => ret SUSPEND
    | Some dev_mess =>
        (if c_safe c then safe_io_cleanup (c_gid c) (c_gids c) (c_vec_grants c)
         else ret tt) ;;
        ret (REP_STATUS dev_mess)
    end.

Definition dev_io (op dev proc_e : Z) (buf : Z) (pos bytes flags : Z) : M Z :=
  let* dp := dmap_at (major_of dev) in
  if dmap_driver dp =? NONE then ret ENXIO
  else
    let* ok := isokendpt (dmap_driver dp) in
    if negb (ok =? OK) then ret ENXIO
    else
      let* (c, ioproc, dev_mess) := dev_io_call dp op dev proc_e buf pos bytes in
      dev_io_reply dev flags c ioproc dev_mess.


(** *** dev_bio (lines 296-409) *)

(** Lines 333-359: one call of the task, from the conversion to the
    cleanup.  [m] is the message of [dev_bio], which lives across the
    rounds of its loop. *)
Definition dev_bio_call (dp : dmap_t) (op dev proc_e : Z) (buf : Z)
    (pos bytes : Z) (m : message) : M (conv * message) :=
  let m := set_IO_ENDPT proc_e m in
  let m := set_ADDRESS buf m in
  let buf_used := Caller buf in
  let op_used := op in
  let* c := safe_io_conversion (dmap_driver dp) op_used (IO_ENDPT m)
              buf_used (to_vir_bytes bytes) pos in
  let m := set_IO_ENDPT (c_io_ept c) m in
  let m := if c_safe c then set_IO_GRANT (c_gid c) m else m in
  let m := set_m_type (c_op c) m in
  let m := set_DEVICE (minor_of dev) m in
  let m := set_POSITION (c_pos c) m in
  let m := set_COUNT bytes m in
  let m := set_HIGHPOS 0 m in
  let* (_, m) := call_io (dmap_io dp) (dmap_driver dp) m in
  (if c_safe c then safe_io_cleanup (c_gid c) (c_gids c) (c_vec_grants c)
   else ret tt) ;;
  ret (c, m).

(** Lines 363-393: the driver has vanished; serve the reincarnation server
    until the major has a driver again. *)
Fixpoint rs_wait (fuel : nat) (major : Z) : M message :=
  match fuel with
  | O => stop OutOfFuel
  | S fuel' =>
      let* (r, m) := receive RS_PROC_NR in
      if negb (r =? OK) then panic "dev_bio: unable to receive from RS"
      else
        let* r :=
          if m_type m =? DEVCTL then
            fs_devctl (ctl_req m) (dev_nr m) (driver_nr m) (dev_style m) (m_force m)
          else panic "dev_bio: got message from RS, type" in
        let m := set_m_type r m in
        let* r := send RS_PROC_NR m in
        if negb (r =? OK) then panic "dev_bio: unable to send to RS"
        else
          let* dp := dmap_at major in
          if negb (dmap_driver dp =? NONE) then ret m
          else rs_wait fuel' major
  end.

(** The loop of lines 319-408; [pos] and [m] live across its rounds. *)
Fixpoint dev_bio_loop (fuel : nat) (op dev proc_e : Z) (buf : Z)
    (pos bytes : Z) (m : message) : M Z :=
  match fuel with
  | O => stop OutOfFuel
  | S fuel' =>
      let* dp := dmap_at (major_of dev) in
      if dmap_driver dp =? NONE then ret ENXIO
      else
        let* (c, m) := dev_bio_call dp op dev proc_e buf pos bytes m in
        let pos := c_pos c in
        let* dp := dmap_at (major_of dev) in
        if dmap_driver dp =? NONE then
          let* m := rs_wait fuel' (major_of dev) in
          dev_bio_loop fuel' op dev proc_e buf pos bytes m
        else if REP_STATUS m =? SUSPEND then
          panic "dev_bio: driver returned SUSPEND"
        else
          (if negb (bufptr_eqb (Caller buf) (c_buf c)) then
             memcpy (Caller buf) (c_buf c) (to_vir_bytes (bytes * SIZEOF_IOVEC))
           else ret tt) ;;
          ret (REP_STATUS m)
  end.

Definition dev_bio (fuel : nat) (op dev proc_e : Z) (buf : Z)
    (pos bytes : Z) : M Z :=
  if negb (proc_e =? FS_PROC_NR) then panic "doing dev_bio for non-self"
  else
    let* m := uninit in
    dev_bio_loop fuel op dev proc_e buf pos bytes m.

(** *** The open/close routines (lines 528-608, 734-822) *)

Definition gen_opcl (op dev proc_e flags : Z) : M Z :=
  let* dev_mess := uninit in
  let dev_mess := set_m_type op dev_mess in
  let dev_mess := set_DEVICE (minor_of dev) dev_mess in
  let dev_mess := set_IO_ENDPT proc_e dev_mess in
  let dev_mess := set_COUNT flags dev_mess in
  let* dp := dmap_at (major_of dev) in
  if dmap_driver dp =? NONE then ret ENXIO
  else
    let* (_, dev_mess) := call_io (dmap_io dp) (dmap_driver dp) dev_mess in
    ret (REP_STATUS dev_mess).

(** The flags after the loop of lines 578-581 over the process table. *)
Definition noctty_scan (dev : Z) (tab : list fproc_t) (flags : Z) : Z :=
  fold_left (fun fl rfp =>
               if fp_pid rfp =? PID_FREE then fl
               else if fp_tty rfp =? dev then Z.lor fl O_NOCTTY else fl)
            tab flags.

Definition tty_opcl (op dev proc_e flags : Z) : M Z :=
  let* p := cur_fproc in
  let* flags :=
    if (fp_sesldr p =? 0) || negb (fp_tty p =? 0) then
      ret (Z.lor flags O_NOCTTY)
    else
      let* tab := gets fproc in
      ret (noctty_scan dev tab flags) in
  let* r := gen_opcl op dev proc_e flags in
  if r =? 1 then
    update_cur_fproc (set_fp_tty dev) ;;
    ret OK
  else ret r.

Definition ctty_opcl (op dev proc_e flags : Z) : M Z :=
  let* p := cur_fproc in
  ret (if fp_tty p =? 0 then ENXIO else OK).

Definition no_dev (op dev proc flags : Z) : M Z := ret ENODEV.

(** [clone_opcl] calls itself to undo an open; [fuel] bounds the depth. *)
Fixpoint clone_opcl (fuel : nat) (op dev proc_e flags : Z) : M Z :=
  match fuel with
  | O => stop OutOfFuel
  | S fuel' =>
      let minor := minor_of dev in
      let* dev_mess := uninit in
      let dev_mess := set_m_type op dev_mess in
      let dev_mess := set_DEVICE minor dev_mess in
      let dev_mess := set_IO_ENDPT proc_e dev_mess in
      let dev_mess := set_COUNT flags dev_mess in
      let* dp := dmap_at (major_of dev) in
      if dmap_driver dp =? NONE then ret ENXIO
      else
        let* ok := isokendpt (dmap_driver dp) in
        if negb (ok =? OK) then ret ENXIO
        else
          let* (r, dev_mess) := call_io (dmap_io dp) (dmap_driver dp) dev_mess in
          if negb (r =? OK) then ret r
          else if (op =? DEV_OPEN) && (0 <=? REP_STATUS dev_mess) then
            if negb (REP_STATUS dev_mess =? minor) then
              let dev := to_dev_t
                           (Z.lor (Z.land dev (Z.lnot (Z.shiftl BYTE MINOR)))
                                  (Z.shiftl (REP_STATUS dev_mess) MINOR)) in
              let* root := gets root_dev in
              let* ip := alloc_inode root (Z.lor ALL_MODES I_CHAR_SPECIAL) in
              match ip with
              | None =>
                  clone_opcl fuel' DEV_CLOSE dev proc_e 0 ;;
                  gets err_code
              | Some i =>
                  let* t := gets inode in
                  let* x := index t (Z.of_nat i) in
                  modify (set_inode (<[i := {| i_mode := i_mode x; i_dev := i_dev x;
                                              i_count := i_count x;
                                              i_zone0 := dev |}]> t)) ;;
                  let* p := cur_fproc in
                  let* fd := gets in_fd in
                  let* slot := index (fp_filp p) fd in
                  match slot with
                  | None => stop NullDeref
                  | Some f =>
                      let* ft := gets filp in
                      let* fl := index ft (Z.of_nat f) in
                      put_inode (filp_ino fl) ;;
                      modify (set_filp (<[f := {| filp_count := filp_count fl;
                                                 filp_flags := filp_flags fl;
                                                 filp_ino := Some i |}]> ft)) ;;
                      ret OK
                  end
              end
            else ret OK
          else ret (REP_STATUS dev_mess)
  end.

(** The call through [dp->dmap_opcl]. *)
Definition call_opcl (fuel : nat) (h : opcl_fn) (op dev proc flags : Z) : M Z :=
  match h with
  | gen_opcl_fn => gen_opcl op dev proc flags
  | tty_opcl_fn => tty_opcl op dev proc flags
  | ctty_opcl_fn => ctty_opcl op dev proc flags
  | clone_opcl_fn => clone_opcl fuel op dev proc flags
  | no_dev_fn => no_dev op dev proc flags
  end.

(** *** dev_open (lines 48-68) *)

Definition dev_open (fuel : nat) (dev proc flags : Z) : M Z :=
  let major := major_of dev in
  let major := if NR_DEVICES <=? major then 0 else major in
  let* dp := dmap_at major in
  if dmap_driver dp =? NONE then ret ENXIO
  else
    let* r := call_opcl fuel (dmap_opcl dp) DEV_OPEN dev proc flags in
    if r =? SUSPEND then panic "suspend on open from"
    else ret r.

(** *** pm_setsid (lines 613-627) *)

Definition pm_setsid (proc_e : Z) : M unit :=
  let* t := gets fproc in
  match k_okendpt t proc_e with
  | None => panic "okendpt"
  | Some slot =>
      let* p := index t (Z.of_nat slot) in
      modify (set_fproc (<[slot := set_fp_tty 0 (set_fp_sesldr TRUE p)]> t))
  end.

(** *** suspended_ep and dev_status (lines 86-163) *)

Definition suspended_ep (driver g : Z) : M Z :=
  let* tab := gets fproc in
  match find (fun rfp => negb (fp_pid rfp =? PID_FREE)
                         && (fp_suspended rfp =? SUSPENDED)
                         && (fp_task rfp =? - driver)
                         && (fp_grant rfp =? g)) tab with
  | Some rfp => ret (fp_endpoint rfp)
  | None => ret NONE
  end.

(** The loop of lines 113-116 from [d] on, with [n] entries to go; yields
    the [d] it stops at. *)
Fixpoint find_driver (n : nat) (d : Z) (src : Z) : M Z :=
  match n with
  | O => ret d
  | S n' =>
      let* dp := dmap_at d in
      if negb (dmap_driver dp =? NONE) && (dmap_driver dp =? src) then ret d
      else find_driver n' (d + 1) src
  end.

(** The loop of lines 121-160; [st] lives across its rounds.  The last
    branch is the [default] and the DEV_NO_STATUS case of the [switch]. *)
Fixpoint status_loop (fuel : nat) (d : Z) (m st : message) : M unit :=
  match fuel with
  | O => stop OutOfFuel
  | S fuel' =>
      let st := set_m_type DEV_STATUS st in
      let* (r, st) := sendrec (m_source m) st in
      if negb (r =? OK) then
        if (r =? EDEADSRCDST) || (r =? EDSTDIED) || (r =? ESRCDIED) then ret tt
        else panic "couldn't sendrec for DEV_STATUS"
      else if m_type st =? DEV_REVIVE then
        let endpt := REP_ENDPT st in
        if endpt =? FS_PROC_NR then
          let* endpt := suspended_ep (m_source m) (REP_IO_GRANT st) in
          if endpt =? NONE then status_loop fuel' d m st
          else
            revive endpt (REP_STATUS st) ;;
            status_loop fuel' d m st
        else
          revive endpt (REP_STATUS st) ;;
          status_loop fuel' d m st
      else if m_type st =? DEV_IO_READY then
        select_notified d (DEV_MINOR st) (DEV_SEL_OPS st) ;;
        status_loop fuel' d m st
      else ret tt
  end.

Definition dev_status (fuel : nat) (m : message) : M unit :=
  let* d := find_driver (Z.to_nat NR_DEVICES) 0 (m_source m) in
  if NR_DEVICES <=? d then ret tt
  else
    let* st := uninit in
    status_loop fuel d m st.

(** *** dev_close (lines 73-81) *)

(** The first index is not masked with BYTE, the second is. *)
Definition dev_close (fuel : nat) (dev : Z) : M unit :=
  let* dp := dmap_at (Z.shiftr dev MAJOR) in
  if dmap_driver dp =? NONE then ret tt
  else
    let* dp := dmap_at (major_of dev) in
    call_opcl fuel (dmap_opcl dp) DEV_CLOSE dev 0 0 ;;
    ret tt.

(** *** do_ioctl (lines 632-648) *)

Section Ioctl.

(** What [do_ioctl] takes from outside [device.c]: the constants I_TYPE,
    I_BLOCK_SPECIAL and ENOTTY, the fields [ls_fd] and [ADDRESS] of the
    request message [m_in], the caller [who_e], and [get_filp] of
    filedes.c, which yields the filp of a descriptor or a null pointer,
    with the error in err_code. *)
Variables (I_TYPE I_BLOCK_SPECIAL ENOTTY : Z).
Variables (in_ls_fd in_ADDRESS who_e : Z).
Variable get_filp : Z -> M (option nat).

Definition do_ioctl : M Z :=
  let* f := get_filp in_ls_fd in
  match f with
  | None => gets err_code
  | Some f =>
      let* ft := gets filp in
      let* fl := index ft (Z.of_nat f) in
      match filp_ino fl with
      | None => stop NullDeref
      | Some i =>
          let* t := gets inode in
          let* rip := index t (Z.of_nat i) in
          if negb (Z.land (i_mode rip) I_TYPE =? I_CHAR_SPECIAL)
             && negb (Z.land (i_mode rip) I_TYPE =? I_BLOCK_SPECIAL)
          then ret ENOTTY
          else
            let dev := to_dev_t (i_zone0 rip) in
            let* req := gets in_REQUEST in
            dev_io DEV_IOCTL dev who_e in_ADDRESS 0 req (filp_flags fl)
      end
  end.

End Ioctl.

(** *** What the specification says, in the terms of the model *)

(** The controlling terminal [tty], of entry [dp], put in the place of the
    device of the message, and the message passed on to the I/O routine of
    that entry. *)
Definition ctty_redispatch (dp : dmap_t) (tty : Z) (mess : message) : M (Z * message) :=
  let* (_, mess) := call_io (dmap_io dp) (dmap_driver dp)
                      (set_DEVICE (minor_of tty) mess) in
  ret (OK, mess).

End Routines.

(** ** A concrete system

    One choice of the constants, and environments that answer from a
    script, to run the routines on concrete inputs. *)
Module Scenario.

Definition minix3 : Consts := {|
  NR_DEVICES := 32;  NR_IOREQS := 64;
  NONE := 27342;  FS_PROC_NR := 1;  RS_PROC_NR := 2;
  OK := 0;  ENXIO := -6;  EIO := -5;  ENODEV := -19;  EINTR := -4;
  EAGAIN := -11;  ENFILE := -23;  SUSPEND := -998;
  EDEADSRCDST := -105;  EDSTDIED := -106;  ESRCDIED := -107;  ELOCKED := -101;
  DEV_OPEN := 1030;  DEV_CLOSE := 1031;  CANCEL := 1024;
  DEV_READ := 1027;  DEV_WRITE := 1028;  DEV_GATHER := 1032;
  DEV_SCATTER := 1026;  DEV_IOCTL := 1029;
  DEV_READ_S := 1045;  DEV_WRITE_S := 1046;  DEV_GATHER_S := 1048;
  DEV_SCATTER_S := 1047;  DEV_IOCTL_S := 1049;
  DEV_STATUS := 1035;  DEV_REVIVE := 1090;  DEV_IO_READY := 1091;
  DEV_NO_STATUS := 1092;  DEVCTL := 64;
  O_NONBLOCK := 2048;  O_NOCTTY := 256;
  CPF_READ := 1;  CPF_WRITE := 2;
  R_BIT := 4;  W_BIT := 2;
  READ := 3;  WRITE := 4;
  GRANT_INVALID := -1;
  GRANT_VALID := fun g => -1 <? g;
  PID_FREE := 0;  SUSPENDED := 1;  TRUE := 1;
  ALL_MODES := 4095;  I_CHAR_SPECIAL := 8192;
  SIZEOF_IOVEC := 8;
  to_vir_bytes := fun z => z mod 4294967296;
  IOVEC_ADDR := 20480;
  IOCTL_IOR := fun r => Z.testbit r 30;
  IOCTL_IOW := fun r => Z.testbit r 29;
  IOCTL_BIG := fun r => Z.testbit r 28;
  IOCTL_SIZE := fun r => Z.land (Z.shiftr r 16) 4095;
  IOCTL_SIZE_BIG := fun r => Z.land (Z.shiftr r 8) 1048575
|}.

Definition msg0 : message := {|
  m_source := 0; m_type := 0; m2_i1 := 0; m2_i2 := 0; m2_i3 := 0;
  m2_l1 := 0; m2_l2 := 0; m2_p1 := 0;
  ctl_req := 0; dev_nr := 0; driver_nr := 0; dev_style := 0; m_force := 0 |}.

(** A message from [src]. *)
Definition msg_from (src : Z) : message := {|
  m_source := src; m_type := 0; m2_i1 := 0; m2_i2 := 0; m2_i3 := 0;
  m2_l1 := 0; m2_l2 := 0; m2_p1 := 0;
  ctl_req := 0; dev_nr := 0; driver_nr := 0; dev_style := 0; m_force := 0 |}.

(** The number of requests sent so far. *)
Definition sent (h : list event) : nat :=
  length (List.filter (fun e => match e with EvSendrec _ _ _ _ => true | _ => false end) h).

(** A reply to request [req] with the given status, for the process the
    request names. *)
Definition reply_to (req : message) (status : Z) : message := {|
  m_source := 0; m_type := 0; m2_i1 := IO_ENDPT req; m2_i2 := status; m2_i3 := 0;
  m2_l1 := 0; m2_l2 := 0; m2_p1 := 0;
  ctl_req := 0; dev_nr := 0; driver_nr := 0; dev_style := 0; m_force := 0 |}.

(** The drivers answer the n-th request with the n-th status of the
    script (0 when it is used up); every grant gets the id [7]; the
    endpoints of [dead] are stale, every other one is alive; alloc_inode
    fails with [fail], if given. *)
Definition scripted (statuses : list Z) (fail : option Z) (dead : list Z) : Env := {|
  k_sendrec := fun h dst req => (0, reply_to req (nth (sent h) statuses 0));
  k_receive := fun h src => (0, msg0);
  k_send := fun h dst m => 0;
  k_grant_magic := fun h driver owner buf bytes access => 7;
  k_grant_direct := fun h driver buf bytes access => 7;
  k_uninit := fun h => msg0;
  k_iovec := fun h buf j => (0, 0);
  k_isokendpt := fun tab e => if existsb (Z.eqb e) dead then -105 else 0;
  k_okendpt := fun tab e => Some 0%nat;
  k_alloc_fail := fun h => fail;
  x_fs_devctl := fun req dev driver style force s => (0, s);
  x_revive := fun endpt status s => s;
  x_select_notified := fun d minor ops s => s
|}.

(** The driver dies on the first request; the reincarnation server then
    sends a DEVCTL that binds major 3 to the new driver 41, which answers
    every request with 4096. *)
Definition restarting : Env := {|
  k_sendrec := fun h dst req =>
    match sent h with
    | O => (-106, req)
    | _ => (0, reply_to req 4096)
    end;
  k_receive := fun h src =>
    (0, {| m_source := 2; m_type := 64; m2_i1 := 0; m2_i2 := 0; m2_i3 := 0;
           m2_l1 := 0; m2_l2 := 0; m2_p1 := 0;
           ctl_req := 1; dev_nr := 3; driver_nr := 41; dev_style := 0; m_force := 0 |});
  k_send := fun h dst m => 0;
  k_grant_magic := fun h driver owner buf bytes access => 7;
  k_grant_direct := fun h driver buf bytes access => 7;
  k_uninit := fun h => msg0;
  k_iovec := fun h buf j => (0, 0);
  k_isokendpt := fun tab e => 0;
  k_okendpt := fun tab e => Some 0%nat;
  k_alloc_fail := fun h => None;
  x_fs_devctl := fun req dev driver style force s =>
    (0, set_dmap (<[Z.to_nat dev := {| dmap_opcl := gen_opcl_fn; dmap_io := gen_io_fn;
                                       dmap_driver := driver |}]> (dmap s)) s);
  x_revive := fun endpt status s => s;
  x_select_notified := fun d minor ops s => s
|}.

(** The number of grants made so far. *)
Definition granted (h : list event) : Z :=
  Z.of_nat (length (List.filter (fun e => match e with
                                          | EvGrantMagic _ _ _ _ _ _
                                          | EvGrantDirect _ _ _ _ _ => true
                                          | _ => false
                                          end) h)).

(** The kernel numbers the grants from 7 on; element [j] of a vector
    names the buffer at [8192 + 1024 j], of [512 + j] bytes; the driver
    answers every request with 77.  At address 20480 lies the server's own
    vector: what the loop of [safe_io_conversion] reads there is what
    [state0] holds, an address and a size of 0. *)
Definition gathering : Env := {|
  k_sendrec := fun h dst req => (0, reply_to req 77);
  k_receive := fun h src => (0, msg0);
  k_send := fun h dst m => 0;
  k_grant_magic := fun h driver owner buf bytes access => 7 + granted h;
  k_grant_direct := fun h driver buf bytes access => 7 + granted h;
  k_uninit := fun h => msg0;
  k_iovec := fun h buf j =>
    match buf with
    | Caller a => if a =? 20480 then (0, 0) else (8192 + 1024 * j, 512 + j)
    | NewIovec => (0, 0)
    end;
  k_isokendpt := fun tab e => 0;
  k_okendpt := fun tab e => Some 0%nat;
  k_alloc_fail := fun h => None;
  x_fs_devctl := fun req dev driver style force s => (0, s);
  x_revive := fun endpt status s => s;
  x_select_notified := fun d minor ops s => s
|}.

(** The drivers answer the n-th request with the n-th status of the
    script; once the script is used up no request can be delivered:
    sendrec fails with ELOCKED and leaves the message as it was. *)
Definition locked (statuses : list Z) : Env := {|
  k_sendrec := fun h dst req =>
    match nth_error statuses (sent h) with
    | Some st => (0, reply_to req st)
    | None => (-101, req)
    end;
  k_receive := fun h src => (0, msg0);
  k_send := fun h dst m => 0;
  k_grant_magic := fun h driver owner buf bytes access => 7;
  k_grant_direct := fun h driver buf bytes access => 7;
  k_uninit := fun h => msg0;
  k_iovec := fun h buf j => (0, 0);
  k_isokendpt := fun tab e => 0;
  k_okendpt := fun tab e => Some 0%nat;
  k_alloc_fail := fun h => None;
  x_fs_devctl := fun req dev driver style force s => (0, s);
  x_revive := fun endpt status s => s;
  x_select_notified := fun d minor ops s => s
|}.

Definition absent : dmap_t :=
  {| dmap_opcl := no_dev_fn; dmap_io := no_dev_io_fn; dmap_driver := 27342 |}.

(** Major 3 is a generic device, 4 a terminal, 5 a clone device and 6
    /dev/tty, all of driver 40; the other majors are absent. *)
Definition dmap0 : list dmap_t :=
  [ absent; absent; absent;
    {| dmap_opcl := gen_opcl_fn; dmap_io := gen_io_fn; dmap_driver := 40 |};
    {| dmap_opcl := tty_opcl_fn; dmap_io := gen_io_fn; dmap_driver := 40 |};
    {| dmap_opcl := clone_opcl_fn; dmap_io := gen_io_fn; dmap_driver := 40 |};
    {| dmap_opcl := ctty_opcl_fn; dmap_io := ctty_io_fn; dmap_driver := 40 |};
    absent ]
  ++ repeat absent 24.

(** The same table after the terminal driver of major 4 has gone. *)
Definition dmap_no_tty : list dmap_t := <[4%nat := absent]> dmap0.

(** A process of endpoint [17] with pid [9]; its descriptor 0 is filp 0. *)
Definition proc (sesldr tty : Z) : fproc_t := {|
  fp_pid := 9; fp_endpoint := 17; fp_suspended := 0; fp_task := 0;
  fp_grant := -1; fp_ioproc := 0; fp_sesldr := sesldr; fp_tty := tty;
  fp_filp := [Some 0%nat] |}.

Definition state0 (p : fproc_t) (dm : list dmap_t) : state := {|
  dmap := dm;
  fproc := [p];
  fp := Some 0%nat;
  filp := [ {| filp_count := 1; filp_flags := 0; filp_ino := Some 0%nat |} ];
  inode := [ {| i_mode := 8192; i_dev := 1; i_count := 1; i_zone0 := 1280 |};
             {| i_mode := 0; i_dev := 0; i_count := 0; i_zone0 := 0 |} ];
  new_iovec := repeat (0, 0) 64;
  call_nr := 3;
  in_REQUEST := 0;
  in_fd := 0;
  root_dev := 1;
  err_code := 0;
  trace := [] |}.

(** The driver answers every request with a DEV_REVIVE for a request of
    the file server itself, made under grant 7, with status 512. *)
Definition reviving : Env := {|
  k_sendrec := fun h dst req =>
    (0, {| m_source := dst; m_type := 1090; m2_i1 := 1; m2_i2 := 512; m2_i3 := 7;
           m2_l1 := 0; m2_l2 := 0; m2_p1 := 0;
           ctl_req := 0; dev_nr := 0; driver_nr := 0; dev_style := 0; m_force := 0 |});
  k_receive := fun h src => (0, msg0);
  k_send := fun h dst m => 0;
  k_grant_magic := fun h driver owner buf bytes access => 7;
  k_grant_direct := fun h driver buf bytes access => 7;
  k_uninit := fun h => msg0;
  k_iovec := fun h buf j => (0, 0);
  k_isokendpt := fun tab e => 0;
  k_okendpt := fun tab e => Some 0%nat;
  k_alloc_fail := fun h => None;
  x_fs_devctl := fun req dev driver style force s => (0, s);
  x_revive := fun endpt status s => s;
  x_select_notified := fun d minor ops s => s
|}.

(** A process of endpoint [17] that is suspended on driver 40 and holds
    grant 7. *)
Definition waiting : fproc_t := {|
  fp_pid := 9; fp_endpoint := 17; fp_suspended := 1; fp_task := -40;
  fp_grant := 7; fp_ioproc := 1; fp_sesldr := 0; fp_tty := 0;
  fp_filp := [Some 0%nat] |}.

End Scenario.

(** ** Reasoning about runs

    The vocabulary of the properties: the state in which a run ends,
    relations between the state before and after, and the grants that a
    stretch of the trace mints and revokes. *)

(** The state in which a run ends. *)
Definition final {A} (o : outcome A) : state :=
  match o with Done _ s => s | Abort _ s => s end.

(** [post R m]: every run of [m] ends in a state related to its start. *)
Definition post {A} (R : state -> state -> Prop) (m : M A) : Prop :=
  forall s, R s (final (m s)).

Definition is_sendrec (e : event) : Prop :=
  match e with EvSendrec _ _ _ _ => True | _ => False end.

Definition is_grant (e : event) : Prop :=
  match e with
  | EvGrantMagic _ _ _ _ _ _ | EvGrantDirect _ _ _ _ _ => True
  | _ => False
  end.

(** The grant ids minted and revoked in a stretch of the trace. *)
Definition minted (t : list event) : list Z :=
  flat_map (fun e => match e with
                     | EvGrantMagic _ _ _ _ _ g | EvGrantDirect _ _ _ _ g => [g]
                     | _ => []
                     end) t.

Definition revoked (t : list event) : list Z :=
  flat_map (fun e => match e with EvRevoke g => [g] | _ => [] end) t.

(** The tables and globals other than dmap are the same in both states. *)
Record same_tables (s s' : state) : Prop := {
  st_fproc : fproc s' = fproc s;
  st_fp : fp s' = fp s;
  st_filp : filp s' = filp s;
  st_inode : inode s' = inode s;
  st_call_nr : call_nr s' = call_nr s;
  st_in_REQUEST : in_REQUEST s' = in_REQUEST s;
  st_in_fd : in_fd s' = in_fd s;
  st_root_dev : root_dev s' = root_dev s;
  st_err_code : err_code s' = err_code s
}.

(** The trace of [s'] is that of [s] and then events that satisfy [P]. *)
Definition grows_by (P : event -> Prop) (s s' : state) : Prop :=
  exists t, trace s' = trace s ++ t /\ Forall P t.

(** What a call of a task can change: the trace grows by requests, and
    bindings of the dmap table may be cleared. *)
Record io_frame {K : Consts} (s s' : state) : Prop := {
  io_tables : same_tables s s';
  io_trace : grows_by is_sendrec s s';
  io_dmap : forall (i : nat) d', dmap s' !! i = Some d' -> dmap_driver d' <> NONE ->
                         dmap s !! i = Some d'
}.

(** What the conversion to grants can change: the trace grows by grants
    (and the static vector is written). *)
Record grant_frame (s s' : state) : Prop := {
  gf_tables : same_tables s s';
  gf_dmap : dmap s' = dmap s;
  gf_trace : grows_by is_grant s s'
}.

(** [logs t s]: the state [s] after the events [t]. *)
Definition logs (t : list event) (s : state) : state := fold_left (fun s e => log e s) t s.

(** The process table and the current process are the same. *)
Definition procs_frame (s s' : state) : Prop :=
  fproc s' = fproc s /\ fp s' = fp s.


(** Whether a live process has [dev] as its controlling terminal. *)
Definition tty_taken {K : Consts} (dev : Z) (tab : list fproc_t) : bool :=
  existsb (fun rfp => negb (fp_pid rfp =? PID_FREE) && (fp_tty rfp =? dev)) tab.

(** The result of a run, and the grants minted and revoked by its end. *)
Definition summary (o : outcome Z) : option Z * list Z * list Z :=
  match o with
  | Done r s => (Some r, minted (trace s), revoked (trace s))
  | Abort _ s => (None, minted (trace s), revoked (trace s))
  end.

(** The request that [dev_io] and [dev_bio] build for a converted
    operation (lines 449-471 and 334-351): the stack message [m0] with the
    caller's endpoint and address, then FS_PROC_NR as the endpoint, the
    grant, the operation, the minor device, the position, the count and a
    zero high position. *)
Definition safe_request {K : Consts} (m0 : message)
    (op_s dev proc_e buf pos bytes g : Z) : message :=
  set_HIGHPOS 0 (set_COUNT bytes (set_POSITION pos (set_DEVICE (minor_of dev)
    (set_m_type op_s (set_IO_GRANT g (set_IO_ENDPT FS_PROC_NR
      (set_ADDRESS buf (set_IO_ENDPT proc_e m0)))))))).

(** The test of lines 93-96 of [suspended_ep] on one process record. *)
Definition waits_on {K : Consts} (driver g : Z) (rfp : fproc_t) : bool :=
  negb (fp_pid rfp =? PID_FREE) && (fp_suspended rfp =? SUSPENDED)
  && (fp_task rfp =? - driver) && (fp_grant rfp =? g).

(** The table after every binding of the endpoint was cleared. *)
Definition unmapped {K : Consts} (e : Z) (t : list dmap_t) : list dmap_t :=
  map (fun d => if dmap_driver d =? e
                then {| dmap_opcl := no_dev_fn; dmap_io := no_dev_io_fn;
                        dmap_driver := NONE |}
                else d) t.

(** A request goes to an endpoint other than NONE. *)
Definition to_bound {K : Consts} (e : event) : Prop :=
  match e with EvSendrec dst _ _ _ => dst <> NONE | _ => True end.

(** The filp and inode tables are the same. *)
Definition files_frame (s s' : state) : Prop :=
  filp s' = filp s /\ inode s' = inode s.

(** The run did not stop for lack of fuel. *)
Definition fuelled {A} (o : outcome A) : Prop :=
  match o with Abort OutOfFuel _ => False | _ => True end.

(** Element [j] of a vectored request over the vector at [v].  [h] is the
    history when the loop over the vector starts, [subs] are the events of
    the loop and [entries] the first elements of [new_iovec] after it.
    Event [j] is a grant to the driver over the buffer whose address and
    size the file server reads in [v[j]] after the first [j] sub-grants,
    with the id the kernel gives for that grant; entry [j] holds that id
    and the size read in [v[j]] once the grant is made. *)
Definition sub_grant {E : Env} (driver access : Z) (v : bufptr) (h : list event)
    (subs : list event) (entries : list (Z * Z)) (j : nat) : Prop :=
  let e := k_iovec (h ++ take j subs) v (Z.of_nat j) in
  let g := k_grant_direct (h ++ take j subs) driver (Caller (fst e)) (snd e) access in
  subs !! j = Some (EvGrantDirect driver (Caller (fst e)) (snd e) access g)
  /\ entries !! j
     = Some (g, snd (k_iovec (h ++ take (S j) subs) v (Z.of_nat j))).

(** No run of [m] stops for lack of fuel. *)
Definition enough {A} (m : M A) : Prop := forall s, fuelled (m s).

(** ** Properties *)

(** *** Stepping through a run *)

Section Runs.
Context {K : Consts} {E : Env}.

Lemma major_of_nonneg (dev : Z) : 0 <= major_of dev.
Proof. unfold major_of, BYTE. apply Z.land_nonneg. right. lia. Qed.

Lemma zlookup_of_nat {A} (l : list A) (i : nat) : zlookup l (Z.of_nat i) = l !! i.
Proof.
  unfold zlookup. destruct (Z.leb_spec 0 (Z.of_nat i)); [|lia].
  now rewrite Nat2Z.id.
Qed.

Lemma zlookup_nonneg {A} (l : list A) (i : Z) :
  0 <= i -> zlookup l i = l !! Z.to_nat i.
Proof. intros H. unfold zlookup. destruct (Z.leb_spec 0 i); [reflexivity|lia]. Qed.

Lemma index_Some {A} (l : list A) (i : Z) (x : A) (s : state) :
  zlookup l i = Some x -> index l i s = Done x s.
Proof. intros H. unfold index. now rewrite H. Qed.

Lemma index_Done {A} (l : list A) (i : Z) (s : state) (x : A) (s' : state) :
  index l i s = Done x s' -> zlookup l i = Some x /\ s' = s.
Proof.
  unfold index. destruct (zlookup l i); cbn; [|discriminate].
  intros [= -> ->]. auto.
Qed.

Lemma cur_fproc_Some (s : state) (i : nat) (p : fproc_t) :
  fp s = Some i -> fproc s !! i = Some p -> cur_fproc s = Done p s.
Proof.
  intros Hfp Hp. unfold cur_fproc, bind, gets. rewrite Hfp.
  apply index_Some. now rewrite zlookup_of_nat.
Qed.

Lemma cur_fproc_Done (s : state) (p : fproc_t) (s' : state) :
  cur_fproc s = Done p s' ->
  exists i : nat, fp s = Some i /\ fproc s !! i = Some p /\ s' = s.
Proof.
  unfold cur_fproc, bind, gets. destruct (fp s) as [i|]; [|discriminate].
  intros H. apply index_Done in H as [H ->]. rewrite zlookup_of_nat in H. eauto.
Qed.

Lemma dmap_at_Some (s : state) (i : Z) (dp : dmap_t) :
  0 <= i -> dmap s !! Z.to_nat i = Some dp -> dmap_at i s = Done dp s.
Proof.
  intros Hi Hdp. unfold dmap_at, bind, gets.
  apply index_Some. now rewrite zlookup_nonneg.
Qed.

Lemma dmap_at_Done (i : Z) (s : state) (dp : dmap_t) (s' : state) :
  dmap_at i s = Done dp s' -> zlookup (dmap s) i = Some dp /\ s' = s.
Proof. unfold dmap_at, bind, gets. apply index_Done. Qed.

Lemma update_cur_fproc_Some (f : fproc_t -> fproc_t) (s : state) (i : nat) (p : fproc_t) :
  fp s = Some i -> fproc s !! i = Some p ->
  update_cur_fproc f s = Done tt (set_fproc (<[i := f p]> (fproc s)) s).
Proof.
  intros Hfp Hp. unfold update_cur_fproc, bind, gets. rewrite Hfp.
  rewrite (index_Some _ _ p) by (now rewrite zlookup_of_nat). reflexivity.
Qed.

Lemma update_cur_fproc_Done (f : fproc_t -> fproc_t) (s s' : state) :
  update_cur_fproc f s = Done tt s' ->
  exists (i : nat) p, fp s = Some i /\ fproc s !! i = Some p
              /\ s' = set_fproc (<[i := f p]> (fproc s)) s.
Proof.
  unfold update_cur_fproc, bind, gets. destruct (fp s) as [i|]; [|discriminate].
  destruct (index (fproc s) (Z.of_nat i) s) as [p s1|] eqn:Hi; [|discriminate].
  apply index_Done in Hi as [Hi ->]. rewrite zlookup_of_nat in Hi.
  cbn. intros [= <-]. eauto.
Qed.

Lemma bind_Done {A B} (m : M A) (k : A -> M B) (s : state) (b : B) (s' : state) :
  bind m k s = Done b s' -> exists a s1, m s = Done a s1 /\ k a s1 = Done b s'.
Proof. unfold bind. destruct (m s) as [a s1|]; [eauto|discriminate]. Qed.

Lemma bind_run {A B} (m : M A) (k : A -> M B) (s : state) (a : A) (s1 : state) :
  m s = Done a s1 -> bind m k s = k a s1.
Proof. intros H. unfold bind. now rewrite H. Qed.

Lemma final_index {A} (l : list A) i s : final (index l i s) = s.
Proof. unfold index. now destruct (zlookup l i). Qed.

Lemma final_cur_fproc s : final (cur_fproc s) = s.
Proof.
  unfold cur_fproc, bind, gets. destruct (fp s); [apply final_index|reflexivity].
Qed.

Lemma final_dmap_at i s : final (dmap_at i s) = s.
Proof. unfold dmap_at, bind, gets. apply final_index. Qed.

Lemma post_bind {A B} (R : state -> state -> Prop) (m : M A) (k : A -> M B) :
  (forall s1 s2 s3, R s1 s2 -> R s2 s3 -> R s1 s3) ->
  post R m -> (forall a, post R (k a)) -> post R (bind m k).
Proof.
  intros Htrans Hm Hk s. unfold bind. specialize (Hm s).
  destruct (m s) as [a s1|w s1]; cbn in *.
  - eapply Htrans; [exact Hm|apply Hk].
  - exact Hm.
Qed.

Lemma post_pure {A} (R : state -> state -> Prop) (m : M A) :
  (forall s, R s s) -> (forall s, final (m s) = s) -> post R m.
Proof. intros Hrefl Hm s. rewrite Hm. apply Hrefl. Qed.

Lemma post_weaken {A} (R R' : state -> state -> Prop) (m : M A) :
  (forall s s', R s s' -> R' s s') -> post R m -> post R' m.
Proof. intros H Hm s. apply H, Hm. Qed.

Lemma post_Done {A} (R : state -> state -> Prop) (m : M A) s a s' :
  post R m -> m s = Done a s' -> R s s'.
Proof. intros H Hm. specialize (H s). now rewrite Hm in H. Qed.

End Runs.

(** *** What a call of a task leaves unchanged *)

Section Frames.
Context {K : Consts} {E : Env}.

Lemma same_tables_refl s : same_tables s s.
Proof. now split. Qed.

Lemma same_tables_trans s1 s2 s3 :
  same_tables s1 s2 -> same_tables s2 s3 -> same_tables s1 s3.
Proof. intros [] []. split; congruence. Qed.

Lemma grows_by_same P s s' : trace s' = trace s -> grows_by P s s'.
Proof. intros H. exists []. now rewrite app_nil_r. Qed.

Lemma grows_by_refl P s : grows_by P s s.
Proof. now apply grows_by_same. Qed.

Lemma grows_by_trans P s1 s2 s3 :
  grows_by P s1 s2 -> grows_by P s2 s3 -> grows_by P s1 s3.
Proof.
  intros (t1 & Ht1 & H1) (t2 & Ht2 & H2).
  exists (t1 ++ t2). split; [now rewrite Ht2, Ht1, app_assoc|].
  apply Forall_app. auto.
Qed.

Lemma grows_by_log (P : event -> Prop) e s : P e -> grows_by P s (log e s).
Proof. intros H. exists [e]. split; [reflexivity|]. now constructor. Qed.

Lemma minted_app t1 t2 : minted (t1 ++ t2) = minted t1 ++ minted t2.
Proof. apply flat_map_app. Qed.

Lemma revoked_app t1 t2 : revoked (t1 ++ t2) = revoked t1 ++ revoked t2.
Proof. apply flat_map_app. Qed.

Lemma sendrec_no_grants t : Forall is_sendrec t -> minted t = [] /\ revoked t = [].
Proof.
  induction 1 as [|e t He _ [IH1 IH2]]; [now split|].
  destruct e; try contradiction. split; [exact IH1|exact IH2].
Qed.

Lemma io_frame_refl s : io_frame s s.
Proof. split; [apply same_tables_refl|apply grows_by_refl|auto]. Qed.

Lemma io_frame_trans s1 s2 s3 : io_frame s1 s2 -> io_frame s2 s3 -> io_frame s1 s3.
Proof.
  intros [] []. split; [eapply same_tables_trans|eapply grows_by_trans|]; eauto.
Qed.

Lemma grant_frame_refl s : grant_frame s s.
Proof. split; [apply same_tables_refl|reflexivity|apply grows_by_refl]. Qed.

Lemma grant_frame_trans s1 s2 s3 :
  grant_frame s1 s2 -> grant_frame s2 s3 -> grant_frame s1 s3.
Proof.
  intros [] []. split; [eapply same_tables_trans|congruence|eapply grows_by_trans]; eauto.
Qed.

Lemma io_frame_sendrec dst m : post io_frame (sendrec dst m).
Proof.
  intros s. unfold sendrec. destruct (k_sendrec (trace s) dst m) as [r rep]. cbn.
  split; [now split|now apply grows_by_log|auto].
Qed.

Lemma io_frame_unmap e : post io_frame (dmap_unmap_by_endpt e).
Proof.
  intros s. cbn. split; [now split|now apply grows_by_same|].
  cbn. intros i d' Hd' Hne. rewrite list_lookup_fmap in Hd'.
  destruct (dmap s !! i) as [d|]; [|discriminate]. cbn in Hd'.
  destruct (dmap_driver d =? e); [|congruence].
  injection Hd' as <-. now cbn in Hne.
Qed.

Ltac frame_step :=
  first [ apply post_bind; [exact io_frame_trans| |intros ?]
        | apply io_frame_sendrec
        | apply io_frame_unmap
        | apply post_pure; [exact io_frame_refl|intros ?; reflexivity] ].

Lemma io_frame_gen_io task m : post io_frame (gen_io task m).
Proof.
  unfold gen_io. frame_step; [frame_step|].
  destruct a as [r mess].
  repeat match goal with
         | |- post _ (if ?b then _ else _) => destruct b
         | |- _ => frame_step
         end.
Qed.

Lemma io_frame_ctty_io task m : post io_frame (ctty_io task m).
Proof.
  unfold ctty_io.
  apply post_bind; [exact io_frame_trans|apply post_pure; [exact io_frame_refl|apply final_cur_fproc]|intros p].
  destruct (fp_tty p =? 0); [frame_step|].
  apply post_bind; [exact io_frame_trans|apply post_pure; [exact io_frame_refl|apply final_dmap_at]|intros dp].
  destruct (dmap_driver dp =? NONE); [frame_step|].
  frame_step; [frame_step|].
  destruct (negb (a =? OK)); [frame_step|].
  frame_step.
  - destruct (dmap_io dp); [apply io_frame_gen_io|frame_step|frame_step].
  - destruct a0. frame_step.
Qed.

Lemma io_frame_call_io h task m : post io_frame (call_io h task m).
Proof.
  destruct h; cbn; [apply io_frame_gen_io|apply io_frame_ctty_io|].
  unfold no_dev_io. frame_step.
Qed.

Lemma procs_frame_refl s : procs_frame s s.
Proof. now split. Qed.

Lemma procs_frame_trans s1 s2 s3 :
  procs_frame s1 s2 -> procs_frame s2 s3 -> procs_frame s1 s3.
Proof. intros [] []. split; congruence. Qed.

Lemma procs_frame_io s s' : io_frame s s' -> procs_frame s s'.
Proof. intros [[] _ _]. now split. Qed.

Lemma final_put_inode rip : post procs_frame (put_inode rip).
Proof.
  intros s. destruct rip as [i|]; [|apply procs_frame_refl].
  unfold put_inode, bind, gets.
  destruct (index (inode s) (Z.of_nat i) s) as [x s1|w s1] eqn:Hi.
  - apply index_Done in Hi as [_ ->]. now split.
  - pose proof (final_index (inode s) (Z.of_nat i) s) as Hf. rewrite Hi in Hf.
    cbn in *. subst. apply procs_frame_refl.
Qed.

Lemma final_alloc_inode dev bits : post procs_frame (alloc_inode dev bits).
Proof.
  intros s. unfold alloc_inode.
  destruct (k_alloc_fail (trace s)); [now split|].
  destruct (free_slot (inode s) 0); now split.
Qed.

Ltac procs_step :=
  match goal with
  | |- post _ (bind _ _) => apply post_bind; [exact procs_frame_trans| |intros ?]
  | |- post _ (if ?b then _ else _) => destruct b
  | |- post _ (call_io _ _ _) =>
      apply (post_weaken io_frame); [exact procs_frame_io|apply io_frame_call_io]
  | |- post _ (put_inode _) => apply final_put_inode
  | |- post _ (alloc_inode _ _) => apply final_alloc_inode
  | |- post _ (index _ _) => apply post_pure; [exact procs_frame_refl|intros ?; apply final_index]
  | |- post _ (dmap_at _) => apply post_pure; [exact procs_frame_refl|intros ?; apply final_dmap_at]
  | |- post _ cur_fproc => apply post_pure; [exact procs_frame_refl|intros ?; apply final_cur_fproc]
  | |- post _ (modify _) => intros ?; now split
  | |- post _ (let '(_, _) := ?a in _) => destruct a
  | |- post _ (match ?x with Some _ => _ | None => _ end) => destruct x
  | |- post _ _ => apply post_pure; [exact procs_frame_refl|intros ?; reflexivity]
  end.

Lemma procs_frame_gen_opcl op dev proc_e flags : post procs_frame (gen_opcl op dev proc_e flags).
Proof. unfold gen_opcl. repeat procs_step. Qed.











End Frames.

(** *** The conversion to grants and the cleanup *)

Section Grants.
Context {K : Consts} {E : Env}.

Lemma grant_frame_log e s : is_grant e -> grant_frame s (log e s).
Proof. intros H. split; [now split|reflexivity|now apply grows_by_log]. Qed.

Lemma grant_frame_new_iovec v s : grant_frame s (set_new_iovec v s).
Proof. split; [now split|reflexivity|now apply grows_by_same]. Qed.

(** The loop over the vector mints the grants it returns, and nothing else
    happens; it can only stop by a panic. *)
Lemma grant_iovec_spec (n : nat) : forall (j driver op : Z) (v : bufptr) (gids : list Z) (s : state),
  match grant_iovec n j driver op v gids s with
  | Done gids' s' =>
      grant_frame s s' /\
      exists t, trace s' = trace s ++ t /\ gids' = gids ++ minted t /\ revoked t = []
  | Abort w s' => (exists msg, w = Panic msg) /\ grant_frame s s'
  end.
Proof.
  induction n as [|n IH]; intros j driver op v gids s.
  - cbn. split; [apply grant_frame_refl|]. exists []. now rewrite !app_nil_r.
  - cbn [grant_iovec].
    destruct (NR_IOREQS <=? j).
    { cbn. split; [eauto|apply grant_frame_refl]. }
    unfold bind at 1, gets. unfold bind at 1, cpf_grant_direct.
    set (e := k_iovec (trace s) v j).
    set (g := k_grant_direct _ _ _ _ _).
    set (ev := EvGrantDirect _ _ _ _ g).
    unfold bind at 1, modify.
    set (s1 := set_new_iovec _ (log ev s)).
    assert (H1 : grant_frame s s1).
    { eapply grant_frame_trans; [apply (grant_frame_log ev); exact I|apply grant_frame_new_iovec]. }
    destruct (GRANT_VALID g).
    2:{ cbn. split; [eauto|exact H1]. }
    cbn [negb]. unfold bind at 1, gets. unfold bind at 1.
    set (s2 := set_new_iovec _ s1).
    assert (H2 : grant_frame s s2).
    { eapply grant_frame_trans; [exact H1|apply grant_frame_new_iovec]. }
    specialize (IH (j + 1) driver op v (gids ++ [g]) s2).
    destruct (grant_iovec n (j + 1) driver op v (gids ++ [g]) s2) as [gids' s'|w s'].
    + destruct IH as (Hf & t & Ht & Hg & Hr). split; [eapply grant_frame_trans; eauto|].
      exists (ev :: t). split; [|split].
      * rewrite Ht. cbn. now rewrite <- app_assoc.
      * rewrite Hg. cbn. now rewrite <- app_assoc.
      * exact Hr.
    + destruct IH as (Hw & Hf). split; [exact Hw|eapply grant_frame_trans; eauto].
Qed.

Lemma conv_result_spec (gid op : Z) (gids : list Z) (io_ept : Z) (buf : bufptr) (pos : Z) :
  let c := conv_result gid op gids io_ept buf pos in
  c_safe c = GRANT_VALID gid /\ c_gid c = gid /\ c_gids c = gids /\ c_buf c = buf
  /\ c_vec_grants c = Z.of_nat (length (c_gids c)).
Proof. unfold conv_result. now destruct (GRANT_VALID gid). Qed.

(** What [safe_io_conversion] leaves behind: the grants it minted are the
    outer grant and the sub-grants it reports (none when it reports no
    conversion), the buffer is replaced exactly on vectored requests, and
    nothing is revoked. *)
Lemma safe_io_conversion_spec (KO : ConstsOk K)
    (driver op io_ept : Z) (buf : bufptr) (bytes pos : Z) (s : state) :
  match safe_io_conversion driver op io_ept buf bytes pos s with
  | Done c s' =>
      grant_frame s s' /\
      c_vec_grants c = Z.of_nat (length (c_gids c)) /\
      (c_buf c = buf /\ c_gids c = [] /\ op <> DEV_GATHER /\ op <> DEV_SCATTER
       \/ c_buf c = NewIovec /\ (op = DEV_GATHER \/ op = DEV_SCATTER)) /\
      exists t, trace s' = trace s ++ t /\ revoked t = [] /\
                minted t = if c_safe c then c_gid c :: c_gids c else []
  | Abort w s' => (exists msg, w = Panic msg) /\ grant_frame s s'
  end.
Proof.
  unfold safe_io_conversion.
  (* a grant that was accepted *)
  assert (Hmint : forall g op' gids b p t,
             0 <= g -> minted t = g :: gids ->
             let c := conv_result g op' gids io_ept b p in
             minted t = if c_safe c then c_gid c :: c_gids c else []).
  { intros g op' gids b p t Hg Hm c. subst c.
    destruct (conv_result_spec g op' gids io_ept b p) as (-> & -> & -> & _).
    now rewrite grant_valid_nonneg. }
  destruct ((op =? DEV_READ) || (op =? DEV_WRITE)) eqn:Hrw.
  { unfold bind, cpf_grant_magic.
    set (g := k_grant_magic _ _ _ _ _ _). set (ev := EvGrantMagic _ _ _ _ _ g).
    assert (Hf : grant_frame s (log ev s)) by (apply grant_frame_log; exact I).
    destruct (Z.ltb_spec g 0) as [|Hg]; [split; eauto|].
    unfold ret. split; [exact Hf|].
    match goal with |- context [conv_result g ?o [] io_ept buf pos] =>
      destruct (conv_result_spec g o [] io_ept buf pos) as (_ & _ & Hgids & Hbuf & Hvec);
      pose proof (Hmint g o [] buf pos [ev] Hg eq_refl) as Hm end.
    split; [exact Hvec|]. split; [|exists [ev]; auto].
    left. split; [exact Hbuf|]. split; [exact Hgids|].
    apply orb_true_iff in Hrw.
    split; intros ->; destruct Hrw as [H|H]; apply Z.eqb_eq in H.
    - now apply read_gather.
    - now apply write_gather.
    - now apply read_scatter.
    - now apply write_scatter. }
  destruct ((op =? DEV_GATHER) || (op =? DEV_SCATTER)) eqn:Hgs.
  { assert (Hop : op = DEV_GATHER \/ op = DEV_SCATTER).
    { apply orb_true_iff in Hgs as [H|H]; apply Z.eqb_eq in H; auto. }
    unfold bind at 1, cpf_grant_direct.
    set (g := k_grant_direct _ _ _ _ _). set (ev := EvGrantDirect _ _ _ _ g).
    assert (Hf : grant_frame s (log ev s)) by (apply grant_frame_log; exact I).
    destruct (Z.ltb_spec g 0) as [|Hg]; [split; eauto|].
    unfold bind.
    match goal with |- context [grant_iovec ?n ?j ?d ?o ?v ?gs ?st] =>
      pose proof (grant_iovec_spec n j d o v gs st) as Hloop;
      destruct (grant_iovec n j d o v gs st) as [gids s'|w s'] end.
    - destruct Hloop as (Hf' & t & Ht & Hgids & Hr). cbn [app] in Hgids.
      unfold ret. split; [eapply grant_frame_trans; eauto|].
      match goal with |- context [conv_result g ?o gids io_ept NewIovec pos] =>
        destruct (conv_result_spec g o gids io_ept NewIovec pos) as (_ & _ & _ & Hbuf & Hvec);
        pose proof (Hmint g o gids NewIovec pos (ev :: t) Hg) as Hm end.
      split; [exact Hvec|]. split; [right; auto|].
      exists (ev :: t). split; [rewrite Ht; cbn; now rewrite <- app_assoc|].
      split; [exact Hr|]. apply Hm. cbn. now rewrite Hgids.
    - destruct Hloop as (Hw & Hf'). split; [exact Hw|eapply grant_frame_trans; eauto]. }
  assert (Hng : op <> DEV_GATHER /\ op <> DEV_SCATTER).
  { apply orb_false_iff in Hgs as [H1 H2]. apply Z.eqb_neq in H1, H2. auto. }
  destruct (op =? DEV_IOCTL).
  { unfold bind at 1, gets. unfold bind, cpf_grant_magic.
    set (g := k_grant_magic _ _ _ _ _ _). set (ev := EvGrantMagic _ _ _ _ _ g).
    assert (Hf : grant_frame s (log ev s)) by (apply grant_frame_log; exact I).
    destruct (Z.ltb_spec g 0) as [|Hg]; [split; eauto|].
    unfold ret. split; [exact Hf|].
    match goal with |- context [conv_result g ?o [] io_ept buf ?p] =>
      destruct (conv_result_spec g o [] io_ept buf p) as (_ & _ & Hgids & Hbuf & Hvec);
      pose proof (Hmint g o [] buf p [ev] Hg eq_refl) as Hm end.
    split; [exact Hvec|]. split; [|exists [ev]; auto].
    left. tauto. }
  (* no conversion *)
  unfold ret. split; [apply grant_frame_refl|].
  destruct (conv_result_spec GRANT_INVALID op [] io_ept buf pos) as (Hs & _ & Hgids & Hbuf & Hvec).
  split; [exact Hvec|]. split; [left; tauto|].
  exists []. rewrite app_nil_r, Hs, grant_invalid_invalid. auto.
Qed.

(** C6.  For DEV_READ and DEV_WRITE, [safe_io_conversion] mints exactly one
    grant, over [bytes] bytes at the buffer in the address space of the I/O
    endpoint, with access CPF_WRITE for a read and CPF_READ for a write;
    the operation becomes DEV_READ_S or DEV_WRITE_S and the endpoint of the
    message becomes FS_PROC_NR.  (It panics when the grant is refused.) *)
Theorem safe_io_conversion_read_write (KO : ConstsOk K)
    (driver op io_ept : Z) (buf : bufptr) (bytes pos : Z) (s : state) :
  op = DEV_READ \/ op = DEV_WRITE ->
  let access := if op =? DEV_READ then CPF_WRITE else CPF_READ in
  let op_s := if op =? DEV_READ then DEV_READ_S else DEV_WRITE_S in
  let g := k_grant_magic (trace s) driver io_ept buf bytes access in
  let s' := log (EvGrantMagic driver io_ept buf bytes access g) s in
  safe_io_conversion driver op io_ept buf bytes pos s
  = if g <? 0 then Abort (Panic "cpf_grant_magic of buffer failed") s'
    else Done {| c_safe := true; c_gid := g; c_op := op_s; c_gids := [];
                 c_io_ept := FS_PROC_NR; c_buf := buf; c_vec_grants := 0;
                 c_pos := pos |} s'.
Proof.
  intros Hop access op_s g s'.
  assert (Hacc : (if op_s =? DEV_READ_S then CPF_WRITE else CPF_READ) = access).
  { subst op_s access. destruct (Z.eqb_spec op DEV_READ) as [|Hne].
    - now rewrite Z.eqb_refl.
    - destruct (Z.eqb_spec DEV_WRITE_S DEV_READ_S) as [Heq|]; [|reflexivity].
      symmetry in Heq. now apply read_s_write_s in Heq. }
  unfold safe_io_conversion.
  assert (Hsel : (op =? DEV_READ) || (op =? DEV_WRITE) = true).
  { destruct Hop as [-> | ->]; rewrite Z.eqb_refl; [reflexivity|apply orb_true_r]. }
  rewrite Hsel. fold op_s. rewrite Hacc.
  unfold bind, cpf_grant_magic. fold g. fold s'.
  destruct (Z.ltb_spec g 0) as [|Hg]; [reflexivity|].
  unfold ret, conv_result. now rewrite grant_valid_nonneg.
Qed.

Lemma trace_logs t s : trace (logs t s) = trace s ++ t.
Proof.
  revert s. induction t as [|e t IH]; intros s; cbn.
  - now rewrite app_nil_r.
  - rewrite IH. cbn. now rewrite <- app_assoc.
Qed.

Lemma revoke_loop_spec (gids pre : list Z) (s : state) :
  revoke_loop (length gids) (Z.of_nat (length pre)) (pre ++ gids) s
  = Done tt (logs (map EvRevoke gids) s).
Proof.
  revert pre s. induction gids as [|g gids IH]; intros pre s; [reflexivity|].
  cbn [length revoke_loop]. unfold bind at 1.
  rewrite (index_Some _ _ g).
  2:{ rewrite zlookup_of_nat. rewrite lookup_app_r by lia.
      now rewrite Nat.sub_diag. }
  unfold bind, cpf_revoke, modify.
  replace (Z.of_nat (length pre) + 1) with (Z.of_nat (length (pre ++ [g])))
    by (rewrite length_app; cbn; lia).
  replace (pre ++ g :: gids) with ((pre ++ [g]) ++ gids) by now rewrite <- app_assoc.
  now rewrite IH.
Qed.

Lemma safe_io_cleanup_spec (gid : Z) (gids : list Z) (s : state) :
  safe_io_cleanup gid gids (Z.of_nat (length gids)) s
  = Done tt (logs (EvRevoke gid :: map EvRevoke gids) s).
Proof.
  unfold safe_io_cleanup, bind, cpf_revoke, modify. rewrite Nat2Z.id.
  apply (revoke_loop_spec gids []).
Qed.

Lemma minted_revokes (l : list Z) : minted (map EvRevoke l) = [].
Proof. induction l as [|g l IH]; [reflexivity|exact IH]. Qed.

Lemma revoked_revokes (l : list Z) : revoked (map EvRevoke l) = l.
Proof. induction l as [|g l IH]; [reflexivity|]. cbn. now f_equal. Qed.

(** The cleanup after any conversion. *)
Lemma cleanup_if_run (c : conv) (s : state) :
  c_vec_grants c = Z.of_nat (length (c_gids c)) ->
  (if c_safe c then safe_io_cleanup (c_gid c) (c_gids c) (c_vec_grants c) else ret tt) s
  = Done tt (if c_safe c
             then logs (EvRevoke (c_gid c) :: map EvRevoke (c_gids c)) s else s).
Proof.
  intros Hv. destruct (c_safe c); [|reflexivity].
  rewrite Hv. apply safe_io_cleanup_spec.
Qed.

Lemma cleanup_if_spec (c : conv) (s : state) :
  c_gids c = [] -> c_vec_grants c = 0 ->
  (if c_safe c then safe_io_cleanup (c_gid c) (c_gids c) (c_vec_grants c) else ret tt) s
  = Done tt (if c_safe c then log (EvRevoke (c_gid c)) s else s).
Proof. intros -> ->. now destruct (c_safe c). Qed.

End Grants.

(** *** dev_io *)

Section DevIo.
Context {K : Consts} {E : Env}.

(** What the call of the task in [dev_io] leaves behind when it returns:
    the grants minted are the ones the conversion reports, and a request
    that is not vectored has no sub-grants. *)
Lemma dev_io_call_spec (KO : ConstsOk K) (dp : dmap_t) (op dev proc_e buf pos bytes : Z)
    (s : state) (c : conv) (ioproc : Z) (m1 : message) (s1 : state) :
  dev_io_call dp op dev proc_e buf pos bytes s = Done (c, ioproc, m1) s1 ->
  c_vec_grants c = Z.of_nat (length (c_gids c)) /\ ioproc = c_io_ept c /\
  (op <> DEV_GATHER -> op <> DEV_SCATTER -> c_gids c = []) /\
  same_tables s s1 /\
  (forall (i : nat) d', dmap s1 !! i = Some d' -> dmap_driver d' <> NONE ->
                        dmap s !! i = Some d') /\
  exists t, trace s1 = trace s ++ t /\ revoked t = [] /\
            minted t = if c_safe c then c_gid c :: c_gids c else [].
Proof.
  unfold dev_io_call. intros H.
  apply bind_Done in H as (m0 & s0 & Hm0 & H). cbn in Hm0. injection Hm0 as <- <-.
  apply bind_Done in H as (c' & sc & Hc & H).
  pose proof (safe_io_conversion_spec KO (dmap_driver dp) op
                (IO_ENDPT (set_ADDRESS buf (set_IO_ENDPT proc_e (k_uninit (trace s)))))
                (Caller buf) (to_vir_bytes bytes) pos s) as Hspec.
  rewrite Hc in Hspec. destruct Hspec as (Hgf & Hvec & Hbuf & t & Ht & Hr & Hm).
  destruct (buf =? vir_addr (c_buf c')); [|discriminate]. cbn [negb] in H.
  apply bind_Done in H as ([r m1'] & s1' & Hio & H). cbn in H. injection H as <- <- <- <-.
  pose proof (post_Done _ _ _ _ _ (io_frame_call_io _ _ _) Hio) as [Ht1 (t1 & Htr1 & Hs1) Hd1].
  destruct Hgf as [Ht0 Hd0 _].
  split; [exact Hvec|]. split; [now destruct (c_safe c')|].
  split; [|split; [|split]].
  - intros H1 H2. destruct Hbuf as [(_ & Hg & _)|(_ & [H|H])]; [exact Hg| |]; contradiction.
  - eapply same_tables_trans; eauto.
  - intros i d' H1 H2. rewrite <- Hd0. eauto.
  - exists (t ++ t1). destruct (sendrec_no_grants t1 Hs1) as [Hm1 Hr1].
    rewrite Htr1, Ht, <- app_assoc, minted_app, revoked_app, Hm1, Hr1, Hr, Hm.
    rewrite !app_nil_r. auto.
Qed.

(** The two ways in which [dev_io] returns after the task was called:
    the caller is suspended and holds the grant, or the grants are
    revoked. *)
Lemma dev_io_reply_spec (KO : ConstsOk K) (dev flags : Z) (c : conv) (ioproc : Z)
    (m1 : message) (s1 : state) (r : Z) (s' : state) :
  c_vec_grants c = Z.of_nat (length (c_gids c)) ->
  dev_io_reply dev flags c ioproc m1 s1 = Done r s' ->
  exists dp1 t,
    dmap s1 !! Z.to_nat (major_of dev) = Some dp1 /\
    trace s' = trace s1 ++ t /\ minted t = [] /\
    let blocked := dmap_driver dp1 <> NONE /\ REP_STATUS m1 = SUSPEND
                   /\ Z.land flags O_NONBLOCK = 0 in
    (blocked ->
       revoked t = [] /\ r = SUSPEND /\ c_gids c = [] /\
       exists (i : nat) p', fp s' = Some i /\ fproc s' !! i = Some p' /\
                    fp_grant p' = c_gid c /\ fp_ioproc p' = ioproc) /\
    (~ blocked -> revoked t = if c_safe c then c_gid c :: c_gids c else []).
Proof.
  intros Hv H. unfold dev_io_reply in H.
  apply bind_Done in H as (dp1 & s0 & Hdp & H).
  apply dmap_at_Done in Hdp as [Hdp ->].
  rewrite zlookup_nonneg in Hdp by apply major_of_nonneg.
  exists dp1.
  assert (Hfin : forall s2 t2 r2 s2',
             trace s2 = trace s1 ++ t2 -> Forall is_sendrec t2 ->
             ((if c_safe c then safe_io_cleanup (c_gid c) (c_gids c) (c_vec_grants c) else ret tt) ;;
              ret r2) s2 = Done r s2' ->
             exists t, trace s2' = trace s1 ++ t /\ minted t = [] /\
                       revoked t = if c_safe c then c_gid c :: c_gids c else []).
  { intros s2 t2 r2 s2' Ht2 Hs2 Hrun. unfold bind in Hrun.
    rewrite cleanup_if_run in Hrun by assumption. lazy beta iota in Hrun.
    unfold ret in Hrun. injection Hrun as _ <-.
    destruct (sendrec_no_grants t2 Hs2) as [Hm2 Hr2].
    destruct (c_safe c).
    - exists (t2 ++ EvRevoke (c_gid c) :: map EvRevoke (c_gids c)).
      split; [|split].
      + rewrite trace_logs. cbn [trace log]. rewrite Ht2, <- !app_assoc. reflexivity.
      + rewrite minted_app, Hm2.
        exact (minted_revokes (c_gid c :: c_gids c)).
      + rewrite revoked_app, Hr2.
        exact (revoked_revokes (c_gid c :: c_gids c)).
    - exists t2. auto. }
  destruct (Z.eqb_spec (dmap_driver dp1) NONE) as [Hnone|Hbound].
  { unfold bind at 1 in H.
    destruct (Hfin s1 [] EIO s') as (t & Ht & Hm & Hr);
      [now rewrite app_nil_r|constructor|exact H|].
    exists t. split; [exact Hdp|]. split; [exact Ht|]. split; [exact Hm|].
    split; [intros (Hc & _); contradiction|intros _; exact Hr]. }
  apply bind_Done in H as (om & s2 & Hmid & H).
  destruct (Z.eqb_spec (REP_STATUS m1) SUSPEND) as [Hsusp|Hnot].
  2:{ cbn in Hmid. injection Hmid as <- <-.
      destruct (Hfin s1 [] (REP_STATUS m1) s') as (t & Ht & Hm & Hr);
        [now rewrite app_nil_r|constructor|exact H|].
      exists t. split; [exact Hdp|]. split; [exact Ht|]. split; [exact Hm|].
      split; [intros (_ & Hc & _); contradiction|intros _; exact Hr]. }
  destruct (Z.ltb_spec 0 (c_vec_grants c)) as [|Hnv]; [discriminate|].
  assert (Hg : c_gids c = []).
  { destruct (c_gids c); [reflexivity|]. cbn [length] in Hv. lia. }
  apply bind_Done in Hmid as (cur & s3 & Hcur & Hmid). cbn in Hcur. injection Hcur as <- <-.
  destruct (fp s1) as [i|] eqn:Hfp; [|discriminate].
  destruct (Z.eqb_spec (Z.land flags O_NONBLOCK) 0) as [Hblock|Hnb]; cbn [negb] in Hmid.
  - (* the caller blocks *)
    apply bind_Done in Hmid as ([] & s4 & Hsus & Hmid).
    unfold suspend in Hsus. apply bind_Done in Hsus as ([] & s5 & Hlog & Hsus).
    cbn in Hlog. injection Hlog as <-.
    apply update_cur_fproc_Done in Hsus as (i1 & p1 & Hfp1 & Hp1 & ->).
    cbn in Hfp1, Hp1. rewrite Hfp in Hfp1. injection Hfp1 as <-.
    set (p2 := set_fp_suspended SUSPENDED (- dmap_driver dp1) p1) in *.
    assert (Hlt : (i < length (fproc s1))%nat) by (eapply lookup_lt_Some; eauto).
    apply bind_Done in Hmid as (p & s6 & Hcur & Hmid).
    apply cur_fproc_Done in Hcur as (i2 & Hfp2 & Hp2 & ->).
    cbn in Hfp2, Hp2. rewrite Hfp in Hfp2. injection Hfp2 as <-.
    rewrite list_lookup_insert_eq in Hp2 by exact Hlt. injection Hp2 as <-.
    destruct (GRANT_VALID (fp_grant p2)); [discriminate|].
    apply bind_Done in Hmid as ([] & s7 & Hu1 & Hmid).
    apply update_cur_fproc_Done in Hu1 as (i3 & p3 & Hfp3 & Hp3 & ->).
    cbn in Hfp3, Hp3. rewrite Hfp in Hfp3. injection Hfp3 as <-.
    rewrite list_lookup_insert_eq in Hp3 by exact Hlt. injection Hp3 as <-.
    apply bind_Done in Hmid as ([] & s8 & Hu2 & Hmid).
    apply update_cur_fproc_Done in Hu2 as (i4 & p4 & Hfp4 & Hp4 & ->).
    cbn in Hfp4, Hp4. rewrite Hfp in Hfp4. injection Hfp4 as <-.
    rewrite list_lookup_insert_eq in Hp4 by (rewrite length_insert; exact Hlt).
    injection Hp4 as <-.
    cbn in Hmid. injection Hmid as <- <-. cbn in H. injection H as <- <-.
    exists [EvSuspend (dmap_driver dp1)]. cbn.
    split; [exact Hdp|]. split; [reflexivity|]. split; [reflexivity|].
    split; [|intros Hc; exfalso; apply Hc; auto].
    intros _. split; [reflexivity|]. split; [reflexivity|]. split; [exact Hg|].
    exists i, (set_fp_ioproc ioproc (set_fp_grant (c_gid c) p2)).
    split; [exact Hfp|]. split; [|split; reflexivity].
    apply list_lookup_insert_eq. now rewrite !length_insert.
  - (* the caller must not block: the request is cancelled *)
    apply bind_Done in Hmid as (call & s4 & Hcall & Hmid). cbn in Hcall.
    injection Hcall as <- <-.
    apply bind_Done in Hmid as ([r2 m2] & s4 & Hio & Hmid).
    cbn in Hmid. injection Hmid as <- <-.
    pose proof (post_Done _ _ _ _ _ (io_frame_call_io _ _ _) Hio) as [_ (t2 & Ht2 & Hs2) _].
    destruct (Hfin s4 t2 _ s' Ht2 Hs2 H) as (t & Ht & Hm & Hr).
    exists t. split; [exact Hdp|]. split; [exact Ht|]. split; [exact Hm|].
    split; [intros (_ & _ & Hc); contradiction|intros _; exact Hr].
Qed.

(** C1.  When [dev_io] returns, the grants it minted, the outer grant and
    every sub-grant, are revoked: after a plain reply, after the driver
    vanished (EIO) and after a cancelled non-blocking request alike.  The
    one exception is the branch in which the driver is still bound, the
    status in the message after the call is SUSPEND and the caller did not
    pass O_NONBLOCK: there nothing is revoked, the one grant minted (there
    are no sub-grants in this branch) and the I/O endpoint are stored in
    the caller's process record ([fp_grant], [fp_ioproc]), and SUSPEND is
    returned. *)
Theorem dev_io_revokes_grants (KO : ConstsOk K)
    (op dev proc_e buf pos bytes flags : Z) (s : state) (r : Z) (s' : state) :
  dev_io op dev proc_e buf pos bytes flags s = Done r s' ->
  exists t, trace s' = trace s ++ t /\
    (minted t <> [] ->
     exists dp c ioproc m1 s1 dp1,
       dmap s !! Z.to_nat (major_of dev) = Some dp /\
       dev_io_call dp op dev proc_e buf pos bytes s = Done (c, ioproc, m1) s1 /\
       dmap s1 !! Z.to_nat (major_of dev) = Some dp1 /\
       minted t = c_gid c :: c_gids c /\
       let blocked := dmap_driver dp1 <> NONE /\ REP_STATUS m1 = SUSPEND
                      /\ Z.land flags O_NONBLOCK = 0 in
       (blocked ->
          revoked t = [] /\ r = SUSPEND /\ c_gids c = [] /\
          exists (i : nat) p', fp s' = Some i /\ fproc s' !! i = Some p' /\
                       fp_grant p' = c_gid c /\ fp_ioproc p' = ioproc) /\
       (~ blocked -> revoked t = minted t)).
Proof.
  intros H. unfold dev_io in H.
  apply bind_Done in H as (dp & s0 & Hdp & H).
  apply dmap_at_Done in Hdp as [Hdp ->].
  rewrite zlookup_nonneg in Hdp by apply major_of_nonneg.
  destruct (dmap_driver dp =? NONE).
  { cbn in H. injection H as <- <-. exists []. rewrite app_nil_r. split; [reflexivity|].
    intros Hc. now contradiction Hc. }
  apply bind_Done in H as (ok & s0 & Hok & H). cbn in Hok. injection Hok as <- <-.
  destruct (negb (k_isokendpt (fproc s) (dmap_driver dp) =? OK)).
  { cbn in H. injection H as <- <-. exists []. rewrite app_nil_r. split; [reflexivity|].
    intros Hc. now contradiction Hc. }
  apply bind_Done in H as ([[c ioproc] m1] & s1 & Hcall & H).
  destruct (dev_io_call_spec KO _ _ _ _ _ _ _ _ _ _ _ _ Hcall)
    as (Hv & Hio & _ & _ & _ & t1 & Ht1 & Hr1 & Hm1).
  destruct (dev_io_reply_spec KO _ _ _ _ _ _ _ _ Hv H)
    as (dp1 & t2 & Hdp1 & Ht2 & Hm2 & HB & HA).
  exists (t1 ++ t2). split; [now rewrite Ht2, Ht1, app_assoc|].
  rewrite minted_app, revoked_app, Hm2, Hr1, app_nil_r, Hm1. cbn [app].
  intros Hminted. destruct (c_safe c); [|now contradiction Hminted].
  exists dp, c, ioproc, m1, s1, dp1.
  split; [exact Hdp|]. split; [exact Hcall|]. split; [exact Hdp1|].
  split; [reflexivity|]. split; [exact HB|exact HA].
Qed.

(** The CANCEL that [dev_io] builds from the message of the task. *)
Lemma cancel_mess_fields (call dev ioproc gid : Z) (m1 : message) :
  let cancel := cancel_mess call dev ioproc gid m1 in
  m_type cancel = CANCEL /\ IO_GRANT cancel = gid /\ IO_ENDPT cancel = ioproc
  /\ DEVICE cancel = minor_of dev /\ REP_STATUS cancel = ioproc.
Proof. unfold cancel_mess. now destruct (call =? READ), (call =? WRITE). Qed.

(** C3, as amended.  The caller passed O_NONBLOCK, the request is not a
    gather or a scatter, the driver is still bound after the call, and the
    status in the message after it is SUSPEND.  Without a current process
    [dev_io] panics.  With one, it passes through the same I/O routine to
    the same driver a CANCEL message that carries the same grant, the same
    I/O endpoint and the minor device, revokes the grant if one was minted,
    and returns the status that the message holds after that call, with
    EINTR turned into EAGAIN; if the I/O routine stops, so does [dev_io].
    What it returns is SUSPEND exactly when the message then holds SUSPEND
    (given that EINTR is not SUSPEND).  Through [gen_io]: when the CANCEL
    is answered, the status is that of the driver's reply, so a driver
    that answers the CANCEL with SUSPEND makes [dev_io] return SUSPEND;
    when the CANCEL cannot be delivered (ELOCKED) and the message stays as
    it was sent, the status is the I/O endpoint, which lies in the same
    field of the message. *)
Theorem dev_io_nonblocking_cancel (KO : ConstsOk K)
    (op dev proc_e buf pos bytes flags : Z) (s : state) (dp : dmap_t)
    (c : conv) (ioproc : Z) (m1 : message) (s1 : state) :
  dmap s !! Z.to_nat (major_of dev) = Some dp ->
  dmap_driver dp <> NONE ->
  k_isokendpt (fproc s) (dmap_driver dp) = OK ->
  op <> DEV_GATHER -> op <> DEV_SCATTER ->
  dev_io_call dp op dev proc_e buf pos bytes s = Done (c, ioproc, m1) s1 ->
  (exists dp1, dmap s1 !! Z.to_nat (major_of dev) = Some dp1 /\ dmap_driver dp1 <> NONE) ->
  REP_STATUS m1 = SUSPEND ->
  Z.land flags O_NONBLOCK <> 0 ->
  let cancel := cancel_mess (call_nr s) dev ioproc (c_gid c) m1 in
  let status := fun m2 => if REP_STATUS m2 =? EINTR then EAGAIN else REP_STATUS m2 in
  let revoke := fun s2 => if c_safe c then log (EvRevoke (c_gid c)) s2 else s2 in
  (* the CANCEL *)
  (m_type cancel = CANCEL /\ IO_GRANT cancel = c_gid c /\ IO_ENDPT cancel = ioproc
   /\ DEVICE cancel = minor_of dev) /\
  (* no current process *)
  (fp s = None ->
   dev_io op dev proc_e buf pos bytes flags s = Abort (Panic "SUSPEND on NULL fp") s1) /\
  (* the CANCEL goes through the I/O routine of the major *)
  (fp s <> None ->
   dev_io op dev proc_e buf pos bytes flags s
   = match call_io (dmap_io dp) (dmap_driver dp) cancel s1 with
     | Done (_, m2) s2 => Done (status m2) (revoke s2)
     | Abort w s2 => Abort w s2
     end) /\
  (* when the status is SUSPEND *)
  (EINTR <> SUSPEND -> forall m2, status m2 = SUSPEND <-> REP_STATUS m2 = SUSPEND) /\
  (* through gen_io: the CANCEL is answered *)
  (forall m2,
     fp s <> None -> dmap_io dp = gen_io_fn ->
     k_sendrec (trace s1) (dmap_driver dp) cancel = (OK, m2) ->
     dev_io op dev proc_e buf pos bytes flags s
     = Done (status m2) (revoke (log (EvSendrec (dmap_driver dp) cancel OK m2) s1))) /\
  (* through gen_io: the CANCEL is not delivered and stays as it was *)
  (fp s <> None -> dmap_io dp = gen_io_fn -> ELOCKED <> OK ->
   ELOCKED <> EDEADSRCDST -> ELOCKED <> EDSTDIED -> ELOCKED <> ESRCDIED ->
   k_sendrec (trace s1) (dmap_driver dp) cancel = (ELOCKED, cancel) ->
   dev_io op dev proc_e buf pos bytes flags s
   = Done (if ioproc =? EINTR then EAGAIN else ioproc)
       (revoke (log (EvSendrec (dmap_driver dp) cancel ELOCKED cancel) s1))).
Proof.
  intros Hdp Hbound Hok Hng Hns Hcall (dp1 & Hdp1 & Hbound1) Hsusp Hnb cancel status revoke.
  destruct (cancel_mess_fields (call_nr s) dev ioproc (c_gid c) m1)
    as (C1 & C2 & C3 & C4 & C5). fold cancel in C1, C2, C3, C4, C5.
  destruct (dev_io_call_spec KO _ _ _ _ _ _ _ _ _ _ _ _ Hcall)
    as (Hv & _ & Hg & Htab & Hdm & _).
  specialize (Hg Hng Hns). rewrite Hg in Hv. change (c_vec_grants c = 0) in Hv.
  assert (dp1 = dp) as ->.
  { apply Hdm in Hdp1; [congruence|exact Hbound1]. }
  pose proof Hbound as Hb. apply Z.eqb_neq in Hb.
  pose proof Hnb as Hnb'. apply Z.eqb_neq in Hnb'.
  (* dev_io up to the test of fp *)
  assert (Hhead : dev_io op dev proc_e buf pos bytes flags s
            = match fp s with
              | None => Abort (Panic "SUSPEND on NULL fp") s1
              | Some _ =>
                  match call_io (dmap_io dp) (dmap_driver dp) cancel s1 with
                  | Done (_, m2) s2 => Done (status m2) (revoke s2)
                  | Abort w s2 => Abort w s2
                  end
              end).
  { unfold dev_io, bind at 1.
    rewrite (dmap_at_Some s _ dp (major_of_nonneg _) Hdp), Hb.
    unfold bind at 1, isokendpt, gets. rewrite Hok, Z.eqb_refl. cbn [negb].
    unfold bind at 1. rewrite Hcall.
    unfold dev_io_reply, bind at 1.
    rewrite (dmap_at_Some s1 _ dp (major_of_nonneg _) Hdp1), Hb.
    rewrite Hsusp, Z.eqb_refl.
    replace (0 <? c_vec_grants c) with false by now rewrite Hv.
    unfold bind at 1. unfold bind at 1, gets. lazy beta iota.
    rewrite (st_fp _ _ Htab).
    destruct (fp s) as [i|]; [|reflexivity].
    rewrite Hnb'. cbn [negb].
    unfold bind at 1. rewrite (st_call_nr _ _ Htab). fold cancel.
    unfold bind at 1.
    destruct (call_io (dmap_io dp) (dmap_driver dp) cancel s1) as [[r2 m2] s2|w s2];
      [|reflexivity].
    cbn [ret]. unfold bind. rewrite cleanup_if_spec by assumption.
    subst status revoke. cbn. now destruct (REP_STATUS m2 =? EINTR). }
  split; [auto|]. split; [|split; [|split; [|split]]].
  - intros Hfp. now rewrite Hhead, Hfp.
  - intros Hfp. rewrite Hhead. destruct (fp s); [reflexivity|contradiction].
  - intros Hne m2. subst status. cbn.
    destruct (Z.eqb_spec (REP_STATUS m2) EINTR) as [Heq|]; [|tauto].
    split; [intros H; now apply eagain_suspend in H|].
    intros H. rewrite Heq in H. contradiction.
  - intros m2 Hfp Hio Hrep. rewrite Hhead.
    destruct (fp s); [|contradiction]. rewrite Hio. cbn [call_io].
    unfold gen_io, bind, sendrec. rewrite Hrep, Z.eqb_refl. cbn [negb].
    now destruct (negb (REP_ENDPT m2 =? IO_ENDPT cancel)).
  - intros Hfp Hio L0 L1 L2 L3 Hrep. rewrite Hhead.
    destruct (fp s); [|contradiction]. rewrite Hio. cbn [call_io].
    unfold gen_io, bind, sendrec. rewrite Hrep.
    apply Z.eqb_neq in L0, L1, L2, L3. rewrite L0, L1, L2, L3, Z.eqb_refl.
    cbn [negb orb ret]. subst status. cbn beta. now rewrite C5.
Qed.

(** C9, as amended.  A [dev_io] with DEV_GATHER or DEV_SCATTER for a major
    whose driver is bound and alive, at a buffer whose address is not the
    one at which the server's own vector lies, ends in a panic, and until
    then only grants were minted: no message was sent, no table was
    written. *)
Theorem dev_io_vectored_panics (KO : ConstsOk K)
    (op dev proc_e buf pos bytes flags : Z) (s : state) (dp : dmap_t) :
  op = DEV_GATHER \/ op = DEV_SCATTER ->
  buf <> IOVEC_ADDR ->
  dmap s !! Z.to_nat (major_of dev) = Some dp ->
  dmap_driver dp <> NONE ->
  k_isokendpt (fproc s) (dmap_driver dp) = OK ->
  exists msg s',
    dev_io op dev proc_e buf pos bytes flags s = Abort (Panic msg) s'
    /\ same_tables s s' /\ dmap s' = dmap s /\ grows_by is_grant s s'.
Proof.
  intros Hop Hbuf0 Hdp Hbound Hok.
  unfold dev_io, bind at 1.
  rewrite (dmap_at_Some s _ dp (major_of_nonneg _) Hdp).
  apply Z.eqb_neq in Hbound. rewrite Hbound.
  unfold bind at 1, isokendpt, gets. rewrite Hok, Z.eqb_refl. cbn [negb].
  unfold bind at 1, dev_io_call. unfold bind at 1, uninit, gets. unfold bind at 1.
  match goal with |- context [safe_io_conversion ?d ?o ?e ?b ?n ?p ?st] =>
    pose proof (safe_io_conversion_spec KO d o e b n p st) as Hspec;
    destruct (safe_io_conversion d o e b n p st) as [c sc|w sc] end.
  - destruct Hspec as ([Ht Hd Hg] & _ & Hbuf & _).
    destruct Hbuf as [(_ & _ & H1 & H2)|(Hn & _)]; [destruct Hop; contradiction|].
    rewrite Hn. cbn [vir_addr]. apply Z.eqb_neq in Hbuf0. rewrite Hbuf0.
    cbn. eauto 10.
  - destruct Hspec as ((msg & ->) & [Ht Hd Hg]). eauto 10.
Qed.

End DevIo.

(** *** dev_bio *)

Section DevBio.
Context {K : Consts} {E : Env}.

Lemma dev_bio_loop_not_suspend (KO : ConstsOk K) (fuel : nat) :
  forall (op dev proc_e buf pos bytes : Z) (m : message) (s s' : state),
    dev_bio_loop fuel op dev proc_e buf pos bytes m s <> Done SUSPEND s'.
Proof.
  induction fuel as [|fuel IH]; intros op dev proc_e buf pos bytes m s s' H;
    [discriminate|].
  cbn [dev_bio_loop] in H.
  apply bind_Done in H as (dp & s0 & _ & H).
  destruct (dmap_driver dp =? NONE).
  { cbn in H. injection H as H _. now apply enxio_suspend. }
  apply bind_Done in H as ([c m1] & s1 & _ & H).
  apply bind_Done in H as (dp1 & s2 & _ & H).
  destruct (dmap_driver dp1 =? NONE).
  { apply bind_Done in H as (m2 & s3 & _ & H). now apply IH in H. }
  destruct (Z.eqb_spec (REP_STATUS m1) SUSPEND) as [|Hne]; [discriminate|].
  apply bind_Done in H as ([] & s3 & _ & H). cbn in H. injection H as H _.
  contradiction.
Qed.

Lemma dev_bio_call_spec (KO : ConstsOk K) (dp : dmap_t)
    (op dev proc_e buf pos bytes : Z) (m : message) (s : state)
    (c : conv) (m1 : message) (s1 : state) :
  dev_bio_call dp op dev proc_e buf pos bytes m s = Done (c, m1) s1 ->
  exists tc td,
    trace s1 = trace s ++ tc ++ td ++ map EvRevoke (minted tc)
    /\ Forall is_grant tc /\ Forall is_sendrec td.
Proof.
  unfold dev_bio_call. intros H.
  apply bind_Done in H as (c' & sc & Hc & H).
  match type of Hc with safe_io_conversion ?d ?o ?e ?b ?n ?p ?st = _ =>
    pose proof (safe_io_conversion_spec KO d o e b n p st) as Hspec end.
  rewrite Hc in Hspec.
  destruct Hspec as ([_ _ (tc & Htc & Hgr)] & Hvec & _ & tc' & Htc' & _ & Hm).
  assert (tc' = tc) as -> by (rewrite Htc in Htc'; now apply app_inv_head in Htc').
  apply bind_Done in H as ([r m1'] & s2 & Hio & H).
  pose proof (post_Done _ _ _ _ _ (io_frame_call_io _ _ _) Hio) as [_ (td & Htd & Hs) _].
  apply bind_Done in H as ([] & s3 & Hcl & H). cbn in H. injection H as <- <- <-.
  exists tc, td. split; [|auto].
  rewrite Hm. destruct (c_safe c').
  - rewrite Hvec, safe_io_cleanup_spec in Hcl. injection Hcl as <-.
    rewrite trace_logs. cbn [trace log]. rewrite Htd, Htc. cbn [map].
    now rewrite <- !app_assoc.
  - cbn in Hcl. injection Hcl as <-. rewrite Htd, Htc. cbn.
    now rewrite app_nil_r, <- app_assoc.
Qed.

(** C2.  [dev_bio] panics when the caller endpoint is not the file server;
    it never returns SUSPEND; it panics when the driver, still bound after
    the call, replied SUSPEND; and every call of the task is followed by
    the revocation of exactly the grants minted for it, whatever the
    reply. *)
Theorem dev_bio_never_suspends (KO : ConstsOk K) :
  (forall fuel op dev proc_e buf pos bytes s,
      proc_e <> FS_PROC_NR ->
      dev_bio fuel op dev proc_e buf pos bytes s
      = Abort (Panic "doing dev_bio for non-self") s)
  /\ (forall fuel op dev proc_e buf pos bytes s s',
         dev_bio fuel op dev proc_e buf pos bytes s <> Done SUSPEND s')
  /\ (forall fuel op dev proc_e buf pos bytes m s dp c m1 s1 dp1,
         dmap s !! Z.to_nat (major_of dev) = Some dp ->
         dmap_driver dp <> NONE ->
         dev_bio_call dp op dev proc_e buf pos bytes m s = Done (c, m1) s1 ->
         dmap s1 !! Z.to_nat (major_of dev) = Some dp1 ->
         dmap_driver dp1 <> NONE ->
         REP_STATUS m1 = SUSPEND ->
         dev_bio_loop (S fuel) op dev proc_e buf pos bytes m s
         = Abort (Panic "dev_bio: driver returned SUSPEND") s1)
  /\ (forall dp op dev proc_e buf pos bytes m s c m1 s1,
         dev_bio_call dp op dev proc_e buf pos bytes m s = Done (c, m1) s1 ->
         exists tc td,
           trace s1 = trace s ++ tc ++ td ++ map EvRevoke (minted tc)
           /\ Forall is_grant tc /\ Forall is_sendrec td).
Proof.
  split; [|split; [|split]].
  - intros fuel op dev proc_e buf pos bytes s Hne. unfold dev_bio.
    apply Z.eqb_neq in Hne. now rewrite Hne.
  - intros fuel op dev proc_e buf pos bytes s s' H. unfold dev_bio in H.
    destruct (negb (proc_e =? FS_PROC_NR)); [discriminate|].
    apply bind_Done in H as (m & s0 & _ & H).
    now apply dev_bio_loop_not_suspend in H.
  - intros fuel op dev proc_e buf pos bytes m s dp c m1 s1 dp1
           Hdp Hb Hcall Hdp1 Hb1 Hsusp.
    cbn [dev_bio_loop]. unfold bind at 1.
    rewrite (dmap_at_Some s _ dp (major_of_nonneg _) Hdp).
    apply Z.eqb_neq in Hb. rewrite Hb. unfold bind at 1. rewrite Hcall.
    unfold bind at 1. rewrite (dmap_at_Some s1 _ dp1 (major_of_nonneg _) Hdp1).
    apply Z.eqb_neq in Hb1. rewrite Hb1, Hsusp, Z.eqb_refl. reflexivity.
  - intros. eapply dev_bio_call_spec; eauto.
Qed.

End DevBio.

(** *** The open/close routines *)

Section OpenClose.
Context {K : Consts} {E : Env}.

(** C7.  [dev_open] of a device whose major is NR_DEVICES or more looks at
    entry 0 of the dmap table; with entry 0 the absent binding (no driver,
    or the [no_dev] routine) it returns ENXIO, or the ENODEV of [no_dev],
    and the state, trace included, is unchanged: no message is sent. *)
Theorem dev_open_out_of_range (KO : ConstsOk K) (fuel : nat)
    (dev proc flags : Z) (s : state) (d0 : dmap_t) :
  NR_DEVICES <= major_of dev ->
  dmap s !! 0%nat = Some d0 ->
  dmap_driver d0 = NONE \/ dmap_opcl d0 = no_dev_fn ->
  dev_open fuel dev proc flags s
  = Done (if dmap_driver d0 =? NONE then ENXIO else ENODEV) s.
Proof.
  intros Hmaj Hd0 Habs. unfold dev_open.
  destruct (Z.leb_spec NR_DEVICES (major_of dev)); [|lia].
  unfold bind at 1. rewrite (dmap_at_Some s 0 d0); [|lia|exact Hd0].
  destruct (Z.eqb_spec (dmap_driver d0) NONE) as [|Hne]; [reflexivity|].
  destruct Habs as [|Hh]; [contradiction|].
  rewrite Hh. unfold bind, call_opcl, no_dev, ret.
  destruct (Z.eqb_spec ENODEV SUSPEND) as [Heq|]; [|reflexivity].
  now apply enodev_suspend in Heq.
Qed.

(** C8, as amended.  [ctty_opcl] sends nothing and returns ENXIO when the
    caller has no controlling terminal and OK otherwise.  [ctty_io] without
    a controlling terminal puts EIO in the reply status and sends nothing.
    With a controlling terminal it puts the terminal's minor in the message
    and, when the terminal's major has a driver that [isokendpt] accepts,
    passes the message on to the I/O routine of that major; when the
    driver is NONE or stale it returns EIO and sends nothing. *)
Theorem ctty_policy (s : state) (i : nat) (p : fproc_t) :
  fp s = Some i -> fproc s !! i = Some p ->
  (forall op dev proc_e flags,
      ctty_opcl op dev proc_e flags s
      = Done (if fp_tty p =? 0 then ENXIO else OK) s)
  /\ (forall task mess,
         fp_tty p = 0 ->
         ctty_io task mess s = Done (OK, set_REP_STATUS EIO mess) s)
  /\ (forall task mess dp,
         fp_tty p <> 0 ->
         dmap s !! Z.to_nat (major_of (fp_tty p)) = Some dp ->
         ctty_io task mess s
         = if (dmap_driver dp =? NONE)
              || negb (k_isokendpt (fproc s) (dmap_driver dp) =? OK)
           then Done (EIO, set_DEVICE (minor_of (fp_tty p)) mess) s
           else ctty_redispatch dp (fp_tty p) mess s).
Proof.
  intros Hfp Hp. pose proof (cur_fproc_Some s i p Hfp Hp) as Hcur.
  split; [|split].
  - intros. unfold ctty_opcl, bind. now rewrite Hcur.
  - intros task mess Htty. unfold ctty_io, bind. rewrite Hcur, Htty. reflexivity.
  - intros task mess dp Htty Hdp.
    pose proof (dmap_at_Some s _ dp (major_of_nonneg _) Hdp) as Hat.
    assert (Hio : forall t m, ctty_io t m s =
              if (dmap_driver dp =? NONE)
                 || negb (k_isokendpt (fproc s) (dmap_driver dp) =? OK)
              then Done (EIO, set_DEVICE (minor_of (fp_tty p)) m) s
              else (let* (_, m') :=
                      match dmap_io dp with
                      | gen_io_fn => gen_io (dmap_driver dp) (set_DEVICE (minor_of (fp_tty p)) m)
                      | no_dev_io_fn => no_dev_io (dmap_driver dp) (set_DEVICE (minor_of (fp_tty p)) m)
                      | ctty_io_fn => stop Unbounded
                      end in ret (OK, m')) s).
    { intros t m. unfold ctty_io, bind at 1. rewrite Hcur.
      destruct (Z.eqb_spec (fp_tty p) 0); [contradiction|].
      unfold bind at 1. rewrite Hat.
      destruct (dmap_driver dp =? NONE); [reflexivity|]. cbn [orb].
      unfold bind at 1, isokendpt, gets.
      destruct (k_isokendpt (fproc s) (dmap_driver dp) =? OK); reflexivity. }
    rewrite Hio.
    destruct ((dmap_driver dp =? NONE)
              || negb (k_isokendpt (fproc s) (dmap_driver dp) =? OK)) eqn:Hg;
      [reflexivity|].
    unfold ctty_redispatch, call_io.
    destruct (dmap_io dp) eqn:Hh; try reflexivity.
    unfold bind at 2. rewrite Hio. reflexivity.
Qed.

Lemma noctty_scan_spec (dev : Z) (tab : list fproc_t) (flags : Z) :
  noctty_scan dev tab flags
  = if tty_taken dev tab then Z.lor flags O_NOCTTY else flags.
Proof.
  unfold noctty_scan, tty_taken. revert flags.
  induction tab as [|rfp tab IH]; intros flags; [reflexivity|].
  cbn [fold_left existsb]. rewrite IH.
  destruct (fp_pid rfp =? PID_FREE); cbn [negb andb orb]; [reflexivity|].
  destruct (fp_tty rfp =? dev); cbn [orb]; [|reflexivity].
  rewrite <- Z.lor_assoc, Z.lor_diag. now destruct (existsb _ tab).
Qed.


End OpenClose.

(** *** clone_opcl *)

Section Clone.
Context {K : Consts} {E : Env}.

Lemma testbit_byte_high (st n : Z) : 0 <= st <= 255 -> 8 <= n -> Z.testbit st n = false.
Proof.
  intros Hst Hn. destruct (Z.eq_dec st 0) as [->|Hne]; [apply Z.testbit_0_l|].
  apply Z.bits_above_log2; [lia|].
  assert (Z.log2 st < 8); [|lia]. apply Z.log2_lt_pow2; lia.
Qed.

Lemma testbit_255 (n : Z) : 0 <= n -> Z.testbit 255 n = (n <? 8).
Proof. intros Hn. change 255 with (Z.ones 8). apply Z.testbit_ones_nonneg; lia. Qed.

Lemma testbit_65535 (n : Z) : 0 <= n -> Z.testbit 65535 n = (n <? 16).
Proof. intros Hn. change 65535 with (Z.ones 16). apply Z.testbit_ones_nonneg; lia. Qed.

(** The device number that [clone_opcl] builds from a returned minor that
    is a byte: the major of the device and the returned minor. *)
Lemma clone_dev_major_minor (dev st : Z) :
  0 <= st <= 255 ->
  let dev' := to_dev_t (Z.lor (Z.land dev (Z.lnot (Z.shiftl BYTE MINOR)))
                              (Z.shiftl st MINOR)) in
  major_of dev' = major_of dev /\ minor_of dev' = st.
Proof.
  intros Hst dev'. subst dev'. unfold major_of, minor_of, to_dev_t, MAJOR, MINOR, BYTE.
  rewrite !Z.shiftl_0_r, Z.shiftr_0_r.
  split; apply Z.bits_inj'; intros n Hn.
  - rewrite !Z.land_spec, !Z.shiftr_spec, !Z.land_spec, Z.lor_spec, Z.land_spec,
      Z.lnot_spec, !testbit_255, testbit_65535 by lia.
    destruct (Z.ltb_spec n 8); [|now rewrite !andb_false_r].
    rewrite (testbit_byte_high st (n + 8)) by lia.
    destruct (Z.ltb_spec (n + 8) 8); [lia|].
    destruct (Z.ltb_spec (n + 8) 16); [|lia].
    cbn. now rewrite orb_false_r, !andb_true_r.
  - rewrite !Z.land_spec, Z.lor_spec, Z.land_spec, Z.lnot_spec, !testbit_255,
      testbit_65535 by lia.
    destruct (Z.ltb_spec n 8).
    + destruct (Z.ltb_spec n 16); [|lia]. cbn.
      now rewrite andb_false_r, !andb_true_r.
    + rewrite andb_false_r. symmetry. apply testbit_byte_high; lia.
Qed.

Lemma free_slot_Some (l : list inode_t) (k i : nat) :
  free_slot l k = Some i ->
  (k <= i)%nat /\ exists x, l !! (i - k)%nat = Some x /\ i_count x = 0.
Proof.
  revert k. induction l as [|x l IH]; intros k H; [discriminate|].
  cbn in H. destruct (Z.eqb_spec (i_count x) 0) as [Hz|].
  - injection H as <-. split; [lia|]. rewrite Nat.sub_diag. eauto.
  - apply IH in H as (Hle & y & Hy & Hc). split; [lia|].
    exists y. split; [|exact Hc].
    replace (i - k)%nat with (S (i - S k)) by lia. exact Hy.
Qed.

(** C5, as amended.  On a [clone_opcl] open whose accepted reply carries a
    status between 0 and 255 that differs from the requested minor, a free
    inode is allocated as a character special file and bound to the device
    (same major, returned minor); the filp of the caller's descriptor gets
    this inode, the reference to its old inode is dropped, and OK is
    returned.  If the allocation fails, a DEV_CLOSE for the new minor is
    sent through the same I/O routine to the same driver, and the error of
    the allocation is returned. *)
Theorem clone_opcl_new_minor (KO : ConstsOk K) (fuel : nat)
    (dev proc_e flags : Z) (s : state) (dp : dmap_t) (m1 : message) (s1 : state) :
  dmap s !! Z.to_nat (major_of dev) = Some dp ->
  dmap_driver dp <> NONE ->
  k_isokendpt (fproc s) (dmap_driver dp) = OK ->
  let open := set_COUNT flags (set_IO_ENDPT proc_e (set_DEVICE (minor_of dev)
                (set_m_type DEV_OPEN (k_uninit (trace s))))) in
  call_io (dmap_io dp) (dmap_driver dp) open s = Done (OK, m1) s1 ->
  0 <= REP_STATUS m1 <= 255 ->
  REP_STATUS m1 <> minor_of dev ->
  let dev' := to_dev_t (Z.lor (Z.land dev (Z.lnot (Z.shiftl BYTE MINOR)))
                              (Z.shiftl (REP_STATUS m1) MINOR)) in
  let mode := Z.lor ALL_MODES I_CHAR_SPECIAL in
  major_of dev' = major_of dev /\ minor_of dev' = REP_STATUS m1
  (* the inode is allocated *)
  /\ (forall (ip i : nat) p (f : nat) fl,
         k_alloc_fail (trace s1) = None ->
         free_slot (inode s) 0 = Some ip ->
         fp s = Some i -> fproc s !! i = Some p ->
         zlookup (fp_filp p) (in_fd s) = Some (Some f) ->
         filp s !! f = Some fl ->
         (forall o : nat, filp_ino fl = Some o -> is_Some (inode s !! o)) ->
         exists s',
           clone_opcl (S fuel) DEV_OPEN dev proc_e flags s = Done OK s'
           /\ (exists x0, inode s !! ip = Some x0 /\ i_count x0 = 0)
           /\ (exists x, inode s' !! ip = Some x /\ i_zone0 x = dev' /\ i_mode x = mode)
           /\ (exists fl', filp s' !! f = Some fl' /\ filp_ino fl' = Some ip)
           /\ trace s' = trace s1 ++ match filp_ino fl with
                                     | Some o => [EvPutInode o]
                                     | None => []
                                     end)
  (* the allocation fails with error e *)
  /\ (forall e,
         k_alloc_fail (trace s1) = Some e
         \/ (k_alloc_fail (trace s1) = None /\ free_slot (inode s) 0 = None /\ e = ENFILE) ->
         dmap s1 !! Z.to_nat (major_of dev) = Some dp ->
         let close := set_COUNT 0 (set_IO_ENDPT proc_e (set_DEVICE (REP_STATUS m1)
                        (set_m_type DEV_CLOSE (k_uninit (trace s1))))) in
         clone_opcl (S (S fuel)) DEV_OPEN dev proc_e flags s
         = match call_io (dmap_io dp) (dmap_driver dp) close (set_err_code e s1) with
           | Done _ s2 => Done e s2
           | Abort w s2 => Abort w s2
           end).
Proof.
  intros Hdp Hbound Hok open Hopen Hst Hnew dev' mode.
  destruct (clone_dev_major_minor dev (REP_STATUS m1) Hst) as [Hmaj Hmin].
  fold dev' in Hmaj, Hmin.
  pose proof (post_Done _ _ _ _ _ (io_frame_call_io _ _ _) Hopen) as [Htab Htr Hdm].
  assert (Hprefix : forall n,
    clone_opcl (S n) DEV_OPEN dev proc_e flags s
    = (let* ip := alloc_inode (root_dev s1) mode in
       match ip with
       | None => clone_opcl n DEV_CLOSE dev' proc_e 0 ;; gets err_code
       | Some i =>
           let* t := gets inode in
           let* x := index t (Z.of_nat i) in
           modify (set_inode (<[i := {| i_mode := i_mode x; i_dev := i_dev x;
                                       i_count := i_count x; i_zone0 := dev' |}]> t)) ;;
           let* p := cur_fproc in
           let* fd := gets in_fd in
           let* slot := index (fp_filp p) fd in
           match slot with
           | None => stop NullDeref
           | Some f =>
               let* ft := gets filp in
               let* fl := index ft (Z.of_nat f) in
               put_inode (filp_ino fl) ;;
               modify (set_filp (<[f := {| filp_count := filp_count fl;
                                          filp_flags := filp_flags fl;
                                          filp_ino := Some i |}]> ft)) ;;
               ret OK
           end
       end) s1).
  { intros n. cbn [clone_opcl]. unfold bind at 1, uninit, gets. unfold bind at 1.
    rewrite (dmap_at_Some s _ dp (major_of_nonneg _) Hdp).
    apply Z.eqb_neq in Hbound. rewrite Hbound.
    unfold bind at 1, isokendpt, gets. rewrite Hok, Z.eqb_refl. cbn [negb].
    unfold bind at 1. fold open. rewrite Hopen.
    rewrite !Z.eqb_refl. cbn [negb andb].
    destruct (Z.leb_spec 0 (REP_STATUS m1)); [|lia].
    apply Z.eqb_neq in Hnew. rewrite Hnew. cbn [negb].
    unfold bind at 1, gets. reflexivity. }
  split; [exact Hmaj|]. split; [exact Hmin|]. split.
  - intros ip i p f fl Hnofail Hfree Hfp Hp Hfd Hfl Hold.
    rewrite Hprefix.
    destruct (free_slot_Some _ _ _ Hfree) as (_ & x0 & Hx0 & Hcount).
    rewrite Nat.sub_0_r in Hx0.
    assert (Hlen : (ip < length (inode s))%nat) by (eapply lookup_lt_Some; eauto).
    set (new := {| i_mode := mode; i_dev := root_dev s1; i_count := 1; i_zone0 := 0 |}).
    set (new' := {| i_mode := mode; i_dev := root_dev s1; i_count := 1; i_zone0 := dev' |}).
    set (s2 := set_inode (<[ip := new]> (inode s)) s1).
    set (s3 := set_inode (<[ip := new']> (<[ip := new]> (inode s))) s2).
    erewrite bind_run.
    2:{ unfold alloc_inode. rewrite Hnofail, (st_inode _ _ Htab), Hfree. reflexivity. }
    fold new. fold s2. lazy beta iota.
    erewrite bind_run by reflexivity.
    erewrite bind_run.
    2:{ apply index_Some. rewrite zlookup_of_nat. cbn.
        apply list_lookup_insert_eq. exact Hlen. }
    erewrite bind_run by reflexivity.
    cbn [i_mode i_dev i_count new]. fold new'. change (set_inode _ s2) with s3.
    erewrite bind_run.
    2:{ apply (cur_fproc_Some s3 i p); cbn.
        - now rewrite (st_fp _ _ Htab).
        - now rewrite (st_fproc _ _ Htab). }
    erewrite bind_run by reflexivity.
    erewrite bind_run.
    2:{ apply index_Some. cbn. rewrite (st_in_fd _ _ Htab). exact Hfd. }
    lazy beta iota.
    erewrite bind_run by reflexivity.
    erewrite bind_run.
    2:{ apply index_Some. cbn. rewrite (st_filp _ _ Htab), zlookup_of_nat. exact Hfl. }
    assert (Hput : exists s4,
               put_inode (filp_ino fl) s3 = Done tt s4
               /\ filp s4 = filp s
               /\ trace s4 = trace s1 ++ match filp_ino fl with
                                         | Some o => [EvPutInode o]
                                         | None => []
                                         end
               /\ exists x, inode s4 !! ip = Some x /\ i_zone0 x = dev' /\ i_mode x = mode).
    { assert (Hip : inode s3 !! ip = Some new').
      { cbn. apply list_lookup_insert_eq. now rewrite length_insert. }
      destruct (filp_ino fl) as [o|] eqn:Hino.
      - destruct (Hold o eq_refl) as [xo Hxo].
        assert (Hlo : (o < length (inode s3))%nat).
        { cbn. rewrite !length_insert. eapply lookup_lt_Some; eauto. }
        destruct (lookup_lt_is_Some_2 _ _ Hlo) as [y Hy].
        eexists. split; [|split; [|split]].
        + unfold put_inode. erewrite bind_run by reflexivity.
          erewrite bind_run by (apply index_Some; rewrite zlookup_of_nat; exact Hy).
          reflexivity.
        + cbn. apply (st_filp _ _ Htab).
        + reflexivity.
        + cbn [inode log set_inode].
          destruct (decide (o = ip)) as [->|Hne].
          * rewrite list_lookup_insert_eq by exact Hlo.
            rewrite Hip in Hy. injection Hy as <-. eexists. split; [reflexivity|]. auto.
          * rewrite list_lookup_insert_ne by exact Hne. eauto.
      - exists s3. split; [reflexivity|]. split; [apply (st_filp _ _ Htab)|].
        split; [cbn; now rewrite app_nil_r|eauto]. }
    destruct Hput as (s4 & Hrun & Hfilp4 & Htr4 & Hino4).
    erewrite bind_run by exact Hrun.
    erewrite bind_run by reflexivity.
    eexists. split; [reflexivity|]. split; [eauto|]. split; [exact Hino4|].
    split; [|exact Htr4].
    cbn. eexists.
    split; [rewrite (st_filp _ _ Htab); apply list_lookup_insert_eq; eapply lookup_lt_Some; eauto
           |reflexivity].
  - intros e Hfail Hdp1 close.
    rewrite Hprefix.
    erewrite bind_run.
    2:{ unfold alloc_inode. rewrite (st_inode _ _ Htab).
        destruct Hfail as [->|(-> & -> & ->)]; reflexivity. }
    lazy beta iota.
    set (s2 := set_err_code e s1).
    assert (Hclose : clone_opcl (S fuel) DEV_CLOSE dev' proc_e 0 s2
                     = match call_io (dmap_io dp) (dmap_driver dp) close s2 with
                       | Done (r, m2) s3 =>
                           Done (if negb (r =? OK) then r else REP_STATUS m2) s3
                       | Abort w s3 => Abort w s3
                       end).
    { cbn [clone_opcl]. unfold bind at 1, uninit, gets. unfold bind at 1.
      rewrite Hmaj, Hmin.
      rewrite (dmap_at_Some s2 _ dp (major_of_nonneg _)) by exact Hdp1.
      apply Z.eqb_neq in Hbound. rewrite Hbound.
      unfold bind at 1, isokendpt, gets. cbn [fproc s2 set_err_code].
      rewrite (st_fproc _ _ Htab), Hok, Z.eqb_refl. cbn [negb].
      unfold bind at 1. cbn [trace s2 set_err_code]. fold close.
      destruct (call_io (dmap_io dp) (dmap_driver dp) close s2) as [[r m2] s3|w s3];
        [|reflexivity].
      destruct (negb (r =? OK)); [reflexivity|].
      destruct (Z.eqb_spec DEV_CLOSE DEV_OPEN) as [Heq|]; [|reflexivity].
      symmetry in Heq. now apply open_close in Heq. }
    unfold bind at 1. rewrite Hclose.
    pose proof (io_frame_call_io (dmap_io dp) (dmap_driver dp) close s2) as Hfr.
    destruct (call_io (dmap_io dp) (dmap_driver dp) close s2) as [[r m2] s3|w s3];
      [|reflexivity].
    destruct Hfr as [Htab3 _ _]. cbn [final] in Htab3.
    lazy beta iota. unfold gets. now rewrite (st_err_code _ _ Htab3).
Qed.

End Clone.

(** *** dev_status *)

Section Status.
Context {K : Consts} {E : Env}.

Lemma find_driver_none (src : Z) (s : state) (n : nat) (d : Z) :
  0 <= d ->
  (Z.to_nat d + n <= length (dmap s))%nat ->
  (forall (i : nat) dp, dmap s !! i = Some dp ->
                        dmap_driver dp = NONE \/ dmap_driver dp <> src) ->
  find_driver n d src s = Done (d + Z.of_nat n) s.
Proof.
  intros Hd Hlen Hno. revert d Hd Hlen.
  induction n as [|n IH]; intros d Hd Hlen.
  - cbn. unfold ret. f_equal. lia.
  - cbn [find_driver]. unfold bind at 1.
    destruct (lookup_lt_is_Some_2 (dmap s) (Z.to_nat d)) as [dp Hdp]; [lia|].
    rewrite (dmap_at_Some s d dp Hd Hdp).
    assert (Hb : negb (dmap_driver dp =? NONE) && (dmap_driver dp =? src) = false).
    { destruct (Hno _ _ Hdp) as [H|H].
      - apply Z.eqb_eq in H. now rewrite H.
      - apply Z.eqb_neq in H. rewrite H. apply andb_false_r. }
    rewrite Hb, IH; [f_equal|..]; lia.
Qed.

(** C10.  When the source of the message is not the driver of any entry of
    the dmap table, [dev_status] returns at once and the state, trace
    included, is unchanged: no DEV_STATUS request, no revive. *)
Theorem dev_status_stranger (fuel : nat) (m : message) (s : state) :
  Z.of_nat (length (dmap s)) = NR_DEVICES ->
  (forall (i : nat) dp, dmap s !! i = Some dp ->
                        dmap_driver dp = NONE \/ dmap_driver dp <> m_source m) ->
  dev_status fuel m s = Done tt s.
Proof.
  intros Hlen Hno. unfold dev_status, bind.
  rewrite (find_driver_none (m_source m) s); [|lia|lia|exact Hno].
  rewrite Z2Nat.id by lia. rewrite Z.add_0_l.
  destruct (Z.leb_spec NR_DEVICES NR_DEVICES); [reflexivity|lia].
Qed.

End Status.

(** *** Transfers through [dev_io] *)

Section Transfers.
Context {K : Consts} {E : Env}.

Lemma gen_io_ok (task : Z) (m : message) (s : state) (rep : message) :
  k_sendrec (trace s) task m = (OK, rep) ->
  exists r, gen_io task m s = Done (r, rep) (log (EvSendrec task m OK rep) s).
Proof.
  intros H. unfold gen_io, bind, sendrec. rewrite H. rewrite Z.eqb_refl. cbn [negb].
  destruct (negb (REP_ENDPT rep =? IO_ENDPT m)); eauto.
Qed.

Lemma gen_io_dead (task : Z) (m : message) (s : state) (r : Z) (rep : message) :
  k_sendrec (trace s) task m = (r, rep) -> r <> OK ->
  r = EDEADSRCDST \/ r = EDSTDIED \/ r = ESRCDIED ->
  gen_io task m s
  = Done (r, rep) (set_dmap (unmapped task (dmap s)) (log (EvSendrec task m r rep) s)).
Proof.
  intros H Hne Hd. unfold gen_io, bind, sendrec. rewrite H.
  apply Z.eqb_neq in Hne. rewrite Hne. cbn [negb].
  replace ((r =? EDEADSRCDST) || (r =? EDSTDIED) || (r =? ESRCDIED)) with true.
  - reflexivity.
  - symmetry. destruct Hd as [->|[->| ->]]; rewrite Z.eqb_refl;
      rewrite ?orb_true_r; reflexivity.
Qed.


Lemma bufptr_eqb_refl (b : bufptr) : bufptr_eqb b b = true.
Proof. destruct b; cbn; [apply Z.eqb_refl|reflexivity]. Qed.

(** The conversion of a read or a write that gets a grant. *)
Lemma conv_rw_run (KO : ConstsOk K) (driver op io_ept : Z) (buf : bufptr)
    (bytes pos : Z) (s : state) :
  op = DEV_READ \/ op = DEV_WRITE ->
  let access := if op =? DEV_READ then CPF_WRITE else CPF_READ in
  let op_s := if op =? DEV_READ then DEV_READ_S else DEV_WRITE_S in
  let g := k_grant_magic (trace s) driver io_ept buf bytes access in
  0 <= g ->
  safe_io_conversion driver op io_ept buf bytes pos s
  = Done {| c_safe := true; c_gid := g; c_op := op_s; c_gids := [];
            c_io_ept := FS_PROC_NR; c_buf := buf; c_vec_grants := 0;
            c_pos := pos |}
         (log (EvGrantMagic driver io_ept buf bytes access g) s).
Proof.
  intros Hop access op_s g Hg.
  assert (Hacc : (if op_s =? DEV_READ_S then CPF_WRITE else CPF_READ) = access).
  { subst op_s access. destruct (Z.eqb_spec op DEV_READ) as [|Hne].
    - now rewrite Z.eqb_refl.
    - destruct (Z.eqb_spec DEV_WRITE_S DEV_READ_S) as [Heq|]; [|reflexivity].
      symmetry in Heq. now apply read_s_write_s in Heq. }
  unfold safe_io_conversion.
  assert (Hsel : (op =? DEV_READ) || (op =? DEV_WRITE) = true).
  { destruct Hop as [-> | ->]; rewrite Z.eqb_refl; [reflexivity|apply orb_true_r]. }
  rewrite Hsel. fold op_s. rewrite Hacc.
  unfold bind, cpf_grant_magic. fold g.
  destruct (Z.ltb_spec g 0) as [|_]; [lia|].
  unfold ret, conv_result. now rewrite grant_valid_nonneg.
Qed.

(** The conversion of an ioctl that gets a grant. *)
Lemma conv_ioctl_run (KO : ConstsOk K) (driver io_ept : Z) (buf : bufptr)
    (bytes pos : Z) (s : state) :
  DEV_IOCTL <> DEV_READ -> DEV_IOCTL <> DEV_WRITE ->
  DEV_IOCTL <> DEV_GATHER -> DEV_IOCTL <> DEV_SCATTER ->
  let req := in_REQUEST s in
  let access := Z.lor (if IOCTL_IOR req then CPF_WRITE else 0)
                      (if IOCTL_IOW req then CPF_READ else 0) in
  let size := if IOCTL_BIG req then IOCTL_SIZE_BIG req else IOCTL_SIZE req in
  let g := k_grant_magic (trace s) driver io_ept buf size access in
  0 <= g ->
  safe_io_conversion driver DEV_IOCTL io_ept buf bytes pos s
  = Done {| c_safe := true; c_gid := g; c_op := DEV_IOCTL_S; c_gids := [];
            c_io_ept := FS_PROC_NR; c_buf := buf; c_vec_grants := 0;
            c_pos := io_ept |}
         (log (EvGrantMagic driver io_ept buf size access g) s).
Proof.
  intros H1 H2 H3 H4 req access size g Hg.
  unfold safe_io_conversion.
  apply Z.eqb_neq in H1, H2, H3, H4. rewrite H1, H2, H3, H4, Z.eqb_refl. cbn [orb].
  unfold bind at 1, gets. fold req.
  assert (Hacc : (if IOCTL_IOW req
                  then Z.lor (if IOCTL_IOR req then Z.lor 0 CPF_WRITE else 0) CPF_READ
                  else if IOCTL_IOR req then Z.lor 0 CPF_WRITE else 0) = access).
  { subst access. destruct (IOCTL_IOR req), (IOCTL_IOW req);
      rewrite ?Z.lor_0_l, ?Z.lor_0_r; reflexivity. }
  rewrite Hacc. fold size.
  unfold bind, cpf_grant_magic. fold g.
  destruct (Z.ltb_spec g 0) as [|_]; [lia|].
  unfold ret, conv_result. now rewrite grant_valid_nonneg.
Qed.

(** [dev_io] up to the return of a generic task that took the request. *)
Lemma dev_io_call_gen (dp : dmap_t) (op dev proc_e buf pos bytes : Z)
    (s : state) (c : conv) (s1 : state) (rep : message) :
  safe_io_conversion (dmap_driver dp) op proc_e (Caller buf) (to_vir_bytes bytes) pos s
    = Done c s1 ->
  c_buf c = Caller buf -> c_safe c = true -> c_io_ept c = FS_PROC_NR ->
  dmap_io dp = gen_io_fn ->
  let req := safe_request (k_uninit (trace s)) (c_op c) dev proc_e buf (c_pos c) bytes
               (c_gid c) in
  k_sendrec (trace s1) (dmap_driver dp) req = (OK, rep) ->
  dev_io_call dp op dev proc_e buf pos bytes s
  = Done (c, FS_PROC_NR, rep) (log (EvSendrec (dmap_driver dp) req OK rep) s1).
Proof.
  intros Hc Hbuf Hsafe Hept Hio req Hrep.
  unfold dev_io_call. unfold bind at 1, uninit, gets.
  cbn [IO_ENDPT set_ADDRESS set_IO_ENDPT].
  erewrite bind_run by exact Hc.
  rewrite Hbuf. cbn [vir_addr]. rewrite Z.eqb_refl, Hsafe, Hept, Hio. cbn [negb call_io].
  destruct (gen_io_ok (dmap_driver dp) req s1 rep Hrep) as (r & Hr).
  unfold req, safe_request in Hr.
  erewrite bind_run by exact Hr. reflexivity.
Qed.

(** [dev_io] after a generic task died in the call. *)
Lemma dev_io_call_dead (dp : dmap_t) (op dev proc_e buf pos bytes : Z)
    (s : state) (c : conv) (s1 : state) (r : Z) (rep : message) :
  safe_io_conversion (dmap_driver dp) op proc_e (Caller buf) (to_vir_bytes bytes) pos s
    = Done c s1 ->
  c_buf c = Caller buf -> c_safe c = true -> c_io_ept c = FS_PROC_NR ->
  dmap_io dp = gen_io_fn ->
  let req := safe_request (k_uninit (trace s)) (c_op c) dev proc_e buf (c_pos c) bytes
               (c_gid c) in
  k_sendrec (trace s1) (dmap_driver dp) req = (r, rep) -> r <> OK ->
  r = EDEADSRCDST \/ r = EDSTDIED \/ r = ESRCDIED ->
  dev_io_call dp op dev proc_e buf pos bytes s
  = Done (c, FS_PROC_NR, rep)
      (set_dmap (unmapped (dmap_driver dp) (dmap s1))
         (log (EvSendrec (dmap_driver dp) req r rep) s1)).
Proof.
  intros Hc Hbuf Hsafe Hept Hio req Hrep Hne Hd.
  unfold dev_io_call. unfold bind at 1, uninit, gets.
  cbn [IO_ENDPT set_ADDRESS set_IO_ENDPT].
  erewrite bind_run by exact Hc.
  rewrite Hbuf. cbn [vir_addr]. rewrite Z.eqb_refl, Hsafe, Hept, Hio. cbn [negb call_io].
  pose proof (gen_io_dead (dmap_driver dp) req s1 r rep Hrep Hne Hd) as Hr.
  unfold req, safe_request in Hr.
  erewrite bind_run by exact Hr. reflexivity.
Qed.

(** [dev_io] enters the call when the major has a live driver. *)
Lemma dev_io_enter (op dev proc_e buf pos bytes flags : Z) (s : state) (dp : dmap_t) :
  dmap s !! Z.to_nat (major_of dev) = Some dp ->
  dmap_driver dp <> NONE -> k_isokendpt (fproc s) (dmap_driver dp) = OK ->
  dev_io op dev proc_e buf pos bytes flags s
  = (let* (c, ioproc, dev_mess) := dev_io_call dp op dev proc_e buf pos bytes in
     dev_io_reply dev flags c ioproc dev_mess) s.
Proof.
  intros Hdp Hb Hok. unfold dev_io.
  erewrite bind_run by (apply dmap_at_Some; [apply major_of_nonneg|exact Hdp]).
  apply Z.eqb_neq in Hb. rewrite Hb.
  unfold bind at 1, isokendpt, gets. rewrite Hok, Z.eqb_refl. reflexivity.
Qed.

(** The end of [dev_io] when the task answered for good. *)
Lemma dev_io_reply_plain (dev flags : Z) (c : conv) (ioproc : Z) (m1 : message)
    (s1 : state) (dp1 : dmap_t) :
  dmap s1 !! Z.to_nat (major_of dev) = Some dp1 -> dmap_driver dp1 <> NONE ->
  REP_STATUS m1 <> SUSPEND ->
  c_safe c = true -> c_gids c = [] -> c_vec_grants c = 0 ->
  dev_io_reply dev flags c ioproc m1 s1
  = Done (REP_STATUS m1) (log (EvRevoke (c_gid c)) s1).
Proof.
  intros Hdp Hb Hst Hsafe Hg Hv. unfold dev_io_reply.
  erewrite bind_run by (apply dmap_at_Some; [apply major_of_nonneg|exact Hdp]).
  apply Z.eqb_neq in Hb, Hst. rewrite Hb, Hst.
  unfold bind at 1, ret. unfold bind.
  rewrite cleanup_if_spec by assumption. now rewrite Hsafe.
Qed.

(** The end of [dev_io] when the binding of the major is gone. *)
Lemma dev_io_reply_vanished (dev flags : Z) (c : conv) (ioproc : Z) (m1 : message)
    (s1 : state) (dp1 : dmap_t) :
  dmap s1 !! Z.to_nat (major_of dev) = Some dp1 -> dmap_driver dp1 = NONE ->
  c_safe c = true -> c_gids c = [] -> c_vec_grants c = 0 ->
  dev_io_reply dev flags c ioproc m1 s1 = Done EIO (log (EvRevoke (c_gid c)) s1).
Proof.
  intros Hdp Hb Hsafe Hg Hv. unfold dev_io_reply.
  erewrite bind_run by (apply dmap_at_Some; [apply major_of_nonneg|exact Hdp]).
  rewrite Hb, Z.eqb_refl. unfold bind.
  rewrite cleanup_if_spec by assumption. now rewrite Hsafe.
Qed.

(** The end of [dev_io] when the caller has to wait for the task. *)
Lemma dev_io_reply_blocked (dev flags : Z) (c : conv) (ioproc : Z) (m1 : message)
    (s1 : state) (dp1 : dmap_t) (i : nat) (p : fproc_t) :
  dmap s1 !! Z.to_nat (major_of dev) = Some dp1 -> dmap_driver dp1 <> NONE ->
  REP_STATUS m1 = SUSPEND -> c_vec_grants c = 0 ->
  fp s1 = Some i -> fproc s1 !! i = Some p ->
  Z.land flags O_NONBLOCK = 0 ->
  let p' := set_fp_ioproc ioproc (set_fp_grant (c_gid c)
              (set_fp_suspended SUSPENDED (- dmap_driver dp1) p)) in
  dev_io_reply dev flags c ioproc m1 s1
  = if GRANT_VALID (fp_grant p)
    then Abort (AssertFail "!GRANT_VALID(fp->fp_grant)")
           (set_fproc (<[i := set_fp_suspended SUSPENDED (- dmap_driver dp1) p]> (fproc s1))
              (log (EvSuspend (dmap_driver dp1)) s1))
    else Done SUSPEND
           (set_fproc (<[i := p']> (fproc s1)) (log (EvSuspend (dmap_driver dp1)) s1)).
Proof.
  intros Hdp Hb Hst Hv Hfp Hp Hfl p'. unfold dev_io_reply.
  erewrite bind_run by (apply dmap_at_Some; [apply major_of_nonneg|exact Hdp]).
  apply Z.eqb_neq in Hb. rewrite Hb, Hst, Z.eqb_refl, Hv. cbn [Z.ltb Z.compare].
  unfold bind at 1. unfold bind at 1, gets. rewrite Hfp, Hfl. cbn [Z.eqb negb].
  assert (Hlt : (i < length (fproc s1))%nat) by (eapply lookup_lt_Some; eauto).
  set (s2 := log (EvSuspend (dmap_driver dp1)) s1).
  set (p2 := set_fp_suspended SUSPENDED (- dmap_driver dp1) p).
  assert (Hsus : suspend (dmap_driver dp1) s1
                 = Done tt (set_fproc (<[i := p2]> (fproc s1)) s2)).
  { unfold suspend. unfold bind at 1, modify. fold s2.
    now rewrite (update_cur_fproc_Some _ s2 i p). }
  erewrite bind_run by exact Hsus.
  erewrite bind_run.
  2:{ apply (cur_fproc_Some _ i p2); [exact Hfp|].
      cbn. now apply list_lookup_insert_eq. }
  change (fp_grant p2) with (fp_grant p).
  destruct (GRANT_VALID (fp_grant p)); [reflexivity|].
  erewrite bind_run.
  2:{ apply (update_cur_fproc_Some _ _ i p2); [exact Hfp|].
      cbn. now apply list_lookup_insert_eq. }
  erewrite bind_run.
  2:{ apply (update_cur_fproc_Some _ _ i (set_fp_grant (c_gid c) p2)); [exact Hfp|].
      cbn. apply list_lookup_insert_eq. now rewrite length_insert. }
  cbn. unfold ret. f_equal.
  unfold set_fproc. cbn. f_equal.
  now rewrite !list_insert_insert_eq.
Qed.


Lemma unmapped_lookup (e : Z) (t : list dmap_t) (i : nat) (d : dmap_t) :
  t !! i = Some d ->
  unmapped e t !! i
  = Some (if dmap_driver d =? e
          then {| dmap_opcl := no_dev_fn; dmap_io := no_dev_io_fn; dmap_driver := NONE |}
          else d).
Proof. intros H. unfold unmapped. now rewrite list_lookup_fmap, H. Qed.

Lemma unmapped_clears (e : Z) (t : list dmap_t) (i : nat) (d : dmap_t) :
  e <> NONE -> unmapped e t !! i = Some d -> dmap_driver d <> e.
Proof.
  intros He H. unfold unmapped in H. rewrite list_lookup_fmap in H.
  destruct (t !! i) as [d0|]; [|discriminate]. cbn in H.
  destruct (Z.eqb_spec (dmap_driver d0) e) as [|Hne]; injection H as <-; cbn; congruence.
Qed.

Lemma find_insert_first {A} (f : A -> bool) (l : list A) (i : nat) (x y : A) :
  l !! i = Some x -> f y = true ->
  (forall (j : nat) q, (j < i)%nat -> l !! j = Some q -> f q = false) ->
  find f (<[i := y]> l) = Some y.
Proof.
  revert i. induction l as [|a l IH]; intros i Hi Hy Hlow; [discriminate|].
  destruct i as [|i]; cbn.
  - now rewrite Hy.
  - rewrite (Hlow 0%nat a) by (lia || reflexivity).
    apply IH; [exact Hi|exact Hy|].
    intros j q Hj Hq. apply (Hlow (S j) q); [lia|exact Hq].
Qed.

(** X1.  A read or a write on a device of a generic driver that is bound
    and alive, answered for good (the reply status is not SUSPEND): one
    grant is minted, over the caller's buffer, one request is sent, which
    carries the grant, FS_PROC_NR as the endpoint, the safe operation, the
    minor device, the position and the count; the grant is revoked, and
    [dev_io] returns the status of the reply.  Nothing else of the state
    changes.  The process that the reply names plays no part. *)
Theorem dev_io_transfer (KO : ConstsOk K)
    (op dev proc_e buf pos bytes flags : Z) (s : state) (dp : dmap_t) (rep : message) :
  op = DEV_READ \/ op = DEV_WRITE ->
  dmap s !! Z.to_nat (major_of dev) = Some dp ->
  dmap_driver dp <> NONE -> k_isokendpt (fproc s) (dmap_driver dp) = OK ->
  dmap_io dp = gen_io_fn ->
  let access := if op =? DEV_READ then CPF_WRITE else CPF_READ in
  let op_s := if op =? DEV_READ then DEV_READ_S else DEV_WRITE_S in
  let g := k_grant_magic (trace s) (dmap_driver dp) proc_e (Caller buf)
             (to_vir_bytes bytes) access in
  let s1 := log (EvGrantMagic (dmap_driver dp) proc_e (Caller buf)
                   (to_vir_bytes bytes) access g) s in
  let req := safe_request (k_uninit (trace s)) op_s dev proc_e buf pos bytes g in
  0 <= g ->
  k_sendrec (trace s1) (dmap_driver dp) req = (OK, rep) ->
  REP_STATUS rep <> SUSPEND ->
  dev_io op dev proc_e buf pos bytes flags s
  = Done (REP_STATUS rep)
      (log (EvRevoke g) (log (EvSendrec (dmap_driver dp) req OK rep) s1)).
Proof.
  intros Hop Hdp Hb Hok Hio access op_s g s1 req Hg Hrep Hst.
  rewrite (dev_io_enter _ _ _ _ _ _ _ _ dp Hdp Hb Hok).
  pose proof (conv_rw_run KO (dmap_driver dp) op proc_e (Caller buf)
                (to_vir_bytes bytes) pos s Hop Hg) as Hc.
  erewrite bind_run.
  2:{ eapply dev_io_call_gen; [exact Hc|reflexivity|reflexivity|reflexivity|exact Hio|].
      exact Hrep. }
  lazy beta iota.
  erewrite dev_io_reply_plain; [reflexivity|exact Hdp|exact Hb|exact Hst| | |]; reflexivity.
Qed.

(** X2.  The driver dies in the call: when the request of a read or a
    write fails with EDEADSRCDST, EDSTDIED or ESRCDIED, every binding of
    the driver is cleared, the grant is revoked and [dev_io] returns EIO. *)
Theorem dev_io_driver_died (KO : ConstsOk K)
    (op dev proc_e buf pos bytes flags : Z) (s : state) (dp : dmap_t)
    (r : Z) (rep : message) :
  op = DEV_READ \/ op = DEV_WRITE ->
  dmap s !! Z.to_nat (major_of dev) = Some dp ->
  dmap_driver dp <> NONE -> k_isokendpt (fproc s) (dmap_driver dp) = OK ->
  dmap_io dp = gen_io_fn ->
  let access := if op =? DEV_READ then CPF_WRITE else CPF_READ in
  let op_s := if op =? DEV_READ then DEV_READ_S else DEV_WRITE_S in
  let g := k_grant_magic (trace s) (dmap_driver dp) proc_e (Caller buf)
             (to_vir_bytes bytes) access in
  let s1 := log (EvGrantMagic (dmap_driver dp) proc_e (Caller buf)
                   (to_vir_bytes bytes) access g) s in
  let req := safe_request (k_uninit (trace s)) op_s dev proc_e buf pos bytes g in
  0 <= g ->
  k_sendrec (trace s1) (dmap_driver dp) req = (r, rep) ->
  r <> OK -> r = EDEADSRCDST \/ r = EDSTDIED \/ r = ESRCDIED ->
  let s' := log (EvRevoke g)
              (set_dmap (unmapped (dmap_driver dp) (dmap s))
                 (log (EvSendrec (dmap_driver dp) req r rep) s1)) in
  dev_io op dev proc_e buf pos bytes flags s = Done EIO s'
  /\ forall (i : nat) d, dmap s' !! i = Some d -> dmap_driver d <> dmap_driver dp.
Proof.
  intros Hop Hdp Hb Hok Hio access op_s g s1 req Hg Hrep Hne Hdead s'.
  split; [|intros i d; apply unmapped_clears; exact Hb].
  rewrite (dev_io_enter _ _ _ _ _ _ _ _ dp Hdp Hb Hok).
  pose proof (conv_rw_run KO (dmap_driver dp) op proc_e (Caller buf)
                (to_vir_bytes bytes) pos s Hop Hg) as Hc.
  erewrite bind_run.
  2:{ eapply dev_io_call_dead; [exact Hc|reflexivity|reflexivity|reflexivity|exact Hio| | |].
      - exact Hrep.
      - exact Hne.
      - exact Hdead. }
  lazy beta iota.
  erewrite dev_io_reply_vanished; [reflexivity| | | | |]; try reflexivity.
  - cbn [dmap set_dmap log]. rewrite (unmapped_lookup _ _ _ dp) by exact Hdp.
    rewrite Z.eqb_refl. reflexivity.
  - reflexivity.
Qed.

(** X3.  The caller has to wait: when the driver answers a read or a write
    with SUSPEND and the caller did not pass O_NONBLOCK, [dev_io] returns
    SUSPEND, revokes nothing, and the record of the current process says
    that it is suspended on the driver and holds the grant.  From that
    state [suspended_ep] finds the caller again by driver and grant, if the
    caller is a live process and no process before it in the table waits
    on the same driver with the same grant. *)
Theorem dev_io_suspends_caller (KO : ConstsOk K)
    (op dev proc_e buf pos bytes flags : Z) (s : state) (dp : dmap_t)
    (i : nat) (p : fproc_t) (rep : message) :
  op = DEV_READ \/ op = DEV_WRITE ->
  dmap s !! Z.to_nat (major_of dev) = Some dp ->
  dmap_driver dp <> NONE -> k_isokendpt (fproc s) (dmap_driver dp) = OK ->
  dmap_io dp = gen_io_fn ->
  fp s = Some i -> fproc s !! i = Some p -> GRANT_VALID (fp_grant p) = false ->
  Z.land flags O_NONBLOCK = 0 ->
  let access := if op =? DEV_READ then CPF_WRITE else CPF_READ in
  let op_s := if op =? DEV_READ then DEV_READ_S else DEV_WRITE_S in
  let g := k_grant_magic (trace s) (dmap_driver dp) proc_e (Caller buf)
             (to_vir_bytes bytes) access in
  let s1 := log (EvGrantMagic (dmap_driver dp) proc_e (Caller buf)
                   (to_vir_bytes bytes) access g) s in
  let req := safe_request (k_uninit (trace s)) op_s dev proc_e buf pos bytes g in
  0 <= g ->
  k_sendrec (trace s1) (dmap_driver dp) req = (OK, rep) ->
  REP_STATUS rep = SUSPEND ->
  let p' := set_fp_ioproc FS_PROC_NR (set_fp_grant g
              (set_fp_suspended SUSPENDED (- dmap_driver dp) p)) in
  let s' := set_fproc (<[i := p']> (fproc s))
              (log (EvSuspend (dmap_driver dp))
                 (log (EvSendrec (dmap_driver dp) req OK rep) s1)) in
  dev_io op dev proc_e buf pos bytes flags s = Done SUSPEND s'
  /\ (fp_pid p <> PID_FREE ->
      (forall (j : nat) q, (j < i)%nat -> fproc s !! j = Some q ->
                           waits_on (dmap_driver dp) g q = false) ->
      suspended_ep (dmap_driver dp) g s' = Done (fp_endpoint p) s').
Proof.
  intros Hop Hdp Hb Hok Hio Hfp Hp Hgv Hfl access op_s g s1 req Hg Hrep Hst p' s'.
  split.
  - rewrite (dev_io_enter _ _ _ _ _ _ _ _ dp Hdp Hb Hok).
    pose proof (conv_rw_run KO (dmap_driver dp) op proc_e (Caller buf)
                  (to_vir_bytes bytes) pos s Hop Hg) as Hc.
    erewrite bind_run.
    2:{ eapply dev_io_call_gen; [exact Hc|reflexivity|reflexivity|reflexivity|exact Hio|].
        exact Hrep. }
    lazy beta iota.
    erewrite (dev_io_reply_blocked _ _ _ _ _ _ dp i p); try eassumption; try reflexivity.
    now rewrite Hgv.
  - intros Hlive Hlow. unfold suspended_ep, bind, gets.
    change (find _ (fproc s')) with (find (waits_on (dmap_driver dp) g) (<[i := p']> (fproc s))).
    rewrite (find_insert_first _ _ i p p' Hp); [reflexivity| |exact Hlow].
    unfold waits_on, p'. cbn.
    apply Z.eqb_neq in Hlive. rewrite Hlive, !Z.eqb_refl. reflexivity.
Qed.

End Transfers.

(** *** Requests go to bound drivers *)

Section Bound.
Context {K : Consts} {E : Env}.

Lemma bound_update (f : fproc_t -> fproc_t) : post (grows_by to_bound) (update_cur_fproc f).
Proof.
  intros s. apply grows_by_same. unfold update_cur_fproc, bind, gets.
  destruct (fp s) as [i|]; [|reflexivity].
  destruct (index (fproc s) (Z.of_nat i) s) as [p s1|w s1] eqn:Hi.
  - apply index_Done in Hi as [_ ->]. reflexivity.
  - pose proof (final_index (fproc s) (Z.of_nat i) s) as Hf. rewrite Hi in Hf.
    cbn in *. now subst.
Qed.

Lemma bound_put_inode rip : post (grows_by to_bound) (put_inode rip).
Proof.
  intros s. destruct rip as [i|]; [|apply grows_by_refl].
  unfold put_inode, bind, gets.
  destruct (index (inode s) (Z.of_nat i) s) as [x s1|w s1] eqn:Hi.
  - apply index_Done in Hi as [_ ->]. exists [EvPutInode i].
    split; [reflexivity|]. now repeat constructor.
  - pose proof (final_index (inode s) (Z.of_nat i) s) as Hf. rewrite Hi in Hf.
    cbn in *. subst. apply grows_by_refl.
Qed.

Lemma bound_alloc_inode dev bits : post (grows_by to_bound) (alloc_inode dev bits).
Proof.
  intros s. apply grows_by_same. unfold alloc_inode.
  destruct (k_alloc_fail (trace s)); [reflexivity|].
  destruct (free_slot (inode s) 0); reflexivity.
Qed.

Lemma bound_sendrec dst m : dst <> NONE -> post (grows_by to_bound) (sendrec dst m).
Proof.
  intros H s. unfold sendrec. destruct (k_sendrec (trace s) dst m) as [r rep]. cbn.
  now apply grows_by_log.
Qed.

Ltac bound_step :=
  match goal with
  | |- post _ (bind _ _) => apply post_bind; [exact (grows_by_trans to_bound)| |intros ?]
  | |- post _ (if ?a =? NONE then _ else _) => destruct (Z.eqb_spec a NONE)
  | |- post _ (if ?b then _ else _) => destruct b
  | |- post _ (sendrec _ _) => apply bound_sendrec; assumption
  | |- post _ (update_cur_fproc _) => apply bound_update
  | |- post _ (put_inode _) => apply bound_put_inode
  | |- post _ (alloc_inode _ _) => apply bound_alloc_inode
  | |- post _ (index _ _) =>
      apply post_pure; [exact (grows_by_refl to_bound)|intros ?; apply final_index]
  | |- post _ (dmap_at _) =>
      apply post_pure; [exact (grows_by_refl to_bound)|intros ?; apply final_dmap_at]
  | |- post _ cur_fproc =>
      apply post_pure; [exact (grows_by_refl to_bound)|intros ?; apply final_cur_fproc]
  | |- post _ (cpf_grant_magic _ _ _ _ _) => intros ?; apply grows_by_log; exact I
  | |- post _ (cpf_grant_direct _ _ _ _) => intros ?; apply grows_by_log; exact I
  | |- post _ (cpf_revoke _) => intros ?; apply grows_by_log; exact I
  | |- post _ (modify (log _)) => intros ?; apply grows_by_log; exact I
  | |- post _ (let '(_, _) := ?a in _) => destruct a
  | |- post _ (match ?x with Some _ => _ | None => _ end) => destruct x
  | |- post _ _ => intros ?; apply grows_by_same; reflexivity
  end.

Lemma bound_gen_io task m : task <> NONE -> post (grows_by to_bound) (gen_io task m).
Proof. intros H. unfold gen_io, dmap_unmap_by_endpt. repeat bound_step. Qed.

Lemma bound_ctty_io task m : post (grows_by to_bound) (ctty_io task m).
Proof.
  unfold ctty_io, isokendpt. repeat bound_step.
  destruct (dmap_io a0); [now apply bound_gen_io|bound_step|unfold no_dev_io; bound_step].
Qed.

Lemma bound_call_io h task m : task <> NONE -> post (grows_by to_bound) (call_io h task m).
Proof.
  intros H. destruct h; cbn; [now apply bound_gen_io|apply bound_ctty_io|].
  unfold no_dev_io. bound_step.
Qed.

Ltac bound_io := apply bound_call_io; assumption.

Lemma bound_grant_iovec n :
  forall j driver op v gids, post (grows_by to_bound) (grant_iovec n j driver op v gids).
Proof.
  induction n as [|n IH]; intros j driver op v gids; cbn [grant_iovec].
  - bound_step.
  - repeat first [apply IH | bound_step].
Qed.

Lemma bound_revoke_loop n :
  forall j gids, post (grows_by to_bound) (revoke_loop n j gids).
Proof.
  induction n as [|n IH]; intros j gids; cbn [revoke_loop].
  - bound_step.
  - repeat first [apply IH | bound_step].
Qed.

Lemma bound_conversion driver op io_ept buf bytes pos :
  post (grows_by to_bound) (safe_io_conversion driver op io_ept buf bytes pos).
Proof.
  unfold safe_io_conversion. repeat first [apply bound_grant_iovec | bound_step].
Qed.

Lemma bound_cleanup gid gids n : post (grows_by to_bound) (safe_io_cleanup gid gids n).
Proof. unfold safe_io_cleanup. repeat first [apply bound_revoke_loop | bound_step]. Qed.

Lemma bound_gen_opcl op dev proc_e flags :
  post (grows_by to_bound) (gen_opcl op dev proc_e flags).
Proof. unfold gen_opcl, uninit. repeat first [bound_io | bound_step]. Qed.

Lemma bound_clone_opcl fuel :
  forall op dev proc_e flags, post (grows_by to_bound) (clone_opcl fuel op dev proc_e flags).
Proof.
  induction fuel as [|fuel IH]; intros op dev proc_e flags; cbn [clone_opcl].
  - bound_step.
  - unfold uninit, isokendpt. repeat first [apply IH | bound_io | bound_step].
Qed.

Lemma bound_call_opcl fuel h op dev proc_e flags :
  post (grows_by to_bound) (call_opcl fuel h op dev proc_e flags).
Proof.
  destruct h; cbn.
  - apply bound_gen_opcl.
  - unfold tty_opcl. repeat first [apply bound_gen_opcl | bound_step].
  - unfold ctty_opcl. repeat bound_step.
  - apply bound_clone_opcl.
  - unfold no_dev. bound_step.
Qed.

(** X4.  No request is ever sent to the endpoint NONE: whatever the tables
    hold and whatever the drivers answer, every request that [dev_io],
    [dev_open] and [dev_close] send, through any handler of the table, goes
    to an endpoint other than NONE.  This holds for runs that return and
    for runs that stop in a panic alike. *)
Theorem never_sends_to_NONE (fuel : nat) (op dev proc_e buf pos bytes flags : Z) :
  post (grows_by to_bound) (dev_io op dev proc_e buf pos bytes flags)
  /\ post (grows_by to_bound) (dev_open fuel dev proc_e flags)
  /\ post (grows_by to_bound) (dev_close fuel dev).
Proof.
  split; [|split].
  - unfold dev_io, dev_io_call, dev_io_reply, suspend, uninit, isokendpt.
    repeat first [apply bound_conversion | apply bound_cleanup | bound_io | bound_step].
  - unfold dev_open. repeat first [apply bound_call_opcl | bound_step].
  - unfold dev_close. repeat first [apply bound_call_opcl | bound_step].
Qed.

End Bound.

(** *** Majors without a live driver *)

Section NoDriver.
Context {K : Consts} {E : Env}.

Lemma shiftr_major (dev : Z) : 0 <= dev < 65536 -> Z.shiftr dev MAJOR = major_of dev.
Proof.
  intros H. unfold major_of, MAJOR, BYTE.
  change 255 with (Z.ones 8). rewrite Z.land_ones by lia.
  rewrite Z.shiftr_div_pow2 by lia.
  symmetry. apply Z.mod_small.
  split; [apply Z.div_pos; lia|apply Z.div_lt_upper_bound; lia].
Qed.

(** X5.  A major without a driver: when the entry of the device's major
    has the endpoint NONE, [dev_io], [dev_bio] (called for FS_PROC_NR),
    [gen_opcl] and [clone_opcl] return ENXIO, [dev_open] returns ENXIO when
    the major is in range, and [dev_close] just returns (for a device
    number of 16 bits); none of them sends a request, mints a grant or
    changes the state in any other way. *)
Theorem unbound_major (fuel : nat) (op dev proc_e buf pos bytes flags : Z)
    (s : state) (dp : dmap_t) :
  dmap s !! Z.to_nat (major_of dev) = Some dp -> dmap_driver dp = NONE ->
  dev_io op dev proc_e buf pos bytes flags s = Done ENXIO s
  /\ dev_bio (S fuel) op dev FS_PROC_NR buf pos bytes s = Done ENXIO s
  /\ gen_opcl op dev proc_e flags s = Done ENXIO s
  /\ clone_opcl (S fuel) op dev proc_e flags s = Done ENXIO s
  /\ (major_of dev < NR_DEVICES -> dev_open fuel dev proc_e flags s = Done ENXIO s)
  /\ (0 <= dev < 65536 -> dev_close fuel dev s = Done tt s).
Proof.
  intros Hdp Hn.
  assert (Hat : dmap_at (major_of dev) s = Done dp s)
    by (apply dmap_at_Some; [apply major_of_nonneg|exact Hdp]).
  repeat split.
  - unfold dev_io. erewrite bind_run by exact Hat. now rewrite Hn, Z.eqb_refl.
  - unfold dev_bio. rewrite Z.eqb_refl. cbn [negb].
    unfold bind at 1, uninit, gets. cbn [dev_bio_loop].
    erewrite bind_run by exact Hat. now rewrite Hn, Z.eqb_refl.
  - unfold gen_opcl. unfold bind at 1, uninit, gets.
    erewrite bind_run by exact Hat. now rewrite Hn, Z.eqb_refl.
  - cbn [clone_opcl]. unfold bind at 1, uninit, gets.
    erewrite bind_run by exact Hat. now rewrite Hn, Z.eqb_refl.
  - intros Hr. unfold dev_open.
    destruct (Z.leb_spec NR_DEVICES (major_of dev)); [lia|].
    erewrite bind_run by exact Hat. now rewrite Hn, Z.eqb_refl.
  - intros Hd. unfold dev_close. rewrite shiftr_major by exact Hd.
    erewrite bind_run by exact Hat. now rewrite Hn, Z.eqb_refl.
Qed.

(** X6.  A stale driver: when the endpoint bound to the major is no longer
    a valid endpoint (isokendpt fails), [dev_io] and [clone_opcl] return
    ENXIO without sending a request, minting a grant or changing the
    state. *)
Theorem stale_driver (fuel : nat) (op dev proc_e buf pos bytes flags : Z)
    (s : state) (dp : dmap_t) :
  dmap s !! Z.to_nat (major_of dev) = Some dp ->
  k_isokendpt (fproc s) (dmap_driver dp) <> OK ->
  dev_io op dev proc_e buf pos bytes flags s = Done ENXIO s
  /\ clone_opcl (S fuel) op dev proc_e flags s = Done ENXIO s.
Proof.
  intros Hdp Hst.
  assert (Hat : dmap_at (major_of dev) s = Done dp s)
    by (apply dmap_at_Some; [apply major_of_nonneg|exact Hdp]).
  apply Z.eqb_neq in Hst.
  split.
  - unfold dev_io. erewrite bind_run by exact Hat.
    destruct (dmap_driver dp =? NONE); [reflexivity|].
    unfold bind, isokendpt, gets. now rewrite Hst.
  - cbn [clone_opcl]. unfold bind at 1, uninit, gets.
    erewrite bind_run by exact Hat.
    destruct (dmap_driver dp =? NONE); [reflexivity|].
    unfold bind, isokendpt, gets. now rewrite Hst.
Qed.

End NoDriver.

(** *** Vectored requests, ioctls and the cleanup *)

Section Vectors.
Context {K : Consts} {E : Env}.

Lemma bind_stop {A B} (m : M A) (k : A -> M B) (s : state) (w : abort) (s' : state) :
  m s = Abort w s' -> bind m k s = Abort w s'.
Proof. intros H. unfold bind. now rewrite H. Qed.

Lemma set_new_iovec_logs (x y : list (Z * Z)) (t : list event) (s : state) :
  set_new_iovec x (logs t (set_new_iovec y s)) = set_new_iovec x (logs t s).
Proof.
  revert s. induction t as [|e t IH]; intros s; [reflexivity|].
  cbn [logs fold_left] in *. exact (IH (log e s)).
Qed.

Lemma new_iovec_logs (t : list event) (s : state) : new_iovec (logs t s) = new_iovec s.
Proof. revert s. induction t as [|e t IH]; intros s; [reflexivity|exact (IH (log e s))]. Qed.

Section Loop.
Hypothesis direct_ok : forall h d b n a, GRANT_VALID (k_grant_direct h d b n a) = true.

(** The loop over the vector when it fits. *)
Lemma grant_iovec_run (driver op : Z) (v : bufptr) (n : nat) :
  forall (j : nat) (gids : list Z) (s : state),
  (j + n <= Z.to_nat NR_IOREQS)%nat -> (j + n <= length (new_iovec s))%nat ->
  exists subs entries,
    grant_iovec n (Z.of_nat j) driver op v gids s
    = Done (gids ++ map fst entries)
        (set_new_iovec (take j (new_iovec s) ++ entries ++ drop (j + n) (new_iovec s))
           (logs subs s))
    /\ length subs = n /\ length entries = n
    /\ forall i, (i < n)%nat ->
         let acc := if op =? DEV_GATHER_S then CPF_WRITE else CPF_READ in
         let h := trace s ++ take i subs in
         let e := k_iovec h v (Z.of_nat (j + i)) in
         let g := k_grant_direct h driver (Caller (fst e)) (snd e) acc in
         subs !! i = Some (EvGrantDirect driver (Caller (fst e)) (snd e) acc g)
         /\ entries !! i
            = Some (g, snd (k_iovec (trace s ++ take (S i) subs) v (Z.of_nat (j + i)))).
Proof.
  induction n as [|n IH]; intros j gids s Hj Hlen.
  - exists [], []. cbn [grant_iovec map logs fold_left app]. rewrite app_nil_r.
    rewrite Nat.add_0_r, take_drop.
    split; [|split; [reflexivity|split; [reflexivity|intros i Hi; lia]]].
    unfold ret. f_equal. now destruct s.
  - cbn [grant_iovec].
    destruct (Z.leb_spec NR_IOREQS (Z.of_nat j)) as [Hbig|_]; [lia|].
    unfold bind at 1, gets. unfold bind at 1, cpf_grant_direct.
    set (e := k_iovec (trace s) v (Z.of_nat j)).
    set (acc := if op =? DEV_GATHER_S then CPF_WRITE else CPF_READ).
    set (g := k_grant_direct (trace s) driver (Caller (fst e)) (snd e) acc).
    set (ev := EvGrantDirect driver (Caller (fst e)) (snd e) acc g).
    unfold bind at 1, modify.
    replace (GRANT_VALID g) with true by (symmetry; apply direct_ok). cbn [negb].
    unfold bind at 1, gets. unfold bind at 1. rewrite Nat2Z.id.
    cbn [trace set_new_iovec log].
    set (size := snd (k_iovec (trace s ++ [ev]) v (Z.of_nat j))).
    set (s2 := set_new_iovec _ (set_new_iovec _ (log ev s))).
    assert (Hnew : new_iovec s2 = <[j := (g, size)]> (new_iovec s)).
    { subst s2. cbn [new_iovec set_new_iovec log].
      apply list_eq. intros k. destruct (decide (k = j)) as [->|Hne].
      - rewrite !list_lookup_alter_eq.
        rewrite list_lookup_insert_eq by lia.
        destruct (new_iovec s !! j) as [x|] eqn:Hx; [reflexivity|].
        apply lookup_ge_None in Hx. lia.
      - rewrite !list_lookup_alter_ne by congruence.
        now rewrite list_lookup_insert_ne by congruence. }
    assert (Htr : trace s2 = trace s ++ [ev]) by reflexivity.
    replace (Z.of_nat j + 1) with (Z.of_nat (S j)) by lia.
    destruct (IH (S j) (gids ++ [g]) s2) as (subs & entries & Hrun & Hls & Hl & Hsub);
      [lia|rewrite Hnew, length_insert; lia|].
    exists (ev :: subs), ((g, size) :: entries).
    rewrite Hrun. split; [|split; [|split]].
    + f_equal.
      * cbn [map fst]. now rewrite <- app_assoc.
      * rewrite Hnew. subst s2. cbn [logs fold_left].
        rewrite set_new_iovec_logs. rewrite set_new_iovec_logs. f_equal.
        rewrite (take_S_r _ _ (g, size)) by (apply list_lookup_insert_eq; lia).
        rewrite take_insert_ge by lia. rewrite drop_insert_lt by lia.
        rewrite <- app_assoc. cbn [app].
        replace (S j + n)%nat with (j + S n)%nat by lia. reflexivity.
    + cbn. now rewrite Hls.
    + cbn. now rewrite Hl.
    + intros [|i] Hi.
      * cbn [take lookup list_lookup]. rewrite app_nil_r, Nat.add_0_r.
        split; reflexivity.
      * specialize (Hsub i ltac:(lia)). rewrite Htr in Hsub.
        cbn [take lookup list_lookup].
        replace (j + S i)%nat with (S j + i)%nat by lia.
        rewrite <- !app_assoc in Hsub. exact Hsub.
Qed.

(** The loop over a vector that is too long. *)
Lemma grant_iovec_big (driver op : Z) (v : bufptr) (n : nat) :
  forall (j : Z) (gids : list Z) (s : state),
  0 <= j <= NR_IOREQS -> NR_IOREQS < j + Z.of_nat n ->
  exists s', grant_iovec n j driver op v gids s = Abort (Panic "vec too big") s'.
Proof.
  induction n as [|n IH]; intros j gids s Hj Hbig; [lia|].
  cbn [grant_iovec].
  destruct (Z.leb_spec NR_IOREQS j) as [|Hlt]; [eexists; reflexivity|].
  unfold bind at 1, gets. unfold bind at 1, cpf_grant_direct.
  unfold bind at 1, modify. rewrite direct_ok. cbn [negb].
  unfold bind at 1. apply IH; lia.
Qed.

End Loop.

(** X7.  A gather or a scatter, when no grant is refused: for a vector of
    [bytes] elements that fits in NR_IOREQS, [safe_io_conversion] mints one
    grant over the server's own vector and then one grant for each element
    of the caller's vector, in order.  Sub-grant [j] is over the buffer
    whose address and size the server reads in element [j] of the vector
    at [buf], with access CPF_WRITE for a gather and CPF_READ for a
    scatter; element [j] of the server's vector then holds the id of that
    grant and the size read in element [j] once the grant is made.  The
    number of sub-grants reported is [bytes], the grant ids reported are
    those of the server's vector, and the buffer becomes the server's
    vector; the rest of that vector is as before.  For a longer vector
    the routine panics with "vec too big". *)
Theorem safe_io_conversion_vectored (KO : ConstsOk K)
    (driver op io_ept : Z) (buf : bufptr) (bytes pos : Z) (s : state) :
  op = DEV_GATHER \/ op = DEV_SCATTER ->
  DEV_GATHER_S <> DEV_SCATTER_S ->
  (forall h d b n a, 0 <= k_grant_direct h d b n a) ->
  0 <= bytes ->
  let op_s := if op =? DEV_GATHER then DEV_GATHER_S else DEV_SCATTER_S in
  let access := if op =? DEV_GATHER then CPF_WRITE else CPF_READ in
  let g := k_grant_direct (trace s) driver NewIovec
             (to_vir_bytes (bytes * SIZEOF_IOVEC)) (Z.lor CPF_READ CPF_WRITE) in
  let ev := EvGrantDirect driver NewIovec (to_vir_bytes (bytes * SIZEOF_IOVEC))
              (Z.lor CPF_READ CPF_WRITE) g in
  (bytes <= NR_IOREQS -> (Z.to_nat bytes <= length (new_iovec s))%nat ->
   exists subs entries,
     safe_io_conversion driver op io_ept buf bytes pos s
     = Done {| c_safe := true; c_gid := g; c_op := op_s; c_gids := map fst entries;
               c_io_ept := FS_PROC_NR; c_buf := NewIovec; c_vec_grants := bytes;
               c_pos := pos |}
         (set_new_iovec (entries ++ drop (Z.to_nat bytes) (new_iovec s))
            (logs (ev :: subs) s))
     /\ Z.of_nat (length subs) = bytes
     /\ Z.of_nat (length entries) = bytes
     /\ forall j, (j < Z.to_nat bytes)%nat ->
          sub_grant driver access buf (trace s ++ [ev]) subs entries j)
  /\ (0 <= NR_IOREQS < bytes ->
      exists s', safe_io_conversion driver op io_ept buf bytes pos s
                 = Abort (Panic "vec too big") s').
Proof.
  intros Hop Hs Hgr Hb op_s access g ev.
  assert (direct_ok : forall h d b n a, GRANT_VALID (k_grant_direct h d b n a) = true).
  { intros. apply grant_valid_nonneg, Hgr. }
  assert (Hnot : (op =? DEV_READ) || (op =? DEV_WRITE) = false).
  { apply orb_false_iff. split; apply Z.eqb_neq; intros ->; destruct Hop as [H|H].
    - now apply read_gather in H.
    - now apply read_scatter in H.
    - now apply write_gather in H.
    - now apply write_scatter in H. }
  assert (Hsel : (op =? DEV_GATHER) || (op =? DEV_SCATTER) = true).
  { destruct Hop as [-> | ->]; rewrite Z.eqb_refl; [reflexivity|apply orb_true_r]. }
  assert (Hacc : (if op_s =? DEV_GATHER_S then CPF_WRITE else CPF_READ) = access).
  { subst op_s access. destruct (Z.eqb_spec op DEV_GATHER) as [|Hne].
    - now rewrite Z.eqb_refl.
    - destruct (Z.eqb_spec DEV_SCATTER_S DEV_GATHER_S) as [Heq|]; [|reflexivity].
      symmetry in Heq. contradiction. }
  assert (Hstep : safe_io_conversion driver op io_ept buf bytes pos s
                  = (let* gids := grant_iovec (Z.to_nat bytes) 0 driver op_s buf [] in
                     ret (conv_result g op_s gids io_ept NewIovec pos)) (log ev s)).
  { unfold safe_io_conversion. rewrite Hnot, Hsel. fold op_s.
    unfold bind at 1, cpf_grant_direct. fold g. fold ev.
    destruct (Z.ltb_spec g 0) as [Hneg|_]; [|reflexivity].
    specialize (Hgr (trace s) driver NewIovec
                  (to_vir_bytes (bytes * SIZEOF_IOVEC)) (Z.lor CPF_READ CPF_WRITE)).
    fold g in Hgr. lia. }
  rewrite Hstep. clear Hstep.
  split.
  - intros Hfit Hlen.
    destruct (grant_iovec_run direct_ok driver op_s buf (Z.to_nat bytes) 0 [] (log ev s))
      as (subs & entries & Hrun & Hls & Hl & Hsub); [lia|cbn; lia|].
    exists subs, entries. change (Z.of_nat 0) with 0 in Hrun.
    rewrite (bind_run _ _ _ _ _ Hrun).
    split; [|split; [lia|split; [lia|]]].
    + unfold ret, conv_result. rewrite grant_valid_nonneg by (apply Hgr).
      cbn [app take]. rewrite length_map, Hl, Z2Nat.id by lia.
      f_equal.
    + intros j Hj. specialize (Hsub j Hj). rewrite Hacc in Hsub. exact Hsub.
  - intros Hbig.
    destruct (grant_iovec_big direct_ok driver op_s buf (Z.to_nat bytes) 0 [] (log ev s))
      as (s' & Hrun); [lia|lia|].
    exists s'. now apply bind_stop.
Qed.

(** X8.  The conversion of an ioctl: [safe_io_conversion] takes the size
    of the grant and its access from the request code in the system call
    message (CPF_WRITE if the code says that the driver writes the
    argument, CPF_READ if it reads it, none if there is no argument),
    mints the grant also when there is nothing to copy, and puts the
    caller's endpoint into the position.  (It panics when the grant is
    refused.) *)
Theorem safe_io_conversion_ioctl (KO : ConstsOk K)
    (driver io_ept : Z) (buf : bufptr) (bytes pos : Z) (s : state) :
  DEV_IOCTL <> DEV_READ -> DEV_IOCTL <> DEV_WRITE ->
  DEV_IOCTL <> DEV_GATHER -> DEV_IOCTL <> DEV_SCATTER ->
  let req := in_REQUEST s in
  let access := Z.lor (if IOCTL_IOR req then CPF_WRITE else 0)
                      (if IOCTL_IOW req then CPF_READ else 0) in
  let size := if IOCTL_BIG req then IOCTL_SIZE_BIG req else IOCTL_SIZE req in
  let g := k_grant_magic (trace s) driver io_ept buf size access in
  let s' := log (EvGrantMagic driver io_ept buf size access g) s in
  safe_io_conversion driver DEV_IOCTL io_ept buf bytes pos s
  = if g <? 0 then Abort (Panic "cpf_grant_magic failed (ioctl)") s'
    else Done {| c_safe := true; c_gid := g; c_op := DEV_IOCTL_S; c_gids := [];
                 c_io_ept := FS_PROC_NR; c_buf := buf; c_vec_grants := 0;
                 c_pos := io_ept |} s'.
Proof.
  intros H1 H2 H3 H4 req access size g s'.
  destruct (Z.ltb_spec g 0) as [Hneg|Hg].
  - unfold safe_io_conversion.
    apply Z.eqb_neq in H1, H2, H3, H4. rewrite H1, H2, H3, H4, Z.eqb_refl. cbn [orb].
    unfold bind at 1, gets. fold req.
    assert (Hacc : (if IOCTL_IOW req
                    then Z.lor (if IOCTL_IOR req then Z.lor 0 CPF_WRITE else 0) CPF_READ
                    else if IOCTL_IOR req then Z.lor 0 CPF_WRITE else 0) = access).
    { subst access. destruct (IOCTL_IOR req), (IOCTL_IOW req);
        rewrite ?Z.lor_0_l, ?Z.lor_0_r; reflexivity. }
    rewrite Hacc. fold size. unfold bind, cpf_grant_magic. fold g.
    destruct (Z.ltb_spec g 0); [reflexivity|lia].
  - now apply conv_ioctl_run.
Qed.

(** X9.  The cleanup undoes the conversion: after [safe_io_conversion] has
    returned for any operation, [safe_io_cleanup] on the grant, the
    sub-grants and the count it reported revokes the grants that the
    conversion minted, each once and in the order in which they were
    minted, and does nothing else.  When the conversion reports that it
    did not convert, it has minted nothing. *)
Theorem cleanup_undoes_conversion (KO : ConstsOk K)
    (driver op io_ept : Z) (buf : bufptr) (bytes pos : Z) (s : state)
    (c : conv) (s1 : state) :
  safe_io_conversion driver op io_ept buf bytes pos s = Done c s1 ->
  exists t, trace s1 = trace s ++ t /\ revoked t = [] /\
    if c_safe c
    then safe_io_cleanup (c_gid c) (c_gids c) (c_vec_grants c) s1
         = Done tt (logs (map EvRevoke (minted t)) s1)
    else minted t = [].
Proof.
  intros Hc.
  pose proof (safe_io_conversion_spec KO driver op io_ept buf bytes pos s) as Hspec.
  rewrite Hc in Hspec. destruct Hspec as (_ & Hvec & _ & t & Ht & Hr & Hm).
  exists t. split; [exact Ht|]. split; [exact Hr|].
  destruct (c_safe c); [|exact Hm].
  rewrite Hm, Hvec. apply safe_io_cleanup_spec.
Qed.

End Vectors.

(** *** Block transfers *)

Section BlockIo.
Context {K : Consts} {E : Env}.

Lemma dmap_logs (t : list event) (s : state) : dmap (logs t s) = dmap s.
Proof. revert s. induction t as [|e t IH]; intros s; [reflexivity|exact (IH (log e s))]. Qed.

Lemma conv_result_io_ept (gid op : Z) (gids : list Z) (io_ept : Z) (buf : bufptr) (pos : Z) :
  let c := conv_result gid op gids io_ept buf pos in
  c_io_ept c = if c_safe c then FS_PROC_NR else io_ept.
Proof. unfold conv_result. now destruct (GRANT_VALID gid). Qed.

(** A conversion that reports success has made FS_PROC_NR the endpoint. *)
Lemma conversion_io_ept (driver op io_ept : Z) (buf : bufptr) (bytes pos : Z)
    (s : state) (c : conv) (s1 : state) :
  safe_io_conversion driver op io_ept buf bytes pos s = Done c s1 ->
  c_io_ept c = if c_safe c then FS_PROC_NR else io_ept.
Proof.
  unfold safe_io_conversion. intros H.
  repeat match type of H with
         | (if ?b then _ else _) _ = _ => destruct b
         | bind _ _ _ = _ => apply bind_Done in H as (? & ? & _ & H)
         end;
    try discriminate; cbn in H; injection H as <- _; apply conv_result_io_ept.
Qed.

(** X10.  A block transfer that the driver answers: when the generic
    driver of the major takes the request and its reply is not SUSPEND,
    [dev_bio] needs one round, whatever the operation: it sends the
    converted request, revokes the grant and the sub-grants of the
    conversion in the order in which they were minted, copies the server's
    vector back over the caller's exactly when the request was a gather or
    a scatter, and returns the status of the reply. *)
Theorem dev_bio_completes (KO : ConstsOk K) (fuel : nat)
    (op dev buf pos bytes : Z) (s : state) (dp : dmap_t)
    (c : conv) (s1 : state) (rep : message) :
  dmap s !! Z.to_nat (major_of dev) = Some dp ->
  dmap_driver dp <> NONE -> dmap_io dp = gen_io_fn ->
  safe_io_conversion (dmap_driver dp) op FS_PROC_NR (Caller buf) (to_vir_bytes bytes) pos s
    = Done c s1 ->
  c_safe c = true ->
  let req := safe_request (k_uninit (trace s)) (c_op c) dev FS_PROC_NR buf (c_pos c)
               bytes (c_gid c) in
  k_sendrec (trace s1) (dmap_driver dp) req = (OK, rep) ->
  REP_STATUS rep <> SUSPEND ->
  let s2 := logs (map EvRevoke (c_gid c :: c_gids c))
              (log (EvSendrec (dmap_driver dp) req OK rep) s1) in
  dev_bio (S fuel) op dev FS_PROC_NR buf pos bytes s
  = Done (REP_STATUS rep)
      (if (op =? DEV_GATHER) || (op =? DEV_SCATTER)
       then log (EvMemcpy (Caller buf) NewIovec (to_vir_bytes (bytes * SIZEOF_IOVEC))) s2
       else s2).
Proof.
  intros Hdp Hb Hio Hc Hsafe req Hrep Hst s2.
  pose proof (safe_io_conversion_spec KO (dmap_driver dp) op FS_PROC_NR (Caller buf)
                (to_vir_bytes bytes) pos s) as Hspec.
  rewrite Hc in Hspec. destruct Hspec as ([_ Hd _] & Hvec & Hbuf & _).
  pose proof (conversion_io_ept _ _ _ _ _ _ _ _ _ Hc) as Hept. rewrite Hsafe in Hept.
  assert (Hat : dmap_at (major_of dev) s = Done dp s)
    by (apply dmap_at_Some; [apply major_of_nonneg|exact Hdp]).
  unfold dev_bio. rewrite Z.eqb_refl. cbn [negb].
  unfold bind at 1, uninit, gets. cbn [dev_bio_loop].
  rewrite (bind_run _ _ _ _ _ Hat).
  pose proof Hb as Hb'. apply Z.eqb_neq in Hb'. rewrite Hb'.
  assert (Hcall : dev_bio_call dp op dev FS_PROC_NR buf pos bytes (k_uninit (trace s)) s
                  = Done (c, rep) s2).
  { unfold dev_bio_call. cbn [IO_ENDPT set_ADDRESS set_IO_ENDPT].
    rewrite (bind_run _ _ _ _ _ Hc). rewrite Hsafe, Hept, Hio. cbn [call_io].
    destruct (gen_io_ok (dmap_driver dp) req s1 rep Hrep) as (r & Hr).
    unfold req, safe_request in Hr.
    rewrite (bind_run _ _ _ _ _ Hr). lazy beta iota.
    rewrite Hvec. unfold bind. now rewrite safe_io_cleanup_spec. }
  rewrite (bind_run _ _ _ _ _ Hcall). lazy beta iota.
  assert (Hat2 : dmap_at (major_of dev) s2 = Done dp s2).
  { apply dmap_at_Some; [apply major_of_nonneg|].
    unfold s2. rewrite dmap_logs. cbn [dmap log]. now rewrite Hd. }
  rewrite (bind_run _ _ _ _ _ Hat2). rewrite Hb'.
  apply Z.eqb_neq in Hst. rewrite Hst.
  destruct Hbuf as [(Hcb & _ & Hng & Hns)|(Hcb & Hv)]; rewrite Hcb.
  - rewrite bufptr_eqb_refl. apply Z.eqb_neq in Hng, Hns. now rewrite Hng, Hns.
  - replace ((op =? DEV_GATHER) || (op =? DEV_SCATTER)) with true; [reflexivity|].
    symmetry. destruct Hv as [-> | ->]; rewrite Z.eqb_refl; [reflexivity|apply orb_true_r].
Qed.

End BlockIo.

(** *** The depth of [clone_opcl] *)

Section Depth.
Context {K : Consts} {E : Env}.

Lemma enough_bind {A B} (m : M A) (k : A -> M B) :
  enough m -> (forall a, enough (k a)) -> enough (bind m k).
Proof.
  intros Hm Hk s. unfold bind. specialize (Hm s).
  destruct (m s) as [a s1|w s1]; [apply Hk|exact Hm].
Qed.

Lemma enough_index {A} (l : list A) i : enough (index l i).
Proof. intros s. unfold index. now destruct (zlookup l i). Qed.

Lemma enough_sendrec dst m : enough (sendrec dst m).
Proof. intros s. unfold sendrec. now destruct (k_sendrec (trace s) dst m). Qed.

Lemma enough_alloc_inode dev bits : enough (alloc_inode dev bits).
Proof.
  intros s. unfold alloc_inode. destruct (k_alloc_fail (trace s)); [exact I|].
  now destruct (free_slot (inode s) 0).
Qed.

Ltac enough_step :=
  match goal with
  | |- enough (bind _ _) => apply enough_bind; [|intros ?]
  | |- enough (if ?b then _ else _) => destruct b
  | |- enough (index _ _) => apply enough_index
  | |- enough (sendrec _ _) => apply enough_sendrec
  | |- enough (alloc_inode _ _) => apply enough_alloc_inode
  | |- enough (let '(_, _) := ?a in _) => destruct a
  | |- enough (match ?x with Some _ => _ | None => _ end) => destruct x
  | |- enough _ => intros ?; exact I
  end.

Lemma enough_cur_fproc : enough cur_fproc.
Proof. unfold cur_fproc. repeat enough_step. Qed.

Lemma enough_dmap_at i : enough (dmap_at i).
Proof. unfold dmap_at. repeat enough_step. Qed.

Lemma enough_update f : enough (update_cur_fproc f).
Proof. unfold update_cur_fproc. repeat enough_step. Qed.

Lemma enough_put_inode rip : enough (put_inode rip).
Proof. unfold put_inode. repeat enough_step. Qed.

Lemma enough_gen_io task m : enough (gen_io task m).
Proof. unfold gen_io, dmap_unmap_by_endpt, panic, stop. repeat enough_step. Qed.

Lemma enough_call_io h task m : enough (call_io h task m).
Proof.
  destruct h; cbn [call_io]; [apply enough_gen_io| |intros ?; exact I].
  unfold ctty_io, isokendpt.
  repeat first [apply enough_cur_fproc | apply enough_dmap_at | enough_step].
  destruct (dmap_io a0); [apply enough_gen_io|intros ?; exact I|intros ?; exact I].
Qed.

Lemma enough_gen_opcl op dev proc_e flags : enough (gen_opcl op dev proc_e flags).
Proof.
  unfold gen_opcl, uninit. repeat first [apply enough_dmap_at | apply enough_call_io | enough_step].
Qed.

(** Past its first level, [clone_opcl] only closes, and a close does not
    call [clone_opcl] again. *)
Lemma clone_opcl_levels (KO : ConstsOk K) (fuel : nat) (op dev proc_e flags : Z) :
  clone_opcl (S (S fuel)) op dev proc_e flags = clone_opcl 2 op dev proc_e flags.
Proof.
  cbn [clone_opcl].
  replace (DEV_CLOSE =? DEV_OPEN) with false; [reflexivity|].
  symmetry. apply Z.eqb_neq. intros H. symmetry in H. now apply open_close in H.
Qed.

Lemma clone_opcl_close_level (KO : ConstsOk K) (fuel : nat) (dev proc_e flags : Z) :
  clone_opcl (S fuel) DEV_CLOSE dev proc_e flags = clone_opcl 1 DEV_CLOSE dev proc_e flags.
Proof.
  cbn [clone_opcl].
  replace (DEV_CLOSE =? DEV_OPEN) with false; [reflexivity|].
  symmetry. apply Z.eqb_neq. intros H. symmetry in H. now apply open_close in H.
Qed.

Lemma enough_clone_close (KO : ConstsOk K) (dev proc_e flags : Z) :
  enough (clone_opcl 1 DEV_CLOSE dev proc_e flags).
Proof.
  cbn [clone_opcl].
  replace (DEV_CLOSE =? DEV_OPEN) with false.
  2:{ symmetry. apply Z.eqb_neq. intros H. symmetry in H. now apply open_close in H. }
  cbn [andb]. unfold uninit, isokendpt.
  repeat first [apply enough_dmap_at | apply enough_call_io | enough_step].
Qed.

Lemma enough_clone_opcl (KO : ConstsOk K) (op dev proc_e flags : Z) :
  enough (clone_opcl 2 op dev proc_e flags).
Proof.
  cbn [clone_opcl].
  replace (DEV_CLOSE =? DEV_OPEN) with false.
  2:{ symmetry. apply Z.eqb_neq. intros H. symmetry in H. now apply open_close in H. }
  cbn [andb]. unfold uninit, isokendpt.
  repeat first [apply enough_dmap_at | apply enough_call_io
               | apply enough_cur_fproc | apply enough_put_inode | enough_step].
Qed.

Lemma enough_call_opcl (KO : ConstsOk K) (h : opcl_fn) (op dev proc_e flags : Z) :
  enough (call_opcl 2 h op dev proc_e flags).
Proof.
  destruct h; cbn [call_opcl].
  - apply enough_gen_opcl.
  - unfold tty_opcl.
    repeat first [apply enough_cur_fproc | apply enough_gen_opcl | apply enough_update | enough_step].
  - unfold ctty_opcl. repeat first [apply enough_cur_fproc | enough_step].
  - now apply enough_clone_opcl.
  - intros ?; exact I.
Qed.

(** X11.  The recursion of [clone_opcl] is one level deep: the call that
    undoes an open is a close, and a close never calls [clone_opcl] again.
    So two levels are enough for [clone_opcl] and [dev_open], and one for
    a close: with that much fuel or more the result is the same, and the
    run never stops for lack of fuel. *)
Theorem clone_opcl_depth (KO : ConstsOk K) (fuel : nat) (op dev proc_e flags : Z)
    (s : state) :
  clone_opcl (S (S fuel)) op dev proc_e flags s = clone_opcl 2 op dev proc_e flags s
  /\ fuelled (clone_opcl 2 op dev proc_e flags s)
  /\ clone_opcl (S fuel) DEV_CLOSE dev proc_e flags s
     = clone_opcl 1 DEV_CLOSE dev proc_e flags s
  /\ fuelled (clone_opcl 1 DEV_CLOSE dev proc_e flags s)
  /\ dev_open (S (S fuel)) dev proc_e flags s = dev_open 2 dev proc_e flags s
  /\ fuelled (dev_open 2 dev proc_e flags s).
Proof.
  split; [now rewrite clone_opcl_levels|].
  split; [now apply enough_clone_opcl|].
  split; [now rewrite clone_opcl_close_level|].
  split; [now apply enough_clone_close|].
  split.
  - unfold dev_open, call_opcl.
    unfold bind at 1 3. destruct (dmap_at _ s) as [dp s1|]; [|reflexivity].
    destruct (dmap_driver dp =? NONE); [reflexivity|].
    destruct (dmap_opcl dp); try reflexivity.
    now rewrite clone_opcl_levels.
  - revert s. change (enough (dev_open 2 dev proc_e flags)). unfold dev_open.
    repeat first [apply (enough_call_opcl KO) | apply enough_dmap_at | enough_step].
Qed.

End Depth.

(** *** dev_close *)

Section Close.
Context {K : Consts} {E : Env}.

Lemma files_frame_refl s : files_frame s s.
Proof. now split. Qed.

Lemma files_frame_trans s1 s2 s3 :
  files_frame s1 s2 -> files_frame s2 s3 -> files_frame s1 s3.
Proof. intros [] []. split; congruence. Qed.

Lemma files_frame_io s s' : io_frame s s' -> files_frame s s'.
Proof. intros [[] _ _]. now split. Qed.

Lemma files_frame_update (f : fproc_t -> fproc_t) : post files_frame (update_cur_fproc f).
Proof.
  intros s. unfold update_cur_fproc, bind, gets.
  destruct (fp s) as [i|]; [|apply files_frame_refl].
  destruct (index (fproc s) (Z.of_nat i) s) as [p s1|w s1] eqn:Hi.
  - apply index_Done in Hi as [_ ->]. now split.
  - pose proof (final_index (fproc s) (Z.of_nat i) s) as Hf. rewrite Hi in Hf.
    cbn in *. subst. apply files_frame_refl.
Qed.

Ltac files_step :=
  match goal with
  | |- post _ (bind _ _) => apply post_bind; [exact files_frame_trans| |intros ?]
  | |- post _ (if ?b then _ else _) => destruct b
  | |- post _ (call_io _ _ _) =>
      apply (post_weaken io_frame); [exact files_frame_io|apply io_frame_call_io]
  | |- post _ (update_cur_fproc _) => apply files_frame_update
  | |- post _ (index _ _) => apply post_pure; [exact files_frame_refl|intros ?; apply final_index]
  | |- post _ (dmap_at _) => apply post_pure; [exact files_frame_refl|intros ?; apply final_dmap_at]
  | |- post _ cur_fproc => apply post_pure; [exact files_frame_refl|intros ?; apply final_cur_fproc]
  | |- post _ (let '(_, _) := ?a in _) => destruct a
  | |- post _ _ => apply post_pure; [exact files_frame_refl|intros ?; reflexivity]
  end.

Lemma files_frame_gen_opcl op dev proc_e flags :
  post files_frame (gen_opcl op dev proc_e flags).
Proof. unfold gen_opcl. repeat files_step. Qed.

Lemma files_frame_clone_close (KO : ConstsOk K) fuel dev proc_e flags :
  post files_frame (clone_opcl fuel DEV_CLOSE dev proc_e flags).
Proof.
  destruct fuel as [|fuel]; cbn [clone_opcl]; [files_step|].
  replace (DEV_CLOSE =? DEV_OPEN) with false.
  2:{ symmetry. apply Z.eqb_neq. intros H. symmetry in H. now apply open_close in H. }
  cbn [andb]. repeat files_step.
Qed.

(** X12.  A close keeps the files: whatever the handler of the major and
    whatever the driver answers, [dev_close] leaves the filp table and the
    inode table as they are.  It does not look at the handler's result
    either: it returns in every run that does not stop in the handler,
    also when the driver answers SUSPEND, on which [dev_open] panics. *)
Theorem dev_close_keeps_files (KO : ConstsOk K) (fuel : nat) (dev : Z) :
  post files_frame (dev_close fuel dev)
  /\ forall s dp st s1,
       0 <= dev < 65536 ->
       dmap s !! Z.to_nat (major_of dev) = Some dp -> dmap_driver dp <> NONE ->
       call_opcl fuel (dmap_opcl dp) DEV_CLOSE dev 0 0 s = Done st s1 ->
       dev_close fuel dev s = Done tt s1.
Proof.
  split.
  - unfold dev_close.
    files_step; [files_step|]. files_step; [files_step|].
    files_step; [files_step|]. files_step; [|files_step].
    destruct (dmap_opcl a0); cbn [call_opcl].
    + apply files_frame_gen_opcl.
    + unfold tty_opcl. repeat first [apply files_frame_gen_opcl | files_step].
    + unfold ctty_opcl. repeat files_step.
    + now apply files_frame_clone_close.
    + unfold no_dev. files_step.
  - intros s dp st s1 Hd Hdp Hb Hcall. unfold dev_close.
    rewrite shiftr_major by exact Hd.
    assert (Hat : dmap_at (major_of dev) s = Done dp s)
      by (apply dmap_at_Some; [apply major_of_nonneg|exact Hdp]).
    rewrite (bind_run _ _ _ _ _ Hat).
    apply Z.eqb_neq in Hb. rewrite Hb.
    rewrite (bind_run _ _ _ _ _ Hat).
    now rewrite (bind_run _ _ _ _ _ Hcall).
Qed.

End Close.

(** *** Sessions *)

Section Session.
Context {K : Consts} {E : Env}.

(** [tty_opcl] in terms of the [gen_opcl] it calls. *)
Lemma tty_opcl_run (op dev proc_e flags : Z) (s : state) (i : nat) (p : fproc_t) :
  fp s = Some i -> fproc s !! i = Some p ->
  let forced := (fp_sesldr p =? 0) || negb (fp_tty p =? 0) || tty_taken dev (fproc s) in
  let flags' := if forced then Z.lor flags O_NOCTTY else flags in
  tty_opcl op dev proc_e flags s
  = match gen_opcl op dev proc_e flags' s with
    | Done r s1 =>
        if r =? 1 then Done OK (set_fproc (<[i := set_fp_tty dev p]> (fproc s)) s1)
        else Done r s1
    | Abort w s1 => Abort w s1
    end.
Proof.
  intros Hfp Hp forced flags'.
  unfold tty_opcl, bind at 1. rewrite (cur_fproc_Some s i p Hfp Hp).
  unfold bind at 1.
  assert (Hfl : (if (fp_sesldr p =? 0) || negb (fp_tty p =? 0)
                 then ret (Z.lor flags O_NOCTTY)
                 else let* tab := gets fproc in ret (noctty_scan dev tab flags)) s
                = Done flags' s).
  { subst flags' forced.
    destruct ((fp_sesldr p =? 0) || negb (fp_tty p =? 0)); [reflexivity|].
    cbn. now rewrite noctty_scan_spec. }
  rewrite Hfl. unfold bind at 1.
  pose proof (procs_frame_gen_opcl op dev proc_e flags' s) as Hfr.
  destruct (gen_opcl op dev proc_e flags' s) as [r s1|w s1]; [|reflexivity].
  destruct Hfr as [Hfr1 Hfr2]. cbn in Hfr1, Hfr2.
  destruct (r =? 1); [|reflexivity].
  unfold bind.
  rewrite (update_cur_fproc_Some _ s1 i p) by congruence.
  cbn. now rewrite Hfr1.
Qed.

(** X13.  [pm_setsid] makes the process a session leader without a
    controlling terminal and changes nothing else; doing it again changes
    nothing.  When the process is the caller, a terminal that no live
    process has as its controlling terminal is then opened with the flags
    as given, without O_NOCTTY, and becomes the caller's controlling
    terminal if the driver answers 1. *)
Theorem pm_setsid_then_open (op dev proc_e flags e : Z) (s : state)
    (i : nat) (p : fproc_t) :
  TRUE <> 0 ->
  k_okendpt (fproc s) e = Some i -> fproc s !! i = Some p ->
  let p1 := set_fp_tty 0 (set_fp_sesldr TRUE p) in
  let s1 := set_fproc (<[i := p1]> (fproc s)) s in
  pm_setsid e s = Done tt s1
  /\ (k_okendpt (fproc s1) e = Some i -> pm_setsid e s1 = Done tt s1)
  /\ (fp s = Some i -> tty_taken dev (fproc s1) = false ->
      tty_opcl op dev proc_e flags s1
      = match gen_opcl op dev proc_e flags s1 with
        | Done r s2 =>
            if r =? 1
            then Done OK (set_fproc (<[i := set_fp_tty dev p1]> (fproc s1)) s2)
            else Done r s2
        | Abort w s2 => Abort w s2
        end).
Proof.
  intros Htrue Hok Hp p1 s1.
  assert (Hlt : (i < length (fproc s))%nat) by (eapply lookup_lt_Some; eauto).
  assert (Hp1 : fproc s1 !! i = Some p1) by (apply list_lookup_insert_eq; exact Hlt).
  assert (Hrun : forall s0 q, k_okendpt (fproc s0) e = Some i -> fproc s0 !! i = Some q ->
            pm_setsid e s0
            = Done tt (set_fproc (<[i := set_fp_tty 0 (set_fp_sesldr TRUE q)]> (fproc s0)) s0)).
  { intros s0 q H1 H2. unfold pm_setsid, bind at 1, gets. rewrite H1.
    rewrite (bind_run _ _ _ q s0) by (apply index_Some; now rewrite zlookup_of_nat).
    reflexivity. }
  split; [now apply Hrun|]. split.
  - intros Hok1. rewrite (Hrun s1 p1 Hok1 Hp1). f_equal.
    unfold s1, set_fproc. cbn. f_equal.
    rewrite list_insert_insert_eq. reflexivity.
  - intros Hfp Hfree.
    rewrite (tty_opcl_run op dev proc_e flags s1 i p1 Hfp Hp1).
    rewrite Hfree. cbn [fp_sesldr fp_tty p1 set_fp_tty set_fp_sesldr].
    apply Z.eqb_neq in Htrue. rewrite Htrue. reflexivity.
Qed.

End Session.

(** *** /dev/tty and the ioctl call *)

Section Ctty.
Context {K : Consts} {E : Env}.

Lemma ctty_io_no_tty (task : Z) (mess : message) (s : state) (i : nat) (p : fproc_t) :
  fp s = Some i -> fproc s !! i = Some p -> fp_tty p = 0 ->
  ctty_io task mess s = Done (OK, set_REP_STATUS EIO mess) s.
Proof.
  intros Hfp Hp Htty. unfold ctty_io.
  rewrite (bind_run _ _ _ _ _ (cur_fproc_Some s i p Hfp Hp)). now rewrite Htty.
Qed.

Lemma ctty_io_gen (task : Z) (mess : message) (s : state) (i : nat) (p : fproc_t)
    (dpt : dmap_t) (rep : message) :
  fp s = Some i -> fproc s !! i = Some p -> fp_tty p <> 0 ->
  dmap s !! Z.to_nat (major_of (fp_tty p)) = Some dpt ->
  dmap_driver dpt <> NONE -> k_isokendpt (fproc s) (dmap_driver dpt) = OK ->
  dmap_io dpt = gen_io_fn ->
  let req := set_DEVICE (minor_of (fp_tty p)) mess in
  k_sendrec (trace s) (dmap_driver dpt) req = (OK, rep) ->
  ctty_io task mess s = Done (OK, rep) (log (EvSendrec (dmap_driver dpt) req OK rep) s).
Proof.
  intros Hfp Hp Htty Hdpt Hbt Hokt Hiot req Hrep. unfold ctty_io.
  rewrite (bind_run _ _ _ _ _ (cur_fproc_Some s i p Hfp Hp)).
  apply Z.eqb_neq in Htty. rewrite Htty.
  rewrite (bind_run (dmap_at _) _ s dpt s)
    by (apply dmap_at_Some; [apply major_of_nonneg|exact Hdpt]).
  apply Z.eqb_neq in Hbt. rewrite Hbt.
  unfold bind at 1, isokendpt, gets. rewrite Hokt, Z.eqb_refl, Hiot. cbn [negb].
  destruct (gen_io_ok (dmap_driver dpt) req s rep Hrep) as (r & Hr).
  now rewrite (bind_run _ _ _ _ _ Hr).
Qed.

(** X14.  /dev/tty without a controlling terminal: for a caller whose
    [fp_tty] is 0, [dev_open] of the device returns ENXIO and leaves the
    state as it is, and a read or a write mints the grant, sends no
    request, revokes the grant and returns EIO. *)
Theorem ctty_without_terminal (KO : ConstsOk K) (fuel : nat)
    (op dev proc_e buf pos bytes flags : Z) (s : state) (dp : dmap_t)
    (i : nat) (p : fproc_t) :
  op = DEV_READ \/ op = DEV_WRITE ->
  EIO <> SUSPEND ->
  major_of dev < NR_DEVICES ->
  dmap s !! Z.to_nat (major_of dev) = Some dp ->
  dmap_driver dp <> NONE -> k_isokendpt (fproc s) (dmap_driver dp) = OK ->
  dmap_opcl dp = ctty_opcl_fn -> dmap_io dp = ctty_io_fn ->
  fp s = Some i -> fproc s !! i = Some p -> fp_tty p = 0 ->
  let access := if op =? DEV_READ then CPF_WRITE else CPF_READ in
  let g := k_grant_magic (trace s) (dmap_driver dp) proc_e (Caller buf)
             (to_vir_bytes bytes) access in
  0 <= g ->
  dev_open fuel dev proc_e flags s = Done ENXIO s
  /\ dev_io op dev proc_e buf pos bytes flags s
     = Done EIO (log (EvRevoke g)
                   (log (EvGrantMagic (dmap_driver dp) proc_e (Caller buf)
                           (to_vir_bytes bytes) access g) s)).
Proof.
  intros Hop Heio Hmaj Hdp Hb Hok Hopcl Hio Hfp Hp Htty access g Hg.
  assert (Hat : dmap_at (major_of dev) s = Done dp s)
    by (apply dmap_at_Some; [apply major_of_nonneg|exact Hdp]).
  pose proof Hb as Hb'. apply Z.eqb_neq in Hb'.
  split.
  - unfold dev_open. destruct (Z.leb_spec NR_DEVICES (major_of dev)); [lia|].
    rewrite (bind_run _ _ _ _ _ Hat). rewrite Hb', Hopcl. cbn [call_opcl].
    unfold ctty_opcl. unfold bind at 1. unfold bind at 1.
    rewrite (cur_fproc_Some s i p Hfp Hp). rewrite Htty. cbn [Z.eqb ret].
    destruct (Z.eqb_spec ENXIO SUSPEND) as [Heq|]; [|reflexivity].
    now apply enxio_suspend in Heq.
  - rewrite (dev_io_enter _ _ _ _ _ _ _ _ dp Hdp Hb Hok).
    pose proof (conv_rw_run KO (dmap_driver dp) op proc_e (Caller buf)
                  (to_vir_bytes bytes) pos s Hop Hg) as Hc.
    erewrite bind_run.
    2:{ unfold dev_io_call. unfold bind at 1, uninit, gets.
        cbn [IO_ENDPT set_ADDRESS set_IO_ENDPT].
        rewrite (bind_run _ _ _ _ _ Hc).
        cbn [c_buf c_safe c_io_ept c_gid c_op c_pos vir_addr]. rewrite Z.eqb_refl, Hio.
        cbn [negb call_io].
        erewrite bind_run by (apply (ctty_io_no_tty _ _ _ i p); assumption).
        reflexivity. }
    lazy beta iota.
    erewrite dev_io_reply_plain; [reflexivity|exact Hdp|exact Hb|exact Heio| | |];
      reflexivity.
Qed.

(** X15.  /dev/tty with a controlling terminal: a read or a write on
    /dev/tty is sent to the driver of the major of the caller's
    controlling terminal, with the minor of that terminal in the request;
    the grant that the request carries is made out to the driver bound to
    the major of /dev/tty itself.  When the terminal's generic driver
    answers for good, the grant is revoked and the status of the reply is
    returned. *)
Theorem ctty_io_redirects (KO : ConstsOk K)
    (op dev proc_e buf pos bytes flags : Z) (s : state) (dp dpt : dmap_t)
    (i : nat) (p : fproc_t) (rep : message) :
  op = DEV_READ \/ op = DEV_WRITE ->
  dmap s !! Z.to_nat (major_of dev) = Some dp ->
  dmap_driver dp <> NONE -> k_isokendpt (fproc s) (dmap_driver dp) = OK ->
  dmap_io dp = ctty_io_fn ->
  fp s = Some i -> fproc s !! i = Some p -> fp_tty p <> 0 ->
  dmap s !! Z.to_nat (major_of (fp_tty p)) = Some dpt ->
  dmap_driver dpt <> NONE -> k_isokendpt (fproc s) (dmap_driver dpt) = OK ->
  dmap_io dpt = gen_io_fn ->
  let access := if op =? DEV_READ then CPF_WRITE else CPF_READ in
  let op_s := if op =? DEV_READ then DEV_READ_S else DEV_WRITE_S in
  let g := k_grant_magic (trace s) (dmap_driver dp) proc_e (Caller buf)
             (to_vir_bytes bytes) access in
  let s1 := log (EvGrantMagic (dmap_driver dp) proc_e (Caller buf)
                   (to_vir_bytes bytes) access g) s in
  let req := set_DEVICE (minor_of (fp_tty p))
               (safe_request (k_uninit (trace s)) op_s dev proc_e buf pos bytes g) in
  0 <= g ->
  k_sendrec (trace s1) (dmap_driver dpt) req = (OK, rep) ->
  REP_STATUS rep <> SUSPEND ->
  dev_io op dev proc_e buf pos bytes flags s
  = Done (REP_STATUS rep)
      (log (EvRevoke g) (log (EvSendrec (dmap_driver dpt) req OK rep) s1)).
Proof.
  intros Hop Hdp Hb Hok Hio Hfp Hp Htty Hdpt Hbt Hokt Hiot access op_s g s1 req
         Hg Hrep Hst.
  rewrite (dev_io_enter _ _ _ _ _ _ _ _ dp Hdp Hb Hok).
  pose proof (conv_rw_run KO (dmap_driver dp) op proc_e (Caller buf)
                (to_vir_bytes bytes) pos s Hop Hg) as Hc.
  erewrite bind_run.
  2:{ unfold dev_io_call. unfold bind at 1, uninit, gets.
      cbn [IO_ENDPT set_ADDRESS set_IO_ENDPT].
      rewrite (bind_run _ _ _ _ _ Hc).
      cbn [c_buf c_safe c_io_ept c_gid c_op c_pos vir_addr]. rewrite Z.eqb_refl, Hio.
      cbn [negb call_io].
      erewrite bind_run.
      2:{ apply (ctty_io_gen _ _ _ i p dpt rep); assumption. }
      reflexivity. }
  lazy beta iota.
  erewrite dev_io_reply_plain; [reflexivity|exact Hdp|exact Hb|exact Hst| | |];
    reflexivity.
Qed.

(** X16.  The ioctl system call: on a descriptor whose inode is neither a
    character nor a block special file [do_ioctl] returns ENOTTY and does
    nothing.  On a special file it goes to the device in the inode's first
    zone: for a generic driver that answers for good, the one request
    carries the request code of the system call in the count, the caller's
    endpoint in the position and a grant over the caller's argument, sized
    by the request code; the grant is revoked and the driver's status
    returned. *)
Theorem do_ioctl_request (KO : ConstsOk K)
    (I_TYPE I_BLOCK_SPECIAL ENOTTY ls_fd address who_e : Z)
    (get_filp : Z -> M (option nat))
    (s : state) (f : nat) (fl : filp_t) (i : nat) (rip : inode_t) :
  get_filp ls_fd s = Done (Some f) s ->
  filp s !! f = Some fl -> filp_ino fl = Some i -> inode s !! i = Some rip ->
  let ioctl := do_ioctl I_TYPE I_BLOCK_SPECIAL ENOTTY ls_fd address who_e get_filp in
  (Z.land (i_mode rip) I_TYPE <> I_CHAR_SPECIAL ->
   Z.land (i_mode rip) I_TYPE <> I_BLOCK_SPECIAL ->
   ioctl s = Done ENOTTY s)
  /\ (forall dp rep,
      Z.land (i_mode rip) I_TYPE = I_CHAR_SPECIAL
      \/ Z.land (i_mode rip) I_TYPE = I_BLOCK_SPECIAL ->
      DEV_IOCTL <> DEV_READ -> DEV_IOCTL <> DEV_WRITE ->
      DEV_IOCTL <> DEV_GATHER -> DEV_IOCTL <> DEV_SCATTER ->
      let dev := to_dev_t (i_zone0 rip) in
      dmap s !! Z.to_nat (major_of dev) = Some dp ->
      dmap_driver dp <> NONE -> k_isokendpt (fproc s) (dmap_driver dp) = OK ->
      dmap_io dp = gen_io_fn ->
      let code := in_REQUEST s in
      let access := Z.lor (if IOCTL_IOR code then CPF_WRITE else 0)
                          (if IOCTL_IOW code then CPF_READ else 0) in
      let size := if IOCTL_BIG code then IOCTL_SIZE_BIG code else IOCTL_SIZE code in
      let g := k_grant_magic (trace s) (dmap_driver dp) who_e (Caller address)
                 size access in
      let s1 := log (EvGrantMagic (dmap_driver dp) who_e (Caller address)
                       size access g) s in
      let req := safe_request (k_uninit (trace s)) DEV_IOCTL_S dev who_e address
                   who_e code g in
      0 <= g ->
      k_sendrec (trace s1) (dmap_driver dp) req = (OK, rep) ->
      REP_STATUS rep <> SUSPEND ->
      ioctl s = Done (REP_STATUS rep)
                  (log (EvRevoke g) (log (EvSendrec (dmap_driver dp) req OK rep) s1))).
Proof.
  intros Hget Hfl Hino Hrip ioctl.
  assert (Hhead :
            ioctl s
            = (if negb (Z.land (i_mode rip) I_TYPE =? I_CHAR_SPECIAL)
                  && negb (Z.land (i_mode rip) I_TYPE =? I_BLOCK_SPECIAL)
               then ret ENOTTY
               else dev_io DEV_IOCTL (to_dev_t (i_zone0 rip)) who_e address 0
                      (in_REQUEST s) (filp_flags fl)) s).
  { unfold ioctl, do_ioctl.
    rewrite (bind_run _ _ _ _ _ Hget). unfold bind at 1, gets.
    rewrite (bind_run _ _ _ fl s) by (apply index_Some; now rewrite zlookup_of_nat).
    rewrite Hino. unfold bind at 1, gets.
    rewrite (bind_run _ _ _ rip s) by (apply index_Some; now rewrite zlookup_of_nat).
    destruct (negb _ && negb _); reflexivity. }
  split.
  - intros H1 H2. rewrite Hhead. apply Z.eqb_neq in H1, H2. now rewrite H1, H2.
  - intros dp rep Hsp N1 N2 N3 N4 dev Hdp Hb Hok Hio code access size g s1 req Hg Hrep Hst.
    rewrite Hhead.
    replace (negb (Z.land (i_mode rip) I_TYPE =? I_CHAR_SPECIAL)
             && negb (Z.land (i_mode rip) I_TYPE =? I_BLOCK_SPECIAL)) with false.
    2:{ symmetry. destruct Hsp as [-> | ->]; rewrite Z.eqb_refl; cbn [negb andb];
          [reflexivity|apply andb_false_r]. }
    fold dev code.
    rewrite (dev_io_enter _ _ _ _ _ _ _ _ dp Hdp Hb Hok).
    pose proof (conv_ioctl_run KO (dmap_driver dp) who_e (Caller address)
                  (to_vir_bytes code) 0 s N1 N2 N3 N4 Hg) as Hc.
    erewrite bind_run.
    2:{ eapply dev_io_call_gen; [exact Hc|reflexivity|reflexivity|reflexivity|exact Hio|].
        exact Hrep. }
    lazy beta iota.
    erewrite dev_io_reply_plain; [reflexivity|exact Hdp|exact Hb|exact Hst| | |];
      reflexivity.
Qed.

End Ctty.

(** *** Suspended callers and dev_status *)

Section Revive.
Context {K : Consts} {E : Env}.

Lemma find_first {A} (f : A -> bool) (l : list A) (i : nat) (x : A) :
  l !! i = Some x -> f x = true ->
  (forall (j : nat) q, (j < i)%nat -> l !! j = Some q -> f q = false) ->
  find f l = Some x.
Proof.
  revert i. induction l as [|a l IH]; intros i Hi Hx Hlow; [discriminate|].
  destruct i as [|i]; cbn.
  - injection Hi as ->. now rewrite Hx.
  - rewrite (Hlow 0%nat a) by (lia || reflexivity).
    apply (IH i); [exact Hi|exact Hx|].
    intros j q Hj Hq. apply (Hlow (S j) q); [lia|exact Hq].
Qed.

Lemma find_split {A} (f : A -> bool) (l : list A) :
  match find f l with
  | Some x => exists i : nat, l !! i = Some x /\ f x = true
                /\ forall (j : nat) q, (j < i)%nat -> l !! j = Some q -> f q = false
  | None => forall (j : nat) q, l !! j = Some q -> f q = false
  end.
Proof.
  induction l as [|a l IH]; cbn; [intros j q H; discriminate|].
  destruct (f a) eqn:Ha.
  - exists 0%nat. split; [reflexivity|]. split; [exact Ha|]. intros j q Hj. lia.
  - destruct (find f l) as [x|].
    + destruct IH as (i & Hi & Hx & Hlow). exists (S i).
      split; [exact Hi|]. split; [exact Hx|].
      intros [|j] q Hj Hq; [now injection Hq as <-|].
      apply (Hlow j q); [lia|exact Hq].
    + intros [|j] q Hq; [now injection Hq as <-|]. now apply (IH j).
Qed.

(** X17.  [suspended_ep] changes nothing and yields the endpoint of the
    first process in the table that is in use, is suspended on the
    driver and holds the grant; when there is no such process it yields
    NONE. *)
Theorem suspended_ep_first (driver g : Z) (s : state) :
  exists e, suspended_ep driver g s = Done e s /\
    ((e = NONE /\ forall (j : nat) q, fproc s !! j = Some q -> waits_on driver g q = false)
     \/ exists (i : nat) q,
          fproc s !! i = Some q /\ waits_on driver g q = true /\ e = fp_endpoint q
          /\ forall (j : nat) q', (j < i)%nat -> fproc s !! j = Some q' ->
                                  waits_on driver g q' = false).
Proof.
  unfold suspended_ep, bind, gets.
  change (find _ (fproc s)) with (find (waits_on driver g) (fproc s)).
  pose proof (find_split (waits_on driver g) (fproc s)) as H.
  destruct (find (waits_on driver g) (fproc s)) as [q|].
  - destruct H as (i & Hi & Hq & Hlow).
    exists (fp_endpoint q). split; [reflexivity|]. right. exists i, q. auto.
  - exists NONE. split; [reflexivity|]. left. auto.
Qed.

(** The search of [dev_status] stops at the first major of the driver. *)
Lemma find_driver_first (src : Z) (s : state) (n : nat) :
  forall (d j : nat) (dp : dmap_t),
  (d <= j < d + n)%nat -> dmap s !! j = Some dp ->
  dmap_driver dp = src -> src <> NONE ->
  (forall (k : nat) q, (d <= k < j)%nat -> dmap s !! k = Some q -> dmap_driver q <> src) ->
  find_driver n (Z.of_nat d) src s = Done (Z.of_nat j) s.
Proof.
  induction n as [|n IH]; intros d j dp Hj Hdp Hsrc Hne Hlow; [lia|].
  cbn [find_driver].
  destruct (decide (d = j)) as [->|Hdj].
  - rewrite (bind_run _ _ _ dp s) by (apply dmap_at_Some; [lia|now rewrite Nat2Z.id]).
    rewrite Hsrc, Z.eqb_refl. apply Z.eqb_neq in Hne. now rewrite Hne.
  - assert (Hlt : (d < length (dmap s))%nat).
    { apply lookup_lt_Some in Hdp. lia. }
    destruct (lookup_lt_is_Some_2 _ _ Hlt) as (q & Hq).
    rewrite (bind_run _ _ _ q s) by (apply dmap_at_Some; [lia|now rewrite Nat2Z.id]).
    assert (Hqs : dmap_driver q <> src) by (apply (Hlow d q); [lia|exact Hq]).
    apply Z.eqb_neq in Hqs. rewrite Hqs, andb_false_r.
    replace (Z.of_nat d + 1) with (Z.of_nat (S d)) by lia.
    apply (IH (S d) j dp); try assumption; [lia|].
    intros k q' Hk. apply Hlow. lia.
Qed.

Section Poll.
Variables (fuel : nat) (m : message) (s : state) (j : nat) (dp : dmap_t).
Hypothesis Hdp : dmap s !! j = Some dp.
Hypothesis Hsrc : dmap_driver dp = m_source m.
Hypothesis Hne : m_source m <> NONE.
Hypothesis Hj : Z.of_nat j < NR_DEVICES.
Hypothesis Hlow : forall (k : nat) q, (k < j)%nat -> dmap s !! k = Some q ->
                                      dmap_driver q <> m_source m.

Lemma dev_status_enter :
  dev_status (S fuel) m s = status_loop (S fuel) (Z.of_nat j) m (k_uninit (trace s)) s.
Proof.
  unfold dev_status.
  rewrite (bind_run _ _ _ (Z.of_nat j) s).
  2:{ apply (find_driver_first _ _ _ 0%nat j dp); try assumption; [lia|].
      intros k q Hk. apply Hlow. lia. }
  destruct (Z.leb_spec NR_DEVICES (Z.of_nat j)); [lia|].
  reflexivity.
Qed.

End Poll.

(** X18.  The end of the polling: [dev_status] asks a driver that is
    bound to a major for its status, and when the reply is neither
    DEV_REVIVE nor DEV_IO_READY (DEV_NO_STATUS, or a type it does not
    know), or the driver turns out to be dead, it returns after that one
    request, having revived nobody.  Another failure of the request is a
    panic. *)
Theorem dev_status_stops (fuel : nat) (m : message) (s : state) (j : nat) (dp : dmap_t)
    (r : Z) (rep : message) :
  dmap s !! j = Some dp -> dmap_driver dp = m_source m -> m_source m <> NONE ->
  Z.of_nat j < NR_DEVICES ->
  (forall (k : nat) q, (k < j)%nat -> dmap s !! k = Some q ->
                       dmap_driver q <> m_source m) ->
  let st := set_m_type DEV_STATUS (k_uninit (trace s)) in
  k_sendrec (trace s) (m_source m) st = (r, rep) ->
  let s1 := log (EvSendrec (m_source m) st r rep) s in
  (r = OK -> m_type rep <> DEV_REVIVE -> m_type rep <> DEV_IO_READY ->
   dev_status (S fuel) m s = Done tt s1)
  /\ (r <> OK -> r = EDEADSRCDST \/ r = EDSTDIED \/ r = ESRCDIED ->
      dev_status (S fuel) m s = Done tt s1)
  /\ (r <> OK -> r <> EDEADSRCDST -> r <> EDSTDIED -> r <> ESRCDIED ->
      dev_status (S fuel) m s = Abort (Panic "couldn't sendrec for DEV_STATUS") s1).
Proof.
  intros Hdp Hsrc Hne Hj Hlow st Hrep s1.
  rewrite (dev_status_enter fuel m s j dp Hdp Hsrc Hne Hj Hlow).
  split; [|split]; cbn [status_loop]; unfold bind at 1, sendrec; fold st;
    rewrite Hrep; fold s1.
  - intros HOK H1 H2. rewrite HOK, Z.eqb_refl. cbn [negb].
    apply Z.eqb_neq in H1, H2. now rewrite H1, H2.
  - intros H0 Hd. apply Z.eqb_neq in H0. rewrite H0. cbn [negb].
    replace ((r =? EDEADSRCDST) || (r =? EDSTDIED) || (r =? ESRCDIED)) with true;
      [reflexivity|].
    symmetry. destruct Hd as [->|[->| ->]]; rewrite Z.eqb_refl;
      rewrite ?orb_true_r; reflexivity.
  - intros H0 H1 H2 H3. apply Z.eqb_neq in H0, H1, H2, H3.
    now rewrite H0, H1, H2, H3.
Qed.

(** X19.  What a status reply sets off: a DEV_REVIVE that names a
    process revives that process with the status of the reply; a
    DEV_REVIVE that names FS_PROC_NR revives the first process that is
    suspended on the driver and holds the grant of the reply, and nobody
    when there is no such process; a DEV_IO_READY notifies select with
    the first major of the driver.  In every case the polling goes on. *)
Theorem dev_status_revives (fuel : nat) (m : message) (s : state) (j : nat) (dp : dmap_t)
    (rep : message) :
  dmap s !! j = Some dp -> dmap_driver dp = m_source m -> m_source m <> NONE ->
  Z.of_nat j < NR_DEVICES ->
  (forall (k : nat) q, (k < j)%nat -> dmap s !! k = Some q ->
                       dmap_driver q <> m_source m) ->
  DEV_REVIVE <> DEV_IO_READY ->
  let st := set_m_type DEV_STATUS (k_uninit (trace s)) in
  k_sendrec (trace s) (m_source m) st = (OK, rep) ->
  let s1 := log (EvSendrec (m_source m) st OK rep) s in
  let revived e :=
    x_revive e (REP_STATUS rep) (log (EvRevive e (REP_STATUS rep)) s1) in
  let go_on s2 := status_loop fuel (Z.of_nat j) m rep s2 in
  (m_type rep = DEV_REVIVE -> REP_ENDPT rep <> FS_PROC_NR ->
   dev_status (S fuel) m s = go_on (revived (REP_ENDPT rep)))
  /\ (forall (i : nat) q,
      m_type rep = DEV_REVIVE -> REP_ENDPT rep = FS_PROC_NR ->
      fproc s !! i = Some q -> waits_on (m_source m) (REP_IO_GRANT rep) q = true ->
      (forall (k : nat) q', (k < i)%nat -> fproc s !! k = Some q' ->
                            waits_on (m_source m) (REP_IO_GRANT rep) q' = false) ->
      fp_endpoint q <> NONE ->
      dev_status (S fuel) m s = go_on (revived (fp_endpoint q)))
  /\ (m_type rep = DEV_REVIVE -> REP_ENDPT rep = FS_PROC_NR ->
      (forall (k : nat) q, fproc s !! k = Some q ->
                           waits_on (m_source m) (REP_IO_GRANT rep) q = false) ->
      dev_status (S fuel) m s = go_on s1)
  /\ (m_type rep = DEV_IO_READY ->
      dev_status (S fuel) m s
      = go_on (x_select_notified (Z.of_nat j) (DEV_MINOR rep) (DEV_SEL_OPS rep)
                 (log (EvSelectNotified (Z.of_nat j) (DEV_MINOR rep) (DEV_SEL_OPS rep))
                    s1))).
Proof.
  intros Hdp Hsrc Hne Hj Hlow Hri st Hrep s1 revived go_on.
  rewrite (dev_status_enter fuel m s j dp Hdp Hsrc Hne Hj Hlow).
  split; [|split; [|split]]; cbn [status_loop]; unfold bind at 1, sendrec; fold st;
    rewrite Hrep; fold s1; rewrite Z.eqb_refl; cbn [negb].
  - intros Ht Hep. rewrite Ht, Z.eqb_refl. apply Z.eqb_neq in Hep. rewrite Hep.
    reflexivity.
  - intros i q Ht Hep Hq Hw Hfirst Hen. rewrite Ht, Hep, !Z.eqb_refl.
    unfold bind at 1, suspended_ep. unfold bind at 1, gets.
    change (find _ (fproc s1)) with (find (waits_on (m_source m) (REP_IO_GRANT rep)) (fproc s)).
    rewrite (find_first _ _ i q Hq Hw Hfirst). cbn [ret].
    apply Z.eqb_neq in Hen. rewrite Hen. reflexivity.
  - intros Ht Hep Hnone. rewrite Ht, Hep, !Z.eqb_refl.
    unfold bind at 1, suspended_ep. unfold bind at 1, gets.
    change (find _ (fproc s1)) with (find (waits_on (m_source m) (REP_IO_GRANT rep)) (fproc s)).
    pose proof (find_split (waits_on (m_source m) (REP_IO_GRANT rep)) (fproc s)) as Hf.
    destruct (find _ (fproc s)) as [q|].
    + destruct Hf as (i & Hi & Hq & _). rewrite (Hnone i q Hi) in Hq. discriminate.
    + cbn [ret]. now rewrite Z.eqb_refl.
  - intros Ht. rewrite Ht.
    replace (DEV_IO_READY =? DEV_REVIVE) with false
      by (symmetry; apply Z.eqb_neq; congruence).
    rewrite Z.eqb_refl. reflexivity.
Qed.

End Revive.

(** *** Open, close and the restart of a driver *)

Section Restart.
Context {K : Consts} {E : Env}.

(** X20.  Opening and closing a device of a generic driver: [dev_open]
    sends one DEV_OPEN request with the minor device, the process and the
    flags, and returns the status of the reply, except that it panics on
    SUSPEND; [dev_close] sends one DEV_CLOSE request with the minor device,
    process 0 and flags 0, and returns whatever the status is.  Neither
    asks whether the driver's endpoint is still valid. *)
Theorem generic_open_close (fuel : nat) (dev proc flags : Z) (s : state) (dp : dmap_t) :
  0 <= dev < 65536 -> major_of dev < NR_DEVICES ->
  dmap s !! Z.to_nat (major_of dev) = Some dp ->
  dmap_driver dp <> NONE ->
  dmap_opcl dp = gen_opcl_fn -> dmap_io dp = gen_io_fn ->
  let request op p fl :=
    set_COUNT fl (set_IO_ENDPT p (set_DEVICE (minor_of dev)
      (set_m_type op (k_uninit (trace s))))) in
  (forall rep,
     k_sendrec (trace s) (dmap_driver dp) (request DEV_OPEN proc flags) = (OK, rep) ->
     let s1 := log (EvSendrec (dmap_driver dp) (request DEV_OPEN proc flags) OK rep) s in
     dev_open fuel dev proc flags s
     = if REP_STATUS rep =? SUSPEND then Abort (Panic "suspend on open from") s1
       else Done (REP_STATUS rep) s1)
  /\ (forall rep,
     k_sendrec (trace s) (dmap_driver dp) (request DEV_CLOSE 0 0) = (OK, rep) ->
     dev_close fuel dev s
     = Done tt (log (EvSendrec (dmap_driver dp) (request DEV_CLOSE 0 0) OK rep) s)).
Proof.
  intros Hd Hmaj Hdp Hb Hopcl Hio request.
  assert (Hat : dmap_at (major_of dev) s = Done dp s)
    by (apply dmap_at_Some; [apply major_of_nonneg|exact Hdp]).
  pose proof Hb as Hb'. apply Z.eqb_neq in Hb'.
  assert (Hgen : forall op p fl rep,
            k_sendrec (trace s) (dmap_driver dp) (request op p fl) = (OK, rep) ->
            gen_opcl op dev p fl s
            = Done (REP_STATUS rep)
                (log (EvSendrec (dmap_driver dp) (request op p fl) OK rep) s)).
  { intros op p fl rep Hrep. unfold gen_opcl. unfold bind at 1, uninit, gets.
    rewrite (bind_run _ _ _ _ _ Hat). rewrite Hb', Hio. cbn [call_io].
    destruct (gen_io_ok _ _ _ _ Hrep) as (r & Hr). unfold request in Hr.
    now rewrite (bind_run _ _ _ _ _ Hr). }
  split.
  - intros rep Hrep s1. unfold dev_open.
    destruct (Z.leb_spec NR_DEVICES (major_of dev)); [lia|].
    rewrite (bind_run _ _ _ _ _ Hat). rewrite Hb', Hopcl. cbn [call_opcl].
    rewrite (bind_run _ _ _ _ _ (Hgen _ _ _ _ Hrep)).
    now destruct (REP_STATUS rep =? SUSPEND).
  - intros rep Hrep. unfold dev_close. rewrite shiftr_major by exact Hd.
    rewrite (bind_run _ _ _ _ _ Hat). rewrite Hb'.
    rewrite (bind_run _ _ _ _ _ Hat). rewrite Hopcl. cbn [call_opcl].
    now rewrite (bind_run _ _ _ _ _ (Hgen _ _ _ _ Hrep)).
Qed.

(** One round of the wait for a new driver. *)
Lemma rs_wait_round (fuel : nat) (major : Z) (s : state) (r1 : Z) (m1 : message) :
  k_receive (trace s) RS_PROC_NR = (r1, m1) ->
  let s3 := log (EvReceive RS_PROC_NR r1 m1) s in
  (r1 <> OK ->
   rs_wait (S fuel) major s = Abort (Panic "dev_bio: unable to receive from RS") s3)
  /\ (r1 = OK -> m_type m1 <> DEVCTL ->
      rs_wait (S fuel) major s = Abort (Panic "dev_bio: got message from RS, type") s3)
  /\ (forall r2 s4,
      r1 = OK -> m_type m1 = DEVCTL ->
      x_fs_devctl (ctl_req m1) (dev_nr m1) (driver_nr m1) (dev_style m1) (m_force m1)
        (log (EvDevctl (ctl_req m1) (dev_nr m1) (driver_nr m1) (dev_style m1)
                (m_force m1)) s3)
      = (r2, s4) ->
      let answer := set_m_type r2 m1 in
      let s5 := log (EvSend RS_PROC_NR answer (k_send (trace s4) RS_PROC_NR answer)) s4 in
      (k_send (trace s4) RS_PROC_NR answer <> OK ->
       rs_wait (S fuel) major s = Abort (Panic "dev_bio: unable to send to RS") s5)
      /\ (forall dp4,
          k_send (trace s4) RS_PROC_NR answer = OK ->
          dmap s4 !! Z.to_nat major = Some dp4 -> dmap_driver dp4 <> NONE ->
          0 <= major ->
          rs_wait (S fuel) major s = Done answer s5)).
Proof.
  intros Hrecv s3.
  assert (Hhead : rs_wait (S fuel) major s
            = (if negb (r1 =? OK) then panic "dev_bio: unable to receive from RS"
               else
                 let* r :=
                   if m_type m1 =? DEVCTL then
                     fs_devctl (ctl_req m1) (dev_nr m1) (driver_nr m1) (dev_style m1)
                       (m_force m1)
                   else panic "dev_bio: got message from RS, type" in
                 let m := set_m_type r m1 in
                 let* r := send RS_PROC_NR m in
                 if negb (r =? OK) then panic "dev_bio: unable to send to RS"
                 else
                   let* dp := dmap_at major in
                   if negb (dmap_driver dp =? NONE) then ret m
                   else rs_wait fuel major) s3).
  { cbn [rs_wait]. unfold bind at 1, receive. now rewrite Hrecv. }
  rewrite Hhead. clear Hhead.
  split; [|split].
  - intros H1. apply Z.eqb_neq in H1. now rewrite H1.
  - intros H1 H2. rewrite H1, Z.eqb_refl. cbn [negb].
    apply Z.eqb_neq in H2. now rewrite H2.
  - intros r2 s4 H1 H2 Hctl answer s5.
    rewrite H1, H2, !Z.eqb_refl. cbn [negb].
    split; [|intros dp4]; unfold bind at 1, fs_devctl; rewrite Hctl; fold answer;
      unfold bind at 1, send; fold s5.
    + intros H3. apply Z.eqb_neq in H3. now rewrite H3.
    + intros H3 Hdp4 Hb4 Hmaj. rewrite H3, Z.eqb_refl. cbn [negb].
      rewrite (bind_run _ _ _ dp4 s5) by (apply dmap_at_Some; [exact Hmaj|exact Hdp4]).
      apply Z.eqb_neq in Hb4. now rewrite Hb4.
Qed.

(** X21.  The driver dies under a block transfer: [dev_bio] revokes the
    grants of the failed call, then serves the reincarnation server: it
    receives a message, which must be a DEVCTL, hands it to [fs_devctl]
    and sends the result back; when the major has a driver again, it
    issues the same request once more, with the position that the
    conversion left.  It panics when the receive or the send fails, or
    when the message is no DEVCTL. *)
Theorem dev_bio_restart (KO : ConstsOk K) (fuel : nat)
    (op dev buf pos bytes : Z) (s : state) (dp : dmap_t)
    (c : conv) (s1 : state) (r : Z) (rep : message) :
  dmap s !! Z.to_nat (major_of dev) = Some dp ->
  dmap_driver dp <> NONE -> dmap_io dp = gen_io_fn ->
  safe_io_conversion (dmap_driver dp) op FS_PROC_NR (Caller buf) (to_vir_bytes bytes) pos s
    = Done c s1 ->
  c_safe c = true ->
  let req := safe_request (k_uninit (trace s)) (c_op c) dev FS_PROC_NR buf (c_pos c)
               bytes (c_gid c) in
  k_sendrec (trace s1) (dmap_driver dp) req = (r, rep) ->
  r <> OK -> r = EDEADSRCDST \/ r = EDSTDIED \/ r = ESRCDIED ->
  let s2 := logs (map EvRevoke (c_gid c :: c_gids c))
              (set_dmap (unmapped (dmap_driver dp) (dmap s1))
                 (log (EvSendrec (dmap_driver dp) req r rep) s1)) in
  forall r1 m1,
  k_receive (trace s2) RS_PROC_NR = (r1, m1) ->
  let s3 := log (EvReceive RS_PROC_NR r1 m1) s2 in
  (r1 <> OK ->
   dev_bio (S (S fuel)) op dev FS_PROC_NR buf pos bytes s
   = Abort (Panic "dev_bio: unable to receive from RS") s3)
  /\ (r1 = OK -> m_type m1 <> DEVCTL ->
      dev_bio (S (S fuel)) op dev FS_PROC_NR buf pos bytes s
      = Abort (Panic "dev_bio: got message from RS, type") s3)
  /\ (forall r2 s4 dp4,
      r1 = OK -> m_type m1 = DEVCTL ->
      x_fs_devctl (ctl_req m1) (dev_nr m1) (driver_nr m1) (dev_style m1) (m_force m1)
        (log (EvDevctl (ctl_req m1) (dev_nr m1) (driver_nr m1) (dev_style m1)
                (m_force m1)) s3)
      = (r2, s4) ->
      let answer := set_m_type r2 m1 in
      let s5 := log (EvSend RS_PROC_NR answer (k_send (trace s4) RS_PROC_NR answer)) s4 in
      (k_send (trace s4) RS_PROC_NR answer <> OK ->
       dev_bio (S (S fuel)) op dev FS_PROC_NR buf pos bytes s
       = Abort (Panic "dev_bio: unable to send to RS") s5)
      /\ (k_send (trace s4) RS_PROC_NR answer = OK ->
          dmap s4 !! Z.to_nat (major_of dev) = Some dp4 -> dmap_driver dp4 <> NONE ->
          dev_bio (S (S fuel)) op dev FS_PROC_NR buf pos bytes s
          = dev_bio_loop (S fuel) op dev FS_PROC_NR buf (c_pos c) bytes answer s5)).
Proof.
  intros Hdp Hb Hio Hc Hsafe req Hrep Hne Hdead s2 r1 m1 Hrecv s3.
  pose proof (safe_io_conversion_spec KO (dmap_driver dp) op FS_PROC_NR (Caller buf)
                (to_vir_bytes bytes) pos s) as Hspec.
  rewrite Hc in Hspec. destruct Hspec as ([_ Hd _] & Hvec & _ & _).
  pose proof (conversion_io_ept _ _ _ _ _ _ _ _ _ Hc) as Hept. rewrite Hsafe in Hept.
  assert (Hat : dmap_at (major_of dev) s = Done dp s)
    by (apply dmap_at_Some; [apply major_of_nonneg|exact Hdp]).
  pose proof Hb as Hb'. apply Z.eqb_neq in Hb'.
  assert (Hcall : dev_bio_call dp op dev FS_PROC_NR buf pos bytes (k_uninit (trace s)) s
                  = Done (c, rep) s2).
  { unfold dev_bio_call. cbn [IO_ENDPT set_ADDRESS set_IO_ENDPT].
    rewrite (bind_run _ _ _ _ _ Hc). rewrite Hsafe, Hept, Hio. cbn [call_io].
    pose proof (gen_io_dead (dmap_driver dp) req s1 r rep Hrep Hne Hdead) as Hr.
    unfold req, safe_request in Hr.
    rewrite (bind_run _ _ _ _ _ Hr). lazy beta iota.
    rewrite Hvec. unfold bind. now rewrite safe_io_cleanup_spec. }
  assert (Hat2 : dmap_at (major_of dev) s2
                 = Done {| dmap_opcl := no_dev_fn; dmap_io := no_dev_io_fn;
                           dmap_driver := NONE |} s2).
  { apply dmap_at_Some; [apply major_of_nonneg|].
    unfold s2. rewrite dmap_logs. cbn [dmap set_dmap log].
    rewrite (unmapped_lookup _ _ _ dp) by (now rewrite Hd).
    now rewrite Z.eqb_refl. }
  assert (Hhead : dev_bio (S (S fuel)) op dev FS_PROC_NR buf pos bytes s
                  = (let* m := rs_wait (S fuel) (major_of dev) in
                     dev_bio_loop (S fuel) op dev FS_PROC_NR buf (c_pos c) bytes m) s2).
  { unfold dev_bio. rewrite Z.eqb_refl. cbn [negb].
    unfold bind at 1, uninit, gets.
    change (dev_bio_loop (S (S fuel)) op dev FS_PROC_NR buf pos bytes (k_uninit (trace s)) s)
      with ((let* dp := dmap_at (major_of dev) in
             if dmap_driver dp =? NONE then ret ENXIO
             else
               let* (c, m) := dev_bio_call dp op dev FS_PROC_NR buf pos bytes
                                (k_uninit (trace s)) in
               let pos := c_pos c in
               let* dp := dmap_at (major_of dev) in
               if dmap_driver dp =? NONE then
                 let* m := rs_wait (S fuel) (major_of dev) in
                 dev_bio_loop (S fuel) op dev FS_PROC_NR buf pos bytes m
               else if REP_STATUS m =? SUSPEND then
                 panic "dev_bio: driver returned SUSPEND"
               else
                 (if negb (bufptr_eqb (Caller buf) (c_buf c)) then
                    memcpy (Caller buf) (c_buf c) (to_vir_bytes (bytes * SIZEOF_IOVEC))
                  else ret tt) ;;
                 ret (REP_STATUS m)) s).
    rewrite (bind_run _ _ _ _ _ Hat). rewrite Hb'.
    rewrite (bind_run _ _ _ _ _ Hcall). lazy beta iota zeta.
    rewrite (bind_run _ _ _ _ _ Hat2). cbn [dmap_driver]. now rewrite Z.eqb_refl. }
  rewrite Hhead. clear Hhead.
  destruct (rs_wait_round fuel (major_of dev) s2 r1 m1 Hrecv) as (R1 & R2 & R3).
  split; [|split].
  - intros H1. apply bind_stop. now apply R1.
  - intros H1 H2. apply bind_stop. now apply R2.
  - intros r2 s4 dp4 H1 H2 Hctl answer s5.
    destruct (R3 r2 s4 H1 H2 Hctl) as (R4 & R5).
    split.
    + intros H3. apply bind_stop. now apply R4.
    + intros H3 Hdp4 Hb4.
      now rewrite (bind_run _ _ _ _ _ (R5 dp4 H3 Hdp4 Hb4 (major_of_nonneg dev))).
Qed.

End Restart.

(** *** [clone_opcl] without a new minor *)

Section Plain.
Context {K : Consts} {E : Env}.

(** X22.  An open or a close through [clone_opcl] that does not clone:
    when the I/O routine does not return OK, [clone_opcl] returns its
    result (unlike [dev_io] and [gen_opcl], which do not look at it); when
    the operation is not DEV_OPEN or the status of the reply is negative,
    it returns that status; when the status of an open is the minor that
    was asked for, it returns OK.  In all these cases no inode is
    allocated and no descriptor is bound anew: the filp, inode and process
    tables are as before the call. *)
Theorem clone_opcl_no_clone (fuel : nat) (op dev proc_e flags : Z) (s : state)
    (dp : dmap_t) (r : Z) (m1 : message) (s1 : state) :
  dmap s !! Z.to_nat (major_of dev) = Some dp ->
  dmap_driver dp <> NONE -> k_isokendpt (fproc s) (dmap_driver dp) = OK ->
  let request := set_COUNT flags (set_IO_ENDPT proc_e (set_DEVICE (minor_of dev)
                   (set_m_type op (k_uninit (trace s))))) in
  call_io (dmap_io dp) (dmap_driver dp) request s = Done (r, m1) s1 ->
  r <> OK \/ op <> DEV_OPEN \/ REP_STATUS m1 < 0 \/ REP_STATUS m1 = minor_of dev ->
  clone_opcl (S fuel) op dev proc_e flags s
  = Done (if negb (r =? OK) then r
          else if (op =? DEV_OPEN) && (0 <=? REP_STATUS m1) then OK
          else REP_STATUS m1) s1
  /\ filp s1 = filp s /\ inode s1 = inode s /\ fproc s1 = fproc s.
Proof.
  intros Hdp Hb Hok request Hio Hcase.
  split.
  - cbn [clone_opcl]. unfold bind at 1, uninit, gets.
    rewrite (bind_run _ _ _ dp s) by (apply dmap_at_Some; [apply major_of_nonneg|exact Hdp]).
    apply Z.eqb_neq in Hb. rewrite Hb.
    unfold bind at 1, isokendpt, gets. rewrite Hok, Z.eqb_refl. cbn [negb].
    fold request. rewrite (bind_run _ _ _ _ _ Hio). lazy beta iota.
    destruct (Z.eqb_spec r OK) as [Hr|Hr]; cbn [negb]; [|reflexivity].
    destruct Hcase as [H|[H|[H|H]]].
    + contradiction.
    + apply Z.eqb_neq in H. rewrite H. reflexivity.
    + destruct (Z.leb_spec 0 (REP_STATUS m1)); [lia|]. now rewrite andb_false_r.
    + destruct ((op =? DEV_OPEN) && (0 <=? REP_STATUS m1)); [|reflexivity].
      rewrite H, Z.eqb_refl. reflexivity.
  - destruct (post_Done _ _ _ _ _ (io_frame_call_io _ _ _) Hio) as [[] _ _]. auto.
Qed.

End Plain.

(** ** The properties on the concrete system *)

Import Scenario.

Lemma minix3_ok : ConstsOk minix3.
Proof.
  split; cbn; lia.
Qed.

(** The scenarios of the specification: a plain read, a non-blocking read
    that the driver would suspend, a blocking read, a clone open, and
    vectored block I/O. *)
Example plain_read :
  summary (@dev_io minix3 (scripted [512] None []) 1027 769 17 4096 0 512 0
             (state0 (proc 0 0) dmap0))
  = (Some 512, [7], [7]).
Proof. vm_compute. reflexivity. Qed.

Example nonblocking_read :
  summary (@dev_io minix3 (scripted [-998; -4] None []) 1027 769 17 4096 0 512 2048
             (state0 (proc 0 0) dmap0))
  = (Some (-11), [7], [7]).
Proof. vm_compute. reflexivity. Qed.

Example blocking_read :
  summary (@dev_io minix3 (scripted [-998] None []) 1027 769 17 4096 0 512 0
             (state0 (proc 0 0) dmap0))
  = (Some (-998), [7], []).
Proof. vm_compute. reflexivity. Qed.

Example clone_open :
  summary (@dev_open minix3 (scripted [7] None []) 2 1280 17 6
             (state0 (proc 0 0) dmap0))
  = (Some 0, [], []).
Proof. vm_compute. reflexivity. Qed.

Example block_gather :
  summary (@dev_bio minix3 (scripted [4096] None []) 1 1032 769 1 4096 0 2
             (state0 (proc 0 0) dmap0))
  = (Some 4096, [7; 7; 7], [7; 7; 7]).
Proof. vm_compute. reflexivity. Qed.

(** The driver dies during a block read and is replaced: the read is
    issued again, and each of the two calls has its grant revoked. *)
Example block_read_restart :
  summary (@dev_bio minix3 restarting 3 1027 769 1 4096 0 4096
             (state0 (proc 0 0) dmap0))
  = (Some 4096, [7; 7], [7; 7]).
Proof. vm_compute. reflexivity. Qed.

(** A gather of two elements through [dev_io] at the address of the
    server's own vector: the request goes to the driver, and the three
    grants are revoked when it returns. *)
Example gather_at_new_iovec :
  summary (@dev_io minix3 gathering 1032 769 1 20480 0 2 2048
             (state0 (proc 0 0) dmap0))
  = (Some 77, [7; 8; 9], [7; 8; 9]).
Proof. vm_compute. reflexivity. Qed.

(** A gather of two elements: the grants and the server's vector. *)
Example gather_vector :
  let s' := final (@safe_io_conversion minix3 gathering 40 1032 1 (Caller 4096) 2 0
                     (state0 (proc 0 0) dmap0)) in
  trace s' = [EvGrantDirect 40 NewIovec 16 3 7;
              EvGrantDirect 40 (Caller 8192) 512 2 8;
              EvGrantDirect 40 (Caller 9216) 513 2 9]
  /\ take 3 (new_iovec s') = [(8, 512); (9, 513); (0, 0)].
Proof. vm_compute. split; reflexivity. Qed.

(** A non-blocking read that the driver suspends and whose CANCEL cannot
    be delivered: the message is as [dev_io] sent it, and what is returned
    is the I/O endpoint, that of the file server. *)
Example nonblocking_read_undelivered :
  summary (@dev_io minix3 (locked [-998]) 1027 769 17 4096 0 512 2048
             (state0 (proc 0 0) dmap0))
  = (Some 1, [7], [7]).
Proof. vm_compute. reflexivity. Qed.

(** An open of the terminal (4,0) for endpoint 1 that cannot be delivered:
    [gen_opcl] returns the endpoint, and the terminal becomes the
    controlling terminal of the caller, which is no session leader. *)
Example tty_open_undelivered :
  let o := @tty_opcl minix3 (locked []) 1030 1024 1 6 (state0 (proc 0 0) dmap0) in
  o = Done 0 (final o) /\ map fp_tty (fproc (final o)) = [1024].
Proof. vm_compute. split; reflexivity. Qed.

(** C1 on a gather of two elements at the address of the server's own
    vector: three grants are minted, and the same three are revoked. *)
Lemma dev_io_revokes_grants_witness :
  let s := state0 (proc 0 0) dmap0 in
  let o := @dev_io minix3 gathering 1032 769 1 20480 0 2 2048 s in
  o = Done 77 (final o)
  /\ exists t, trace (final o) = trace s ++ t
               /\ minted t = [7; 8; 9] /\ revoked t = [7; 8; 9].
Proof.
  intros s o.
  assert (Hrun : o = Done 77 (final o)) by (vm_compute; reflexivity).
  split; [exact Hrun|].
  destruct (@dev_io_revokes_grants minix3 gathering minix3_ok _ _ _ _ _ _ _ _ _ _ Hrun)
    as (t & Ht & H).
  exists t. split; [exact Ht|].
  assert (Hm : minted t = [7; 8; 9]).
  { change (trace s) with (@nil event) in Ht. cbn [app] in Ht.
    rewrite <- Ht. vm_compute. reflexivity. }
  split; [exact Hm|].
  destruct H as (dp & c & ioproc & m1 & s1 & dp1 & _ & _ & _ & _ & _ & Hrev).
  { rewrite Hm. discriminate. }
  rewrite <- Hm. apply Hrev. intros (_ & _ & Hnb). vm_compute in Hnb. discriminate.
Defined.

(** C2 on a block read for endpoint 17, which is not the file server. *)
Lemma dev_bio_never_suspends_witness :
  17 <> @FS_PROC_NR minix3
  /\ @dev_bio minix3 (scripted [] None []) 1 1027 769 17 4096 0 512 (state0 (proc 0 0) dmap0)
     = Abort (Panic "doing dev_bio for non-self") (state0 (proc 0 0) dmap0).
Proof.
  assert (H : 17 <> @FS_PROC_NR minix3) by (cbn; lia).
  split; [exact H|].
  exact (proj1 (@dev_bio_never_suspends minix3 (scripted [] None []) minix3_ok)
           1%nat 1027 769 17 4096 0 512 (state0 (proc 0 0) dmap0) H).
Defined.

(** C3 on a non-blocking read: the driver answers SUSPEND, then EINTR to
    the CANCEL. *)
Lemma dev_io_nonblocking_cancel_witness :
  let E := scripted [-998; -4] None [] in
  let s := state0 (proc 0 0) dmap0 in
  let dp := {| dmap_opcl := gen_opcl_fn; dmap_io := gen_io_fn; dmap_driver := 40 |} in
  exists c ioproc m1 s1 m2,
    @dev_io_call minix3 E dp 1027 769 17 4096 0 512 s = Done (c, ioproc, m1) s1
    /\ REP_STATUS m1 = @SUSPEND minix3
    /\ Z.land 2048 (@O_NONBLOCK minix3) <> 0
    /\ @k_sendrec E (trace s1) 40 (@cancel_mess minix3 3 769 ioproc (c_gid c) m1)
       = (@OK minix3, m2)
    /\ REP_STATUS m2 = @EINTR minix3
    /\ @dev_io minix3 E 1027 769 17 4096 0 512 2048 s
       = Done (@EAGAIN minix3)
           (log (EvRevoke (c_gid c))
              (log (EvSendrec 40 (@cancel_mess minix3 3 769 ioproc (c_gid c) m1)
                      (@OK minix3) m2) s1)).
Proof.
  intros E s dp. eexists _, _, _, _, _.
  split; [vm_compute; reflexivity|].
  split; [reflexivity|].
  split; [vm_compute; discriminate|].
  split; [vm_compute; reflexivity|].
  split; [reflexivity|].
  etransitivity.
  - refine (proj1 (proj2 (proj2 (proj2 (proj2
      (@dev_io_nonblocking_cancel minix3 E minix3_ok 1027 769 17 4096 0 512 2048
         s dp _ _ _ _ _ _ _ _ _ _ _ _ _))))) _ _ _ _).
    + reflexivity.
    + cbn; lia.
    + reflexivity.
    + cbn; lia.
    + cbn; lia.
    + vm_compute; reflexivity.
    + eexists. split; [vm_compute; reflexivity|cbn; lia].
    + reflexivity.
    + vm_compute; discriminate.
    + cbn; discriminate.
    + reflexivity.
    + vm_compute; reflexivity.
  - vm_compute. reflexivity.
Defined.

(** Against C3 as stated: a non-blocking read on device (3,1); the driver
    answers the request with SUSPEND and the CANCEL with SUSPEND again,
    and [dev_io] returns SUSPEND. *)
Lemma dev_io_nonblocking_can_return_suspend :
  let E := scripted [-998; -998] None [] in
  let s := state0 (proc 0 0) dmap0 in
  let dp := {| dmap_opcl := gen_opcl_fn; dmap_io := gen_io_fn; dmap_driver := 40 |} in
  dmap s !! Z.to_nat (major_of 769) = Some dp
  /\ (exists c ioproc m1 s1,
         @dev_io_call minix3 E dp 1027 769 17 4096 0 512 s = Done (c, ioproc, m1) s1
         /\ REP_STATUS m1 = @SUSPEND minix3)
  /\ Z.land 2048 (@O_NONBLOCK minix3) <> 0
  /\ exists s', @dev_io minix3 E 1027 769 17 4096 0 512 2048 s
                = Done (@SUSPEND minix3) s'.
Proof.
  intros E s dp. split; [reflexivity|]. split; [|split].
  - eexists _, _, _, _. split; [vm_compute; reflexivity|reflexivity].
  - vm_compute; discriminate.
  - eexists. vm_compute. reflexivity.
Qed.



(** C5 on the clone open of device (5,0) that the driver answers with the
    new minor 7: inode 1 is bound to device (5,7). *)
Lemma clone_opcl_new_minor_witness :
  let E := scripted [7] None [] in
  let s := state0 (proc 0 0) dmap0 in
  let dp := {| dmap_opcl := clone_opcl_fn; dmap_io := gen_io_fn; dmap_driver := 40 |} in
  dmap s !! Z.to_nat (major_of 1280) = Some dp
  /\ (exists m1 s1,
         @call_io minix3 E gen_io_fn 40
           (set_COUNT 6 (set_IO_ENDPT 17 (set_DEVICE (minor_of 1280)
              (set_m_type 1030 (k_uninit (trace s)))))) s = Done (0, m1) s1
         /\ REP_STATUS m1 = 7)
  /\ exists s' x,
       @clone_opcl minix3 E 1 1030 1280 17 6 s = Done 0 s'
       /\ inode s' !! 1%nat = Some x /\ i_zone0 x = 1287.
Proof.
  intros E s dp. split; [reflexivity|]. split.
  - eexists _, _. split; [vm_compute; reflexivity|reflexivity].
  - destruct (@clone_opcl_new_minor minix3 E minix3_ok 0%nat 1280 17 6 s dp
                (reply_to (set_IO_ENDPT 17 msg0) 7)
                (final (@call_io minix3 E gen_io_fn 40
                   (set_COUNT 6 (set_IO_ENDPT 17 (set_DEVICE (minor_of 1280)
                      (set_m_type 1030 (k_uninit (trace s)))))) s)))
      as (_ & _ & Hs & _).
    + reflexivity.
    + cbn; lia.
    + reflexivity.
    + vm_compute; reflexivity.
    + cbn; lia.
    + vm_compute; discriminate.
    + destruct (Hs 1%nat 0%nat (proc 0 0) 0%nat
                  {| filp_count := 1; filp_flags := 0; filp_ino := Some 0%nat |})
        as (s' & Hrun & _ & (x & Hx & Hz & _) & _).
      * reflexivity.
      * reflexivity.
      * reflexivity.
      * reflexivity.
      * reflexivity.
      * reflexivity.
      * intros o [= <-]. eexists. reflexivity.
      * exists s', x. split; [exact Hrun|]. split; [exact Hx|exact Hz].
Defined.

(** Against C5 as stated: the clone open of device (5,0) is answered with
    status 512; the new inode is bound to device (7,0), another major. *)
Lemma clone_opcl_wide_minor :
  let E := scripted [512] None [] in
  let s := state0 (proc 0 0) dmap0 in
  (exists m1 s1,
      @call_io minix3 E gen_io_fn 40
        (set_COUNT 6 (set_IO_ENDPT 17 (set_DEVICE (minor_of 1280)
           (set_m_type 1030 (k_uninit (trace s)))))) s = Done (0, m1) s1
      /\ REP_STATUS m1 = 512 /\ 0 <= REP_STATUS m1 /\ REP_STATUS m1 <> minor_of 1280)
  /\ major_of 1280 = 5
  /\ exists s' x,
       @clone_opcl minix3 E 2 1030 1280 17 6 s = Done 0 s'
       /\ inode s' !! 1%nat = Some x
       /\ major_of (i_zone0 x) = 7 /\ minor_of (i_zone0 x) = 0.
Proof.
  intros E s. split; [|split; [reflexivity|]].
  - eexists _, _. split; [vm_compute; reflexivity|].
    split; [reflexivity|]. split; [cbn; lia|vm_compute; discriminate].
  - eexists _, _. split; [vm_compute; reflexivity|].
    split; [reflexivity|]. split; reflexivity.
Qed.

(** C6 on a read of 512 bytes at address 4096 of endpoint 17. *)
Lemma safe_io_conversion_read_write_witness :
  let E := scripted [] None [] in
  let s := state0 (proc 0 0) dmap0 in
  (1027 = @DEV_READ minix3 \/ 1027 = @DEV_WRITE minix3)
  /\ @safe_io_conversion minix3 E 40 1027 17 (Caller 4096) 512 0 s
     = Done {| c_safe := true; c_gid := 7; c_op := 1045; c_gids := [];
               c_io_ept := 1; c_buf := Caller 4096; c_vec_grants := 0;
               c_pos := 0 |}
         (log (EvGrantMagic 40 17 (Caller 4096) 512 2 7) s).
Proof.
  intros E s.
  assert (H : 1027 = @DEV_READ minix3 \/ 1027 = @DEV_WRITE minix3) by (left; reflexivity).
  split; [exact H|].
  exact (@safe_io_conversion_read_write minix3 E minix3_ok 40 1027 17 (Caller 4096) 512 0 s H).
Defined.

(** C7 on the open of device (200,0). *)
Lemma dev_open_out_of_range_witness :
  let E := scripted [] None [] in
  let s := state0 (proc 0 0) dmap0 in
  @NR_DEVICES minix3 <= major_of 51200
  /\ dmap s !! 0%nat = Some absent
  /\ @dev_open minix3 E 1 51200 17 6 s = Done (@ENXIO minix3) s.
Proof.
  intros E s.
  assert (H : @NR_DEVICES minix3 <= major_of 51200) by (vm_compute; discriminate).
  split; [exact H|]. split; [reflexivity|].
  exact (@dev_open_out_of_range minix3 E minix3_ok 1%nat 51200 17 6 s absent
           H eq_refl (or_introl eq_refl)).
Defined.

(** C8 on a caller without a controlling terminal. *)
Lemma ctty_policy_witness :
  let E := scripted [] None [] in
  let s := state0 (proc 0 0) dmap0 in
  fp s = Some 0%nat /\ fproc s !! 0%nat = Some (proc 0 0)
  /\ @ctty_opcl minix3 1030 1536 17 6 s = Done (@ENXIO minix3) s
  /\ @ctty_io minix3 E 40 msg0 s = Done (@OK minix3, set_REP_STATUS (@EIO minix3) msg0) s.
Proof.
  intros E s. split; [reflexivity|]. split; [reflexivity|].
  pose proof (@ctty_policy minix3 E s 0%nat (proc 0 0) eq_refl eq_refl) as (H1 & H2 & _).
  split; [exact (H1 1030 1536 17 6)|exact (H2 40 msg0 eq_refl)].
Defined.

(** Against C8 as stated: the caller's controlling terminal is (4,2), and
    the endpoint of the driver of major 4 is stale; [ctty_io] returns EIO
    and sends nothing, where passing the message on to the I/O routine of
    major 4 sends a request. *)
Lemma ctty_io_stale_driver :
  let E := scripted [] None [40] in
  let s := state0 (proc 1 1026) dmap0 in
  let dp := {| dmap_opcl := tty_opcl_fn; dmap_io := gen_io_fn; dmap_driver := 40 |} in
  fp_tty (proc 1 1026) <> 0
  /\ dmap s !! Z.to_nat (major_of 1026) = Some dp
  /\ @ctty_io minix3 E 40 msg0 s = Done (@EIO minix3, set_DEVICE 2 msg0) s
  /\ @ctty_io minix3 E 40 msg0 s <> @ctty_redispatch minix3 E dp 1026 msg0 s.
Proof.
  intros E s dp. split; [cbn; lia|]. split; [reflexivity|].
  split; [vm_compute; reflexivity|].
  intros H. vm_compute in H. discriminate.
Qed.

(** C9 on a DEV_GATHER of two entries on device (3,1), at a buffer that
    is not the server's own vector. *)
Lemma dev_io_vectored_panics_witness :
  let E := scripted [] None [] in
  let s := state0 (proc 0 0) dmap0 in
  let dp := {| dmap_opcl := gen_opcl_fn; dmap_io := gen_io_fn; dmap_driver := 40 |} in
  (1032 = @DEV_GATHER minix3 \/ 1032 = @DEV_SCATTER minix3)
  /\ 4096 <> @IOVEC_ADDR minix3
  /\ dmap s !! Z.to_nat (major_of 769) = Some dp
  /\ exists msg s',
       @dev_io minix3 E 1032 769 17 4096 0 2 0 s = Abort (Panic msg) s'
       /\ grows_by is_grant s s'.
Proof.
  intros E s dp.
  assert (H : 1032 = @DEV_GATHER minix3 \/ 1032 = @DEV_SCATTER minix3) by (left; reflexivity).
  assert (Hb : 4096 <> @IOVEC_ADDR minix3) by (cbn; lia).
  split; [exact H|]. split; [exact Hb|]. split; [reflexivity|].
  destruct (@dev_io_vectored_panics minix3 E minix3_ok 1032 769 17 4096 0 2 0 s dp H Hb
              eq_refl)
    as (msg & s' & Hrun & _ & _ & Hg).
  - cbn; lia.
  - reflexivity.
  - exists msg, s'. split; [exact Hrun|exact Hg].
Defined.

(** Against C9 as stated: a DEV_GATHER of two entries through [dev_io] on
    device (3,1), whose driver 40 is bound and alive, with the address of
    the server's own vector as the buffer.  The buffer that the conversion
    hands back is the one that was passed, so there is no panic: the
    DEV_GATHER_S request is sent to the driver, and [dev_io] returns the
    status of the reply. *)
Lemma dev_io_vectored_dispatches :
  let E := gathering in
  let s := state0 (proc 0 0) dmap0 in
  let dp := {| dmap_opcl := gen_opcl_fn; dmap_io := gen_io_fn; dmap_driver := 40 |} in
  1032 = @DEV_GATHER minix3
  /\ 20480 = @IOVEC_ADDR minix3
  /\ dmap s !! Z.to_nat (major_of 769) = Some dp
  /\ dmap_driver dp <> @NONE minix3
  /\ @k_isokendpt E (fproc s) (dmap_driver dp) = @OK minix3
  /\ exists s' req rep,
       @dev_io minix3 E 1032 769 1 20480 0 2 0 s = Done 77 s'
       /\ In (EvSendrec 40 req 0 rep) (trace s')
       /\ m_type req = @DEV_GATHER_S minix3
       /\ REP_STATUS rep = 77.
Proof.
  intros E s dp. split; [reflexivity|]. split; [reflexivity|]. split; [reflexivity|].
  split; [cbn; lia|]. split; [reflexivity|].
  eexists _, _, _. split; [vm_compute; reflexivity|].
  split.
  { cbn [trace]. do 3 right. left. reflexivity. }
  split; reflexivity.
Qed.

(** C10 on a message from endpoint 99, which drives no major. *)
Lemma dev_status_stranger_witness :
  let E := scripted [] None [] in
  let s := state0 (proc 0 0) dmap0 in
  Z.of_nat (length (dmap s)) = @NR_DEVICES minix3
  /\ @dev_status minix3 E 3 (msg_from 99) s = Done tt s.
Proof.
  intros E s.
  assert (Hlen : Z.of_nat (length (dmap s)) = @NR_DEVICES minix3) by reflexivity.
  split; [exact Hlen|].
  apply (@dev_status_stranger minix3 E 3%nat (msg_from 99) s Hlen).
  assert (Hall : Forall (fun dp => dmap_driver dp = @NONE minix3
                                   \/ dmap_driver dp <> m_source (msg_from 99)) (dmap s)).
  { repeat (constructor; [cbn; lia|]). constructor. }
  intros i dp Hi. exact (proj1 (Forall_lookup _ _) Hall i dp Hi).
Defined.

(** *** The further properties on the concrete system *)

(** X1 on the read of 512 bytes from device (3,1), answered with 512. *)
Lemma dev_io_transfer_witness :
  let E := scripted [512] None [] in
  let s := state0 (proc 0 0) dmap0 in
  (1027 = @DEV_READ minix3 \/ 1027 = @DEV_WRITE minix3)
  /\ exists r s', @dev_io minix3 E 1027 769 17 4096 0 512 0 s = Done r s'
                  /\ r = 512 /\ revoked (trace s') = [7].
Proof.
  intros E s.
  assert (H : 1027 = @DEV_READ minix3 \/ 1027 = @DEV_WRITE minix3) by (left; reflexivity).
  split; [exact H|]. eexists _, _. split.
  - eapply (@dev_io_transfer minix3 E minix3_ok 1027 769 17 4096 0 512 0 s _ _ H).
    + reflexivity.
    + cbn; lia.
    + reflexivity.
    + reflexivity.
    + cbn; lia.
    + vm_compute; reflexivity.
    + vm_compute; discriminate.
  - split; reflexivity.
Defined.

(** X2 on a read from device (3,1) whose driver dies in the call. *)
Lemma dev_io_driver_died_witness :
  let s := state0 (proc 0 0) dmap0 in
  exists s', @dev_io minix3 restarting 1027 769 17 4096 0 512 0 s = Done (@EIO minix3) s'
             /\ dmap s' !! 3%nat = Some absent /\ revoked (trace s') = [7].
Proof.
  intros s.
  destruct (@dev_io_driver_died minix3 restarting minix3_ok 1027 769 17 4096 0 512 0 s
              {| dmap_opcl := gen_opcl_fn; dmap_io := gen_io_fn; dmap_driver := 40 |}
              (-106) (@safe_request minix3 msg0 1045 769 17 4096 0 512 7)) as (H1 & _).
  - left; reflexivity.
  - reflexivity.
  - cbn; lia.
  - reflexivity.
  - reflexivity.
  - cbn; lia.
  - vm_compute; reflexivity.
  - cbn; lia.
  - right; left; reflexivity.
  - eexists. split; [exact H1|]. split; reflexivity.
Defined.

(** X3 on a blocking read from device (3,1) that the driver answers with
    SUSPEND. *)
Lemma dev_io_suspends_caller_witness :
  let E := scripted [-998] None [] in
  let s := state0 (proc 0 0) dmap0 in
  fp s = Some 0%nat /\ fproc s !! 0%nat = Some (proc 0 0)
  /\ exists s', @dev_io minix3 E 1027 769 17 4096 0 512 0 s = Done (@SUSPEND minix3) s'
                /\ @suspended_ep minix3 40 7 s' = Done 17 s'.
Proof.
  intros E s. split; [reflexivity|]. split; [reflexivity|].
  destruct (@dev_io_suspends_caller minix3 E minix3_ok 1027 769 17 4096 0 512 0 s
              {| dmap_opcl := gen_opcl_fn; dmap_io := gen_io_fn; dmap_driver := 40 |}
              0%nat (proc 0 0)
              (reply_to (set_IO_ENDPT 1 msg0) (-998))) as (H1 & H2).
  - left; reflexivity.
  - reflexivity.
  - cbn; lia.
  - reflexivity.
  - reflexivity.
  - reflexivity.
  - reflexivity.
  - reflexivity.
  - reflexivity.
  - cbn; lia.
  - vm_compute; reflexivity.
  - reflexivity.
  - eexists. split; [exact H1|]. apply H2.
    + cbn; lia.
    + intros j q Hj. lia.
Defined.

(** X5 on device (1,0), whose major has no driver. *)
Lemma unbound_major_witness :
  let E := scripted [] None [] in
  let s := state0 (proc 0 0) dmap0 in
  dmap s !! Z.to_nat (major_of 256) = Some absent
  /\ @dev_io minix3 E 1027 256 17 4096 0 512 0 s = Done (@ENXIO minix3) s
  /\ @dev_close minix3 E 1 256 s = Done tt s.
Proof.
  intros E s. split; [reflexivity|].
  destruct (@unbound_major minix3 E 0%nat 1027 256 17 4096 0 512 0 s absent
              eq_refl eq_refl) as (H1 & _ & _ & _ & _ & H6).
  split; [exact H1|]. apply H6. lia.
Defined.

(** X6 on device (3,1), whose driver 40 is no longer a valid endpoint. *)
Lemma stale_driver_witness :
  let E := scripted [] None [40] in
  let s := state0 (proc 0 0) dmap0 in
  @k_isokendpt E (fproc s) 40 <> @OK minix3
  /\ @dev_io minix3 E 1027 769 17 4096 0 512 0 s = Done (@ENXIO minix3) s.
Proof.
  intros E s.
  assert (H : @k_isokendpt E (fproc s) 40 <> @OK minix3) by (vm_compute; discriminate).
  split; [exact H|].
  exact (proj1 (@stale_driver minix3 E 0%nat 1027 769 17 4096 0 512 0 s
                  {| dmap_opcl := gen_opcl_fn; dmap_io := gen_io_fn; dmap_driver := 40 |}
                  eq_refl H)).
Defined.

(** X7 on a gather of two elements, whose buffers are at 8192 and 9216
    and hold 512 and 513 bytes. *)
Lemma safe_io_conversion_vectored_witness :
  let E := gathering in
  let s := state0 (proc 0 0) dmap0 in
  let ev := EvGrantDirect 40 NewIovec 16 3 7 in
  exists c s' subs entries,
    @safe_io_conversion minix3 E 40 1032 1 (Caller 4096) 2 0 s = Done c s'
    /\ c_vec_grants c = 2 /\ c_buf c = NewIovec /\ c_gids c = map fst entries
    /\ trace s' = ev :: subs
    /\ take 2 (new_iovec s') = entries
    /\ @sub_grant E 40 2 (Caller 4096) [ev] subs entries 0
    /\ @sub_grant E 40 2 (Caller 4096) [ev] subs entries 1.
Proof.
  intros E s ev.
  destruct (@safe_io_conversion_vectored minix3 E minix3_ok 40 1032 1 (Caller 4096) 2 0 s)
    as (H1 & _).
  - left; reflexivity.
  - cbn; lia.
  - intros; cbn; unfold granted; lia.
  - lia.
  - destruct H1 as (subs & entries & Hrun & Hls & Hlen & Hsub).
    + cbn; lia.
    + cbn; lia.
    + eexists _, _, subs, entries. split; [exact Hrun|].
      split; [reflexivity|]. split; [reflexivity|]. split; [reflexivity|].
      split; [|split; [|split]].
      * cbn [trace set_new_iovec]. rewrite trace_logs. reflexivity.
      * cbn [new_iovec set_new_iovec].
        rewrite take_app_length' by lia. reflexivity.
      * apply (Hsub 0%nat). cbn; lia.
      * apply (Hsub 1%nat). cbn; lia.
Defined.

(** X8 on an ioctl whose request code is 0. *)
Lemma safe_io_conversion_ioctl_witness :
  let E := scripted [] None [] in
  let s := state0 (proc 0 0) dmap0 in
  @safe_io_conversion minix3 E 40 1029 17 (Caller 4096) 0 0 s
  = Done {| c_safe := true; c_gid := 7; c_op := 1049; c_gids := [];
            c_io_ept := 1; c_buf := Caller 4096; c_vec_grants := 0; c_pos := 17 |}
      (log (EvGrantMagic 40 17 (Caller 4096) 0 0 7) s).
Proof.
  intros E s.
  refine (@safe_io_conversion_ioctl minix3 E minix3_ok 40 17 (Caller 4096) 0 0 s _ _ _ _);
    cbn; lia.
Defined.

(** X9 on the conversion of a read of 512 bytes. *)
Lemma cleanup_undoes_conversion_witness :
  let E := scripted [] None [] in
  let s := state0 (proc 0 0) dmap0 in
  let c := {| c_safe := true; c_gid := 7; c_op := 1045; c_gids := [];
              c_io_ept := 1; c_buf := Caller 4096; c_vec_grants := 0; c_pos := 0 |} in
  let s1 := log (EvGrantMagic 40 17 (Caller 4096) 512 2 7) s in
  @safe_io_conversion minix3 E 40 1027 17 (Caller 4096) 512 0 s = Done c s1
  /\ exists s2, safe_io_cleanup (c_gid c) (c_gids c) (c_vec_grants c) s1 = Done tt s2
                /\ revoked (trace s2) = minted (trace s2).
Proof.
  intros E s c s1.
  assert (Hc : @safe_io_conversion minix3 E 40 1027 17 (Caller 4096) 512 0 s = Done c s1)
    by (vm_compute; reflexivity).
  split; [exact Hc|].
  destruct (@cleanup_undoes_conversion minix3 E minix3_ok _ _ _ _ _ _ _ _ _ Hc)
    as (t & Ht & Hr & Hcl).
  cbn [c_safe c] in Hcl.
  eexists. split; [exact Hcl|].
  assert (t = [EvGrantMagic 40 17 (Caller 4096) 512 2 7]) as ->
    by (exact (app_inv_head [] _ _ (eq_sym Ht))).
  reflexivity.
Defined.

(** X10 on a gather of two elements from device (3,1), answered with 4096. *)
Lemma dev_bio_completes_witness :
  let E := scripted [4096] None [] in
  let s := state0 (proc 0 0) dmap0 in
  exists r s', @dev_bio minix3 E 1 1032 769 1 4096 0 2 s = Done r s'
               /\ r = 4096 /\ revoked (trace s') = [7; 7; 7].
Proof.
  intros E s. eexists _, _. split.
  - eapply (@dev_bio_completes minix3 E minix3_ok 0%nat 1032 769 4096 0 2 s).
    + reflexivity.
    + cbn; lia.
    + reflexivity.
    + vm_compute; reflexivity.
    + reflexivity.
    + vm_compute; reflexivity.
    + vm_compute; discriminate.
  - split; reflexivity.
Defined.

(** X11 on the clone open of device (5,0). *)
Lemma clone_opcl_depth_witness :
  let E := scripted [7] None [] in
  let s := state0 (proc 0 0) dmap0 in
  @clone_opcl minix3 E 3 1030 1280 17 6 s = @clone_opcl minix3 E 2 1030 1280 17 6 s.
Proof.
  intros E s.
  exact (proj1 (@clone_opcl_depth minix3 E minix3_ok 1%nat 1030 1280 17 6 s)).
Defined.

(** X12 on the close of the clone device (5,0). *)
Lemma dev_close_keeps_files_witness :
  let E := scripted [] None [] in
  let s := state0 (proc 0 0) dmap0 in
  files_frame s (final (@dev_close minix3 E 1 1280 s)).
Proof.
  intros E s.
  exact (proj1 (@dev_close_keeps_files minix3 E minix3_ok 1%nat 1280) s).
Defined.

(** X13 on a process that has the controlling terminal (4,0). *)
Lemma pm_setsid_then_open_witness :
  let E := scripted [1] None [] in
  let s := state0 (proc 0 1024) dmap0 in
  @TRUE minix3 <> 0
  /\ @pm_setsid minix3 E 17 s = Done tt (set_fproc [proc 1 0] s).
Proof.
  intros E s.
  assert (H : @TRUE minix3 <> 0) by (cbn; lia).
  split; [exact H|].
  exact (proj1 (@pm_setsid_then_open minix3 E 1030 1024 17 6 17 s 0%nat (proc 0 1024)
                  H eq_refl eq_refl)).
Defined.

(** X14 on /dev/tty, device (6,0), for a caller without a controlling
    terminal. *)
Lemma ctty_without_terminal_witness :
  let E := scripted [] None [] in
  let s := state0 (proc 0 0) dmap0 in
  fp_tty (proc 0 0) = 0
  /\ @dev_open minix3 E 1 1536 17 0 s = Done (@ENXIO minix3) s
  /\ exists s', @dev_io minix3 E 1027 1536 17 4096 0 512 0 s = Done (@EIO minix3) s'
                /\ trace s' = [EvGrantMagic 40 17 (Caller 4096) 512 2 7; EvRevoke 7].
Proof.
  intros E s. split; [reflexivity|].
  destruct (@ctty_without_terminal minix3 E minix3_ok 1%nat 1027 1536 17 4096 0 512 0 s
              {| dmap_opcl := ctty_opcl_fn; dmap_io := ctty_io_fn; dmap_driver := 40 |}
              0%nat (proc 0 0)) as (H1 & H2).
  - left; reflexivity.
  - cbn; lia.
  - vm_compute; reflexivity.
  - reflexivity.
  - cbn; lia.
  - reflexivity.
  - reflexivity.
  - reflexivity.
  - reflexivity.
  - reflexivity.
  - reflexivity.
  - cbn; lia.
  - split; [exact H1|]. eexists. split; [exact H2|reflexivity].
Defined.

(** X15 on /dev/tty for a caller whose controlling terminal is (4,2). *)
Lemma ctty_io_redirects_witness :
  let E := scripted [512] None [] in
  let s := state0 (proc 1 1026) dmap0 in
  fp_tty (proc 1 1026) <> 0
  /\ exists r s' req rep,
       @dev_io minix3 E 1027 1536 17 4096 0 512 0 s = Done r s'
       /\ r = 512
       /\ trace s' = [EvGrantMagic 40 17 (Caller 4096) 512 2 7;
                      EvSendrec 40 req 0 rep; EvRevoke 7]
       /\ DEVICE req = 2.
Proof.
  intros E s.
  assert (H : fp_tty (proc 1 1026) <> 0) by (cbn; lia).
  split; [exact H|]. eexists _, _, _, _. split.
  - eapply (@ctty_io_redirects minix3 E minix3_ok 1027 1536 17 4096 0 512 0 s _ _
              0%nat (proc 1 1026)).
    + left; reflexivity.
    + reflexivity.
    + cbn; lia.
    + reflexivity.
    + reflexivity.
    + reflexivity.
    + reflexivity.
    + exact H.
    + reflexivity.
    + cbn; lia.
    + reflexivity.
    + reflexivity.
    + cbn; lia.
    + vm_compute; reflexivity.
    + vm_compute; discriminate.
  - split; [reflexivity|]. split; reflexivity.
Defined.

(** X16 on an ioctl on descriptor 0, whose inode is the character special
    file of device (5,0); the type mask is 61440, a block special file has
    type 24576, and ENOTTY is -25. *)
Lemma do_ioctl_request_witness :
  let E := scripted [33] None [] in
  let s := state0 (proc 0 0) dmap0 in
  let get_filp := fun _ : Z => ret (Some 0%nat) in
  exists r s' req rep,
    @do_ioctl minix3 E 61440 24576 (-25) 0 4096 17 get_filp s = Done r s'
    /\ r = 33
    /\ trace s' = [EvGrantMagic 40 17 (Caller 4096) 0 0 7;
                   EvSendrec 40 req 0 rep; EvRevoke 7]
    /\ POSITION req = 17 /\ IO_GRANT req = 7.
Proof.
  intros E s get_filp.
  destruct (@do_ioctl_request minix3 E minix3_ok 61440 24576 (-25) 0 4096 17 get_filp s
              0%nat {| filp_count := 1; filp_flags := 0; filp_ino := Some 0%nat |}
              0%nat {| i_mode := 8192; i_dev := 1; i_count := 1; i_zone0 := 1280 |}
              eq_refl eq_refl eq_refl eq_refl) as (_ & H).
  eexists _, _, _, _. split.
  - eapply (H {| dmap_opcl := clone_opcl_fn; dmap_io := gen_io_fn; dmap_driver := 40 |}).
    + left; reflexivity.
    + cbn; lia.
    + cbn; lia.
    + cbn; lia.
    + cbn; lia.
    + reflexivity.
    + cbn; lia.
    + reflexivity.
    + reflexivity.
    + cbn; lia.
    + vm_compute; reflexivity.
    + vm_compute; discriminate.
  - split; [reflexivity|]. split; [reflexivity|]. split; reflexivity.
Defined.

(** X18 on a notification from driver 40, whose first major is 3 and
    which answers the status request with a type that is not known. *)
Lemma dev_status_stops_witness :
  let E := scripted [] None [] in
  let s := state0 (proc 0 0) dmap0 in
  exists st rep,
    @dev_status minix3 E 1 (msg_from 40) s = Done tt (log (EvSendrec 40 st 0 rep) s)
    /\ m_type st = @DEV_STATUS minix3.
Proof.
  intros E s.
  destruct (@dev_status_stops minix3 E 0%nat (msg_from 40) s 3%nat
              {| dmap_opcl := gen_opcl_fn; dmap_io := gen_io_fn; dmap_driver := 40 |}
              0 (reply_to (set_m_type 1035 msg0) 0)) as (H & _).
  - reflexivity.
  - reflexivity.
  - cbn; lia.
  - cbn; lia.
  - intros [|[|[|k]]] q Hk Hq; try lia; injection Hq as <-; cbn; lia.
  - reflexivity.
  - eexists _, _. split; [apply H|reflexivity].
    + reflexivity.
    + cbn; lia.
    + cbn; lia.
Defined.

(** X19 on a notification from driver 40, which then says that the
    request made under grant 7 is done: the process that waits is
    revived. *)
Lemma dev_status_revives_witness :
  let s := state0 waiting dmap0 in
  waits_on (K := minix3) 40 7 waiting = true
  /\ exists st rep s2,
       @dev_status minix3 reviving 2 (msg_from 40) s
       = @status_loop minix3 reviving 1 3 (msg_from 40) rep s2
       /\ trace s2 = [EvSendrec 40 st 0 rep; EvRevive 17 512].
Proof.
  intros s.
  assert (Hw : waits_on (K := minix3) 40 7 waiting = true) by reflexivity.
  split; [exact Hw|].
  destruct (@dev_status_revives minix3 reviving 1%nat (msg_from 40) s 3%nat
              {| dmap_opcl := gen_opcl_fn; dmap_io := gen_io_fn; dmap_driver := 40 |}
              (snd (@k_sendrec reviving [] 40 (set_m_type 1035 msg0))))
    as (_ & H & _).
  - reflexivity.
  - reflexivity.
  - cbn; lia.
  - cbn; lia.
  - intros [|[|[|k]]] q Hk Hq; try lia; injection Hq as <-; cbn; lia.
  - cbn; lia.
  - reflexivity.
  - eexists _, _, _. split.
    + apply (H 0%nat waiting); [reflexivity|reflexivity|reflexivity|exact Hw| |cbn; lia].
      intros k q Hk. lia.
    + reflexivity.
Defined.

(** X20 on device (3,1), whose driver answers the open with 0. *)
Lemma generic_open_close_witness :
  let E := scripted [0] None [] in
  let s := state0 (proc 0 0) dmap0 in
  exists req rep,
    @dev_open minix3 E 1 769 17 6 s = Done 0 (log (EvSendrec 40 req 0 rep) s)
    /\ m_type req = @DEV_OPEN minix3 /\ DEVICE req = 1 /\ COUNT req = 6.
Proof.
  intros E s.
  destruct (@generic_open_close minix3 E 1%nat 769 17 6 s
              {| dmap_opcl := gen_opcl_fn; dmap_io := gen_io_fn; dmap_driver := 40 |})
    as (H & _).
  - lia.
  - vm_compute; reflexivity.
  - reflexivity.
  - cbn; lia.
  - reflexivity.
  - reflexivity.
  - eexists _, _. split.
    + etransitivity; [apply H; vm_compute; reflexivity|]. reflexivity.
    + split; [reflexivity|]. split; reflexivity.
Defined.

(** X21 on a block read from device (3,1): the driver dies and the
    reincarnation server binds major 3 to driver 41. *)
Lemma dev_bio_restart_witness :
  let s := state0 (proc 0 0) dmap0 in
  exists m s5,
    @dev_bio minix3 restarting 3 1027 769 1 4096 0 4096 s
    = @dev_bio_loop minix3 restarting 2 1027 769 1 4096 0 4096 m s5
    /\ dmap s5 !! 3%nat
       = Some {| dmap_opcl := gen_opcl_fn; dmap_io := gen_io_fn; dmap_driver := 41 |}
    /\ revoked (trace s5) = [7].
Proof.
  intros s.
  pose (c := {| c_safe := true; c_gid := 7; c_op := 1045; c_gids := [];
                c_io_ept := 1; c_buf := Caller 4096; c_vec_grants := 0; c_pos := 0 |}).
  pose (s1 := log (EvGrantMagic 40 1 (Caller 4096) 4096 2 7) s).
  pose (req := @safe_request minix3 msg0 1045 769 1 4096 0 4096 7).
  pose (s2 := logs (map EvRevoke [7])
                (set_dmap (@unmapped minix3 40 (dmap s1))
                   (log (EvSendrec 40 req (-106) req) s1))).
  destruct (@dev_bio_restart minix3 restarting minix3_ok 1%nat 1027 769 4096 0 4096 s
              {| dmap_opcl := gen_opcl_fn; dmap_io := gen_io_fn; dmap_driver := 40 |}
              c s1 (-106) req) with (r1 := 0)
              (m1 := snd (@k_receive restarting (trace s2) 2)) as (_ & _ & H).
  - reflexivity.
  - cbn; lia.
  - reflexivity.
  - vm_compute; reflexivity.
  - reflexivity.
  - vm_compute; reflexivity.
  - cbn; lia.
  - right; left; reflexivity.
  - reflexivity.
  - edestruct H as (_ & H5).
    + reflexivity.
    + reflexivity.
    + reflexivity.
    + eexists _, _. split; [eapply H5|split; reflexivity].
      * reflexivity.
      * reflexivity.
      * cbn; lia.
Defined.

(** X22 on the open of the clone device (5,0) that the driver answers
    with the minor 0 itself. *)
Lemma clone_opcl_no_clone_witness :
  let E := scripted [0] None [] in
  let s := state0 (proc 0 0) dmap0 in
  exists s1, @clone_opcl minix3 E 1 1030 1280 17 6 s = Done (@OK minix3) s1
             /\ inode s1 = inode s.
Proof.
  intros E s.
  destruct (@clone_opcl_no_clone minix3 E 0%nat 1030 1280 17 6 s
              {| dmap_opcl := clone_opcl_fn; dmap_io := gen_io_fn; dmap_driver := 40 |}
              0 (reply_to (set_IO_ENDPT 17 msg0) 0)
              (log (EvSendrec 40
                      (set_COUNT 6 (set_IO_ENDPT 17 (set_DEVICE (minor_of 1280)
                         (set_m_type 1030 msg0))))
                      0 (reply_to (set_IO_ENDPT 17 msg0) 0)) s))
    as (H1 & _ & H3 & _).
  - reflexivity.
  - cbn; lia.
  - reflexivity.
  - vm_compute; reflexivity.
  - right; right; right; reflexivity.
  - eexists. split; [exact H1|exact H3].
Defined.
